(** * World Bank ETL (etl.py): the loader's file check and label
      normalization, the cleaner, the transformer and the rows the sink
      builds for its two tables, as functions on tables, with the properties
      of the specification stated and settled against them.

    Conventions of the embedding.
    - A pandas float64 is an IEEE-754 binary64 value, [spec_float] with the
      Standard Library's operations at precision 53 and maximal exponent 1024.
      An int64 year value is a [Z]; a numeric cell read from a file is a
      binary64 value.
    - A cell of a table is a number or a string; the missing-value marker
      (np.nan) is the number NaN, as in pandas.
    - A DataFrame is the ordered list of its column labels and the list of its
      rows, a row giving the cell under each label: a table with distinct
      labels.  (read_csv renames repeated headers; two labels can only
      collide through the loader's normalization, and the statements that
      depend on the labels being distinct say so.)  The dtype of a column is
      read off its cells, as read_csv and the cleaner leave it: numeric
      (float64) when the table has rows and every cell under the label is a
      number, text (object, or str under pandas 3) otherwise.
    - Text is a byte string.  [isdigit], [strip] and the lower-casing of the
      loader are Python's str.isdigit, str.strip and str.lower on ASCII text
      ([ascii_text]); beyond ASCII Python consults Unicode tables that are
      not modelled, and the statements that depend on it are made for ASCII
      labels and cells.
    - Two calls of the program behave differently under pandas 2 and under
      pandas 3, and the cleaner and the transformer take the generation,
      [pandas_version], as a parameter.  Under pandas 2 a text column has
      dtype object: line 91 strips it, and groupby(...).pct_change() first
      pads the missing ratios of a group forward (its default
      fill_method='ffill').  Under pandas 3 a text column has dtype str: the
      guard [x.dtype == "object"] of line 91 is false and nothing is
      stripped, and pct_change() takes the ratios as they stand.
    - A pandas call that raises is a [Raise]; the file writes, the log and the
      printed diagnostics (including the 2020 average by region) are not part
      of the values computed and are left out. *)

From Stdlib Require Import ZArith List String Ascii Bool Lia.
From Stdlib Require Import SpecFloat PrimFloat FloatOps Sorted Permutation.
Import ListNotations.
Open Scope Z_scope.

(* ================================================================== *)
(** ** binary64 arithmetic (numpy float64) *)

Definition float64 : Type := spec_float.

Module F64.

(** A literal: the binary64 value of a primitive float constant. *)
Definition lit (x : PrimFloat.float) : float64 := Prim2SF x.

Definition nan : float64 := S754_nan.

Definition div : float64 -> float64 -> float64 := SFdiv prec emax.
Definition mul : float64 -> float64 -> float64 := SFmul prec emax.
Definition add : float64 -> float64 -> float64 := SFadd prec emax.
Definition sub : float64 -> float64 -> float64 := SFsub prec emax.

Definition is_nan (x : float64) : bool :=
  match x with S754_nan => true | _ => false end.

Definition is_inf (x : float64) : bool :=
  match x with S754_infinity _ => true | _ => false end.

Definition is_zero (x : float64) : bool :=
  match x with S754_zero _ => true | _ => false end.

(** [x == y] of IEEE-754: false as soon as one side is NaN. *)
Definition eqb (x y : float64) : bool := SFeqb x y.

Definition two52 : float64 := Eval vm_compute in lit 4503599627370496%float.

(** C's rint in the default rounding mode: the nearest integer, ties to
    even, by the usual addition and subtraction of 2^52; values of
    magnitude 2^52 and above are integers already; the sign of a zero
    result is the sign of the argument. *)
Definition rint (x : float64) : float64 :=
  match x with
  | S754_finite s _ _ =>
      if SFltb (SFabs x) two52 then
        let r := if s then add (sub x two52) two52
                 else sub (add x two52) two52 in
        match r with
        | S754_zero _ => S754_zero s
        | _ => r
        end
      else x
  | _ => x
  end.

(** 10 ** decimals as a float *)
Definition pow10 (decimals : nat) : float64 :=
  binary_normalize prec emax (10 ^ Z.of_nat decimals) 0 false.

(** numpy's around for a non-negative number of decimals:
    multiply by 10^decimals, rint, divide by 10^decimals. *)
Definition round (decimals : nat) (x : float64) : float64 :=
  div (rint (mul x (pow10 decimals))) (pow10 decimals).

End F64.

(* ================================================================== *)
(** ** Cells *)

Inductive cell : Type :=
| Num (x : float64)
| Str (s : string).

(** np.nan *)
Definition NaN : cell := Num F64.nan.

(** pandas isnull / isna on one cell *)
Definition isnull (c : cell) : bool :=
  match c with
  | Num x => F64.is_nan x
  | Str _ => false
  end.

Definition is_num (c : cell) : bool :=
  match c with Num _ => true | Str _ => false end.

(** Equality of two cells as pandas' hash tables see it (drop_duplicates,
    merge keys, groupby keys): equal values, and a missing value equals a
    missing value. *)
Definition cell_eqb (a b : cell) : bool :=
  match a, b with
  | Num x, Num y => F64.eqb x y || (F64.is_nan x && F64.is_nan y)
  | Str s, Str t => String.eqb s t
  | _, _ => false
  end.

(* ================================================================== *)
(** ** Exceptions *)

Inductive exn : Type :=
| KeyError
| ValueError
| TypeError
| OverflowError
| FileNotFoundError (path : string)
(** whatever pd.read_csv raises on a file that is there but cannot be
    parsed (EmptyDataError, ParserError, UnicodeDecodeError) *)
| ReadCsvError (path : string).

Inductive result (A : Type) : Type :=
| Ok (a : A)
| Raise (e : exn).

Arguments Ok {A} a.
Arguments Raise {A} e.

Definition bind {A B : Type} (c : result A) (k : A -> result B) : result B :=
  match c with
  | Ok a => k a
  | Raise e => Raise e
  end.

Notation "x <- c ;; k" := (bind c (fun x => k))
  (at level 61, c at next level, right associativity).

(** Run [f] on every element, left to right, stopping at the first raise. *)
Fixpoint mapM {A B : Type} (f : A -> result B) (l : list A) : result (list B) :=
  match l with
  | [] => Ok []
  | a :: l' =>
      b <- f a ;;
      bs <- mapM f l' ;;
      Ok (b :: bs)
  end.

(* ================================================================== *)
(** ** The pandas generation *)

Inductive pandas_version : Type :=
| Pandas2
| Pandas3.

(* ================================================================== *)
(** ** Strings: str.isdigit, str.strip, int(), str() *)

Definition is_ascii_char (c : ascii) : bool := (nat_of_ascii c <? 128)%nat.

(** Text made of ASCII characters only. *)
Fixpoint ascii_text (s : string) : bool :=
  match s with
  | EmptyString => true
  | String c s' => is_ascii_char c && ascii_text s'
  end.

Definition is_digit_char (c : ascii) : bool :=
  let n := nat_of_ascii c in (48 <=? n)%nat && (n <=? 57)%nat.

Fixpoint all_digits (s : string) : bool :=
  match s with
  | EmptyString => true
  | String c s' => is_digit_char c && all_digits s'
  end.

(** str.isdigit on ASCII text: at least one character and every character
    one of 0 to 9. *)
Definition isdigit (s : string) : bool :=
  match s with
  | EmptyString => false
  | _ => all_digits s
  end.

(** str.isspace on one ASCII character: tab to carriage return, the four
    separators 28 to 31 and the blank. *)
Definition is_space_char (c : ascii) : bool :=
  let n := nat_of_ascii c in
  ((9 <=? n)%nat && (n <=? 13)%nat) || ((28 <=? n)%nat && (n <=? 32)%nat).

Fixpoint lstrip (s : string) : string :=
  match s with
  | EmptyString => EmptyString
  | String c s' => if is_space_char c then lstrip s' else s
  end.

Fixpoint rstrip (s : string) : string :=
  match s with
  | EmptyString => EmptyString
  | String c s' =>
      match rstrip s' with
      | EmptyString => if is_space_char c then EmptyString else String c EmptyString
      | t => String c t
      end
  end.

(** str.strip() on ASCII text *)
Definition strip (s : string) : string := rstrip (lstrip s).

Fixpoint int_of_digits (acc : Z) (s : string) : Z :=
  match s with
  | EmptyString => acc
  | String c s' => int_of_digits (10 * acc + (Z.of_nat (nat_of_ascii c) - 48)) s'
  end.

(** int(label) for a label that satisfies [isdigit] *)
Definition int_of_str (s : string) : Z := int_of_digits 0 s.

Definition digit_char (d : Z) : ascii := ascii_of_nat (Z.to_nat (48 + d)).

(** str(y) for a four-digit year *)
Definition str_of_year (y : Z) : string :=
  String (digit_char (y / 1000 mod 10))
    (String (digit_char (y / 100 mod 10))
       (String (digit_char (y / 10 mod 10))
          (String (digit_char (y mod 10)) EmptyString))).

(** range(lo, lo + n) *)
Fixpoint range_from (lo : Z) (n : nat) : list Z :=
  match n with
  | O => []
  | S n' => lo :: range_from (lo + 1) n'
  end.

(* ================================================================== *)
(** ** DataFrames *)

Definition Row := string -> cell.

Record DataFrame : Type := mkDataFrame {
  columns : list string;
  rows : list Row
}.

Definition mem (c : string) (l : list string) : bool :=
  existsb (String.eqb c) l.

(** Some label occurs twice in the list. *)
Fixpoint has_duplicates (l : list string) : bool :=
  match l with
  | [] => false
  | c :: l' => mem c l' || has_duplicates l'
  end.

(** The labels of the table are ASCII text. *)
Definition ascii_labels (df : DataFrame) : Prop :=
  forall c, In c (columns df) -> ascii_text c = true.

(** The dtype of the column [c] is numeric: the table has rows and every
    cell under [c] is a number (a missing value included). *)
Definition is_numeric_column (frame : DataFrame) (c : string) : bool :=
  match rows frame with
  | [] => false
  | _ => forallb (fun r => is_num (r c)) (rows frame)
  end.

(** A row given by its cells label by label; other labels read as missing. *)
Fixpoint row_of (l : list (string * cell)) : Row :=
  fun c =>
    match l with
    | [] => NaN
    | (k, v) :: l' => if String.eqb c k then v else row_of l' c
    end.

(** Two rows agree on every column of the frame. *)
Definition row_eqb (cols : list string) (r1 r2 : Row) : bool :=
  forallb (fun c => cell_eqb (r1 c) (r2 c)) cols.

(** drop_duplicates(keep='first') for an equality test [eqb]: a row is kept
    when no row before it is equal to it. *)
Fixpoint drop_duplicates_from {A : Type} (eqb : A -> A -> bool)
    (seen : list A) (l : list A) : list A :=
  match l with
  | [] => []
  | x :: l' =>
      if existsb (eqb x) seen then drop_duplicates_from eqb seen l'
      else x :: drop_duplicates_from eqb (x :: seen) l'
  end.

Definition drop_duplicates {A : Type} (eqb : A -> A -> bool) (l : list A) : list A :=
  drop_duplicates_from eqb [] l.

(* ================================================================== *)
(** ** PART 2: clean_data *)

Section Clean.

Variable pd : pandas_version.

(** Python's float() on a string, used by astype(float) on the cells of a
    year column that was read as text: [None] when float() raises. *)
Variable python_float : string -> option float64.

(** df.replace(["..", "", " "], np.nan) on one cell *)
Definition replace_sentinel (c : cell) : cell :=
  match c with
  | Str s =>
      if mem s [".."; ""; " "]%string then NaN else c
  | Num _ => c
  end.

(** astype(float) on one cell *)
Definition astype_float (c : cell) : result cell :=
  match c with
  | Num x => Ok (Num x)
  | Str s =>
      match python_float s with
      | Some x => Ok (Num x)
      | None => Raise ValueError
      end
  end.

(** The cells of one row under the labels [cols] converted to float, column
    by column; the other cells stay. *)
Fixpoint astype_float_row (cols : list string) (r : Row) : result Row :=
  match cols with
  | [] => Ok r
  | c :: cols' =>
      v <- astype_float (r c) ;;
      r' <- astype_float_row cols' r ;;
      Ok (fun k => if String.eqb k c then v else r' k)
  end.

(** Line 91 on one cell of a text column.  Under pandas 2 the column has
    dtype object and the cell is stripped; under pandas 3 it has dtype str,
    the guard [x.dtype == "object"] is false and the cell is left as it is. *)
Definition strip_cell (c : cell) : cell :=
  match pd, c with
  | Pandas2, Str s => Str (strip s)
  | _, _ => c
  end.

Definition country_map : list (string * string) :=
  [ ("Kenia", "Kenya"); ("Cote d'Ivoire", "Côte d'Ivoire") ]%string.

Fixpoint lookup (k : string) (m : list (string * string)) : option string :=
  match m with
  | [] => None
  | (k', v) :: m' => if String.eqb k k' then Some v else lookup k m'
  end.

(** Series.replace(mapping) on one cell *)
Definition replace_map (m : list (string * string)) (c : cell) : cell :=
  match c with
  | Str s => match lookup s m with Some v => Str v | None => c end
  | Num _ => c
  end.

Definition valid_years : list string :=
  map str_of_year (range_from 1960 64).

(** df.isnull().all() for the column [c] *)
Definition all_null (rs : list Row) (c : string) : bool :=
  forallb (fun r => isnull (r c)) rs.

Definition clean_data (main_df meta_df pop_df : DataFrame)
  : result (DataFrame * DataFrame * DataFrame) :=
  (* main_df.replace(["..", "", " "], np.nan, inplace=True) *)
  let rows1 := map (fun r c => replace_sentinel (r c)) (rows main_df) in
  (* year_cols = [col for col in main_df.columns if col.isdigit()] *)
  let year_cols := filter isdigit (columns main_df) in
  (* main_df[year_cols] = main_df[year_cols].astype(float); with a year
     label repeated the assignment raises "Columns must be same length as
     key" *)
  rows2 <- mapM (astype_float_row year_cols) rows1 ;;
  if has_duplicates year_cols then Raise ValueError else
  (* main_df.drop_duplicates(inplace=True) *)
  let rows3 := drop_duplicates (row_eqb (columns main_df)) rows2 in
  (* text columns: x.str.strip() if x.dtype == "object" else x *)
  let rows4 := map (fun r c => strip_cell (r c)) rows3 in
  (* main_df['country_name'] = main_df['country_name'].replace(country_map) *)
  if negb (mem "country_name" (columns main_df)) then Raise KeyError else
  let rows5 :=
    map (fun r c => if String.eqb c "country_name"
                    then replace_map country_map (r c) else r c) rows4 in
  (* invalid = [col for col in year_cols if col not in valid_years] *)
  let invalid := filter (fun col => negb (mem col valid_years)) year_cols in
  (* if invalid: main_df.drop(columns=invalid, inplace=True) *)
  let columns6 := filter (fun col => negb (mem col invalid)) (columns main_df) in
  (* empty = main_df.columns[main_df.isnull().all()]; drop(columns=empty) *)
  let empty := filter (all_null rows5) columns6 in
  let columns7 := filter (fun col => negb (mem col empty)) columns6 in
  Ok (mkDataFrame columns7 rows5, meta_df, pop_df).

End Clean.

(* ================================================================== *)
(** ** Ordering of sort keys *)

(** The order sort_values puts the values of a key column in: numbers by
    value, then strings by code point, missing values last. *)
Definition cell_rank (c : cell) : Z :=
  match c with
  | Num x => if F64.is_nan x then 2 else 0
  | Str _ => 1
  end.

Definition cell_compare (a b : cell) : comparison :=
  match a, b with
  | Num x, Num y =>
      match SFcompare x y with
      | Some c => c
      | None => Z.compare (cell_rank a) (cell_rank b)
      end
  | Str s, Str t => String.compare s t
  | _, _ => Z.compare (cell_rank a) (cell_rank b)
  end.

(** Keys of the two sorts of the transformer: a label cell, then the year. *)
Definition key_leb (k1 k2 : cell * Z) : bool :=
  match cell_compare (fst k1) (fst k2) with
  | Lt => true
  | Eq => snd k1 <=? snd k2
  | Gt => false
  end.

Section Sort.
Context {A : Type} (key : A -> cell * Z).

Fixpoint insert_sorted (x : A) (l : list A) : list A :=
  match l with
  | [] => [x]
  | y :: l' =>
      if key_leb (key x) (key y) then x :: l
      else y :: insert_sorted x l'
  end.

(** sort_values on the columns of the key, ascending, missing last; rows
    with equal keys keep their order. *)
Fixpoint sort_values (l : list A) : list A :=
  match l with
  | [] => []
  | x :: l' => insert_sorted x (sort_values l')
  end.
End Sort.

(* ================================================================== *)
(** ** PART 3: transform_data *)

Record gdp_row : Type := mkGdp {
  country_name : cell;
  country_code : cell;
  region : cell;
  incomegroup : cell;
  year : Z;
  gdp : cell
}.

Record pop_row : Type := mkPop {
  pop_country_name : cell;
  pop_country_code : cell;
  pop_year : Z;
  pop_value : cell
}.

(** A row of [merged] right after the join. *)
Record merged_row : Type := mkMerged {
  left : gdp_row;
  population : cell
}.

(** A row of [merged] with its derived columns. *)
Record final_row : Type := mkFinal {
  joined : merged_row;
  gdp_per_capita : float64;
  gdp_pc_change : float64;
  continent : cell
}.

Definition id_vars : list string :=
  ["country_name"; "country_code"; "region"; "incomegroup"]%string.

Definition pop_id_vars : list string :=
  ["country_name"; "country_code"]%string.

(** value_vars = [col for col in main_clean.columns if col.isdigit()] *)
Definition value_vars (main_clean : DataFrame) : list string :=
  filter isdigit (columns main_clean).

Definition has_columns (frame : DataFrame) (labels : list string) : bool :=
  forallb (fun c => mem c (columns frame)) labels.

(** pd.melt(frame, id_vars, value_vars, value_name=...): a ValueError when
    the frame already has a column named [value_name], then a KeyError when
    a label is not a column of the frame; otherwise, for each value column
    in turn, one row per row of the frame: the row (for its identifier
    cells), the label of the value column and the cell under it. *)
Definition melt (frame : DataFrame) (ids vals : list string) (value_name : string)
  : result (list (Row * string * cell)) :=
  if mem value_name (columns frame) then Raise ValueError
  else if has_columns frame (ids ++ vals) then
    Ok (flat_map (fun v => map (fun r => (r, v, r v)) (rows frame)) vals)
  else Raise KeyError.

(** astype(int) on one year label: the labels are digit strings; a value
    that does not fit an int64 raises. *)
Definition astype_int (label : string) : result Z :=
  let y := int_of_str label in
  if y <? 2 ^ 63 then Ok y else Raise OverflowError.

Definition gdp_long_of (main_clean : DataFrame) : result (list gdp_row) :=
  m <- melt main_clean id_vars (value_vars main_clean) "gdp" ;;
  mapM (fun '(r, v, x) =>
          y <- astype_int v ;;
          Ok (mkGdp (r "country_name"%string) (r "country_code"%string)
                    (r "region"%string) (r "incomegroup"%string) y x)) m.

Definition pop_long_of (main_clean pop_clean : DataFrame) : result (list pop_row) :=
  m <- melt pop_clean pop_id_vars (value_vars main_clean) "population" ;;
  mapM (fun '(r, v, x) =>
          y <- astype_int v ;;
          Ok (mkPop (r "country_name"%string) (r "country_code"%string) y x)) m.

(** The join condition on ['country_code', 'country_name', 'year']. *)
Definition key_match (g : gdp_row) (p : pop_row) : bool :=
  cell_eqb (country_code g) (pop_country_code p)
  && cell_eqb (country_name g) (pop_country_name p)
  && (year g =? pop_year p).

(** The rows of the left join: the rows of the left table in their order,
    each once per matching right row, or once with a missing population
    when no right row matches. *)
Definition merge_left (gdp_long : list gdp_row) (pop_long : list pop_row)
  : list merged_row :=
  flat_map (fun g =>
              match filter (key_match g) pop_long with
              | [] => [mkMerged g NaN]
              | ms => map (fun p => mkMerged g (pop_value p)) ms
              end) gdp_long.

(** The key column [c] is numeric on one side of the join and text on the
    other.  The key columns of the long tables have the dtype of the
    columns of the wide tables they are copied from. *)
Definition key_dtypes_differ (left_frame right_frame : DataFrame) (c : string) : bool :=
  xorb (is_numeric_column left_frame c) (is_numeric_column right_frame c).

Definition is_empty {A : Type} (l : list A) : bool :=
  match l with [] => true | _ :: _ => false end.

(** gdp_long.merge(pop_long, on=['country_code', 'country_name', 'year'],
    how='left').  merge first checks the dtypes of each pair of key columns,
    unless exactly one of the two tables is empty: text against numbers
    raises ValueError ("You are trying to merge on object and float64
    columns").  The year columns are int64 on both sides.  Then the rows
    are joined. *)
Definition merge (main_clean pop_clean : DataFrame)
    (gdp_long : list gdp_row) (pop_long : list pop_row)
  : result (list merged_row) :=
  if negb (xorb (is_empty gdp_long) (is_empty pop_long))
     && existsb (key_dtypes_differ main_clean pop_clean)
                ["country_code"; "country_name"]%string
  then Raise ValueError
  else Ok (merge_left gdp_long pop_long).

(** One element of [merged['gdp'] / merged['population']]: float division
    of two numbers; a pair with a missing side is masked to missing; a
    string operand otherwise raises TypeError. *)
Definition truediv (a b : cell) : result float64 :=
  match a, b with
  | Num x, Num y => Ok (F64.div x y)
  | _, _ => if isnull a || isnull b then Ok F64.nan else Raise TypeError
  end.

Definition derive_ratio (merged : list merged_row)
  : result (list (merged_row * float64)) :=
  mapM (fun m => q <- truediv (gdp (left m)) (population m) ;; Ok (m, q)) merged.

(** The ratio of a row as pct_change reads it.  Under pandas 2 the ratios
    of a group are first padded forward (GroupBy.ffill): a missing ratio is
    replaced by the padded ratio of the previous row of the group, when
    there is one.  Under pandas 3 the ratio is taken as it stands.  [prev]
    holds the rows already passed with their padded ratios, the most recent
    first. *)
Definition ffill (pd : pandas_version) (prev : list (cell * float64))
    (k : cell) (x : float64) : float64 :=
  match pd with
  | Pandas2 =>
      if F64.is_nan x then
        match find (fun p => cell_eqb k (fst p)) prev with
        | Some (_, x0) => x0
        | None => x
        end
      else x
  | Pandas3 => x
  end.

(** groupby(key).pct_change(): for each row, the (padded) ratio divided by
    the (padded) ratio of the previous row with the same key, minus one;
    missing for the first row of a key and for rows whose key is missing. *)
Fixpoint pct_change_from (pd : pandas_version) (prev l : list (cell * float64))
  : list float64 :=
  match l with
  | [] => []
  | (k, x) :: l' =>
      let fx := ffill pd prev k x in
      (if isnull k then F64.nan
       else match find (fun p => cell_eqb k (fst p)) prev with
            | Some (_, x0) => F64.sub (F64.div fx x0) (F64.lit 1%float)
            | None => F64.nan
            end)
      :: pct_change_from pd ((k, fx) :: prev) l'
  end.

Definition pct_change (pd : pandas_version) (l : list (cell * float64))
  : list float64 :=
  pct_change_from pd [] l.

Definition continent_map : list (string * string) :=
  [ ("Latin America & Caribbean", "Americas");
    ("South Asia", "Asia");
    ("Sub-Saharan Africa", "Africa");
    ("Europe & Central Asia", "Europe");
    ("Middle East & North Africa", "Asia");
    ("East Asia & Pacific", "Asia");
    ("North America", "Americas") ]%string.

(** Series.map(dict) on one cell: a value that is not a key of the dict
    maps to missing. *)
Definition map_dict (m : list (string * string)) (c : cell) : cell :=
  match c with
  | Str s => match lookup s m with Some v => Str v | None => NaN end
  | Num _ => NaN
  end.

(** Series.between(lo, hi), both ends included *)
Definition between (lo hi : Z) (y : Z) : bool := (lo <=? y) && (y <=? hi).

(** DataFrame.round on one cell of a column *)
Definition round_cell (decimals : nat) (c : cell) : cell :=
  match c with
  | Num x => Num (F64.round decimals x)
  | Str _ => c
  end.

Definition round_row (r : final_row) : final_row :=
  let m := joined r in
  let g := left m in
  mkFinal
    (mkMerged
       (mkGdp (country_name g) (country_code g) (region g) (incomegroup g)
              (year g) (round_cell 2 (gdp g)))
       (population m))
    (F64.round 2 (gdp_per_capita r))
    (F64.round 4 (gdp_pc_change r))
    (continent r).

Definition code_year (x : merged_row * float64) : cell * Z :=
  (country_code (left (fst x)), year (left (fst x))).

Definition name_year (r : final_row) : cell * Z :=
  (country_name (left (joined r)), year (left (joined r))).

(** The table [merged] with the ratio, sorted by (country_code, year). *)
Definition merged_sorted (main_clean pop_clean : DataFrame)
  : result (list (merged_row * float64)) :=
  gdp_long <- gdp_long_of main_clean ;;
  pop_long <- pop_long_of main_clean pop_clean ;;
  merged <- merge main_clean pop_clean gdp_long pop_long ;;
  (* merged['gdp_per_capita'] = merged['gdp'] / merged['population'] *)
  rated <- derive_ratio merged ;;
  (* merged = merged.sort_values(['country_code', 'year']) *)
  Ok (sort_values code_year rated).

(** The columns gdp_pc_change and continent added to the sorted table. *)
Definition derive_change (pd : pandas_version)
    (sorted : list (merged_row * float64)) : list final_row :=
  (* merged.groupby('country_code')['gdp_per_capita'].pct_change() *)
  let change :=
    pct_change pd (map (fun x => (country_code (left (fst x)), snd x)) sorted) in
  (* merged['continent'] = merged['region'].map(continent_map) *)
  map (fun '(m, q, ch) => mkFinal m q ch (map_dict continent_map (region (left m))))
      (combine sorted change).

(** The table [merged] as it stands just before the year filter. *)
Definition merged_full (pd : pandas_version) (main_clean pop_clean : DataFrame)
  : result (list final_row) :=
  sorted <- merged_sorted main_clean pop_clean ;;
  (* merged = merged.sort_values(['country_name', 'year']) *)
  Ok (sort_values name_year (derive_change pd sorted)).

Definition transform_data (pd : pandas_version)
    (main_clean meta_clean pop_clean : DataFrame) : result (list final_row) :=
  merged <- merged_full pd main_clean pop_clean ;;
  (* final = merged[merged['year'].between(2010, 2020)].copy() *)
  let final := filter (fun r => between 2010 2020 (year (left (joined r)))) merged in
  (* round(2) on gdp and gdp_per_capita, round(4) on gdp_pc_change *)
  Ok (map round_row final).

(* ================================================================== *)
(** ** PART 4: load_to_postgres, the rows of the countries table *)

Record country_tuple : Type := mkCountry {
  c_country_code : cell;
  c_country_name : cell;
  c_region : cell;
  c_income_level : cell
}.

Definition country_eqb (a b : country_tuple) : bool :=
  cell_eqb (c_country_code a) (c_country_code b)
  && cell_eqb (c_country_name a) (c_country_name b)
  && cell_eqb (c_region a) (c_region b)
  && cell_eqb (c_income_level a) (c_income_level b).

(** final_df[['country_code', 'country_name', 'region', 'incomegroup']]
      .drop_duplicates().rename(columns={'incomegroup': 'income_level'}) *)
Definition countries_df (final_df : list final_row) : list country_tuple :=
  drop_duplicates country_eqb
    (map (fun r => let g := left (joined r) in
                   mkCountry (country_code g) (country_name g)
                             (region g) (incomegroup g)) final_df).


(* ================================================================== *)
(** ** The end-to-end scenario of the specification *)

(** Entity "A" (code "AAA", region "South Asia"), 2019 = 100, 2020 = 110;
    the income group is left open. *)
Definition main_AAA (income : cell) : DataFrame :=
  mkDataFrame
    ["country_name"; "country_code"; "region"; "incomegroup"; "2019"; "2020"]%string
    [ row_of [ ("country_name", Str "A"); ("country_code", Str "AAA");
               ("region", Str "South Asia"); ("incomegroup", income);
               ("2019", Num (F64.lit 100)); ("2020", Num (F64.lit 110)) ]%string ].

(** The matching entity of the population table, 2019 = 10, 2020 = 11. *)
Definition pop_AAA : DataFrame :=
  mkDataFrame
    ["country_name"; "country_code"; "2019"; "2020"]%string
    [ row_of [ ("country_name", Str "A"); ("country_code", Str "AAA");
               ("2019", Num (F64.lit 10)); ("2020", Num (F64.lit 11)) ]%string ].

Definition meta_none : DataFrame := mkDataFrame [] [].

Definition export_AAA (income : cell) (y : Z) (g p : PrimFloat.float)
    (change : float64) : final_row :=
  mkFinal
    (mkMerged
       (mkGdp (Str "A") (Str "AAA") (Str "South Asia") income y (Num (F64.lit g)))
       (Num (F64.lit p)))
    (F64.lit 10) change (Str "Asia").

(* ================================================================== *)
(** ** General facts: the result monad, sorting, membership *)

Lemma bind_Ok {A B : Type} (c : result A) (k : A -> result B) (b : B) :
  bind c k = Ok b -> exists a, c = Ok a /\ k a = Ok b.
Proof.
  destruct c as [a|e]; simpl; intros H.
  - exists a. split; [reflexivity | exact H].
  - discriminate H.
Qed.

Lemma mapM_Ok_Forall2 {A B : Type} (f : A -> result B) (l : list A) (out : list B) :
  mapM f l = Ok out -> Forall2 (fun a b => f a = Ok b) l out.
Proof.
  revert out. induction l as [|a l IH]; simpl; intros out H.
  - injection H as <-. constructor.
  - apply bind_Ok in H. destruct H as [b [Hb H]].
    apply bind_Ok in H. destruct H as [bs [Hbs H]].
    injection H as <-. constructor; [exact Hb | apply IH, Hbs].
Qed.

Lemma mapM_total {A B : Type} (f : A -> result B) (l : list A) :
  (forall a, In a l -> exists b, f a = Ok b) -> exists out, mapM f l = Ok out.
Proof.
  induction l as [|a l IH]; simpl; intros H.
  - eexists. reflexivity.
  - destruct (H a (or_introl eq_refl)) as [b Hb].
    destruct IH as [bs Hbs]. { intros x Hx. apply H. right. exact Hx. }
    rewrite Hb, Hbs. simpl. eexists. reflexivity.
Qed.

Lemma insert_sorted_perm {A : Type} (key : A -> cell * Z) (x : A) (l : list A) :
  Permutation (insert_sorted key x l) (x :: l).
Proof.
  induction l as [|y l IH]; simpl.
  - apply Permutation_refl.
  - destruct (key_leb (key x) (key y)).
    + apply Permutation_refl.
    + eapply perm_trans; [apply perm_skip, IH | apply perm_swap].
Qed.

Lemma sort_values_perm {A : Type} (key : A -> cell * Z) (l : list A) :
  Permutation (sort_values key l) l.
Proof.
  induction l as [|x l IH]; simpl.
  - constructor.
  - eapply perm_trans; [apply insert_sorted_perm | apply perm_skip, IH].
Qed.

Lemma sort_values_In {A : Type} (key : A -> cell * Z) (l : list A) (x : A) :
  In x (sort_values key l) <-> In x l.
Proof.
  split; apply Permutation_in;
    [apply sort_values_perm | apply Permutation_sym, sort_values_perm].
Qed.

Lemma sort_values_length {A : Type} (key : A -> cell * Z) (l : list A) :
  List.length (sort_values key l) = List.length l.
Proof. apply Permutation_length, sort_values_perm. Qed.

(** What [transform_data] returns, in terms of the table before the filter. *)
Lemma transform_data_Ok {pd : pandas_version} main_clean meta_clean pop_clean final :
  transform_data pd main_clean meta_clean pop_clean = Ok final ->
  exists sorted,
    merged_sorted main_clean pop_clean = Ok sorted /\
    final = map round_row
              (filter (fun r => between 2010 2020 (year (left (joined r))))
                 (sort_values name_year (derive_change pd sorted))).
Proof.
  unfold transform_data, merged_full. intros H.
  apply bind_Ok in H. destruct H as [m [Hm H]].
  apply bind_Ok in Hm. destruct Hm as [s [Hs Hm]].
  injection Hm as <-. injection H as <-.
  exists s. split; [exact Hs | reflexivity].
Qed.

Lemma transform_data_In {pd : pandas_version} main_clean meta_clean pop_clean final r :
  transform_data pd main_clean meta_clean pop_clean = Ok final ->
  In r final ->
  exists sorted r0,
    merged_sorted main_clean pop_clean = Ok sorted /\
    In r0 (derive_change pd sorted) /\
    between 2010 2020 (year (left (joined r0))) = true /\
    r = round_row r0.
Proof.
  intros H Hr. apply transform_data_Ok in H. destruct H as [s [Hs ->]].
  apply in_map_iff in Hr. destruct Hr as [r0 [<- Hr0]].
  apply filter_In in Hr0. destruct Hr0 as [Hr0 Hy].
  apply sort_values_In in Hr0.
  exists s, r0. auto.
Qed.

Lemma derive_change_continent {pd : pandas_version} sorted r :
  In r (derive_change pd sorted) ->
  continent r = map_dict continent_map (region (left (joined r))).
Proof.
  unfold derive_change. intros H.
  apply in_map_iff in H. destruct H as [[[m q] ch] [<- _]]. reflexivity.
Qed.

(* ================================================================== *)
(** ** Categorical remap *)

(** C6. In the table transform_data returns, the continent of every row is
    the region of that row looked up in the fixed region-to-continent
    table: region "Sub-Saharan Africa" gives continent "Africa", a region
    that is not a key of the table (a string outside it, or a missing region)
    gives a missing continent; the remap and the steps after it never raise:
    once the table has been joined, rated and sorted, transform_data returns. *)
Theorem continent_is_mapped_region (pd : pandas_version) main_clean meta_clean pop_clean :
  (forall final r,
      transform_data pd main_clean meta_clean pop_clean = Ok final ->
      In r final ->
      continent r = map_dict continent_map (region (left (joined r))) /\
      (region (left (joined r)) = Str "Sub-Saharan Africa" ->
       continent r = Str "Africa") /\
      ((forall s, region (left (joined r)) = Str s ->
                  lookup s continent_map = None) ->
       continent r = NaN)) /\
  (forall sorted,
      merged_sorted main_clean pop_clean = Ok sorted ->
      exists final, transform_data pd main_clean meta_clean pop_clean = Ok final).
Proof.
  split.
  - intros final r H Hr.
    destruct (transform_data_In _ _ _ _ _ H Hr) as [s [r0 [_ [Hr0 [_ ->]]]]].
    apply derive_change_continent in Hr0.
    assert (E : continent (round_row r0)
                = map_dict continent_map (region (left (joined (round_row r0))))).
    { simpl. exact Hr0. }
    split; [exact E|]. split.
    + intros Hreg. rewrite E, Hreg. reflexivity.
    + intros Hnone. rewrite E.
      destruct (region (left (joined (round_row r0)))) as [x|t]; unfold map_dict.
      * reflexivity.
      * rewrite (Hnone t eq_refl). reflexivity.
  - intros s Hs. unfold transform_data, merged_full. rewrite Hs. simpl.
    eexists. reflexivity.
Qed.

(** The two rows of the end-to-end scenario carry continent "Asia". *)
Lemma continent_is_mapped_region_witness :
  continent (round_row (export_AAA NaN 2020 110 11 (S754_zero false)))
  = map_dict continent_map (Str "South Asia").
Proof.
  refine (proj1 (proj1 (continent_is_mapped_region Pandas3 (main_AAA NaN) meta_none pop_AAA)
                   _ (round_row (export_AAA NaN 2020 110 11 (S754_zero false))) _ _)).
  - vm_compute. reflexivity.
  - vm_compute. right. left. reflexivity.
Defined.

(* ================================================================== *)
(** ** The stages of the transformer, one by one *)

Lemma mapM_Ok_map {A B : Type} (f : A -> result B) (g : A -> B) (l : list A) out :
  (forall a b, f a = Ok b -> b = g a) ->
  mapM f l = Ok out -> out = map g l.
Proof.
  intros Hfg H. apply mapM_Ok_Forall2 in H.
  induction H as [|a b l out Hab _ IH]; simpl.
  - reflexivity.
  - rewrite (Hfg _ _ Hab), IH. reflexivity.
Qed.

Lemma astype_int_Ok label y : astype_int label = Ok y -> y = int_of_str label.
Proof.
  unfold astype_int. destruct (int_of_str label <? 2 ^ 63); intros H.
  - injection H as <-. reflexivity.
  - discriminate H.
Qed.

(** The row of gdp_long made from the row [r] of the main table and its
    year column [v]. *)
Definition gdp_row_of (r : Row) (v : string) : gdp_row :=
  mkGdp (r "country_name"%string) (r "country_code"%string)
        (r "region"%string) (r "incomegroup"%string) (int_of_str v) (r v).

Definition pop_row_of (r : Row) (v : string) : pop_row :=
  mkPop (r "country_name"%string) (r "country_code"%string) (int_of_str v) (r v).

Lemma flat_map_map {A B C : Type} (f : A -> list B) (g : B -> C) (l : list A) :
  map g (flat_map f l) = flat_map (fun a => map g (f a)) l.
Proof.
  induction l as [|a l IH]; simpl.
  - reflexivity.
  - rewrite map_app, IH. reflexivity.
Qed.

Lemma gdp_long_of_Ok main_clean gdp_long :
  gdp_long_of main_clean = Ok gdp_long ->
  has_columns main_clean (id_vars ++ value_vars main_clean) = true /\
  gdp_long = flat_map (fun v => map (fun r => gdp_row_of r v) (rows main_clean))
               (value_vars main_clean).
Proof.
  unfold gdp_long_of, melt. intros H.
  destruct (mem "gdp" (columns main_clean)); [discriminate H|].
  destruct (has_columns main_clean (id_vars ++ value_vars main_clean)); simpl in H;
    [|discriminate H].
  split; [reflexivity|].
  apply (mapM_Ok_map _ (fun '(r, v, x) => mkGdp (r "country_name"%string)
           (r "country_code"%string) (r "region"%string) (r "incomegroup"%string)
           (int_of_str v) x)) in H.
  - rewrite H, flat_map_map. apply flat_map_ext. intros v.
    rewrite map_map. reflexivity.
  - intros [[r v] x] b Hb. apply bind_Ok in Hb. destruct Hb as [y [Hy Hb]].
    apply astype_int_Ok in Hy. injection Hb as <-. rewrite Hy. reflexivity.
Qed.

Lemma pop_long_of_Ok main_clean pop_clean pop_long :
  pop_long_of main_clean pop_clean = Ok pop_long ->
  has_columns pop_clean (pop_id_vars ++ value_vars main_clean) = true /\
  pop_long = flat_map (fun v => map (fun r => pop_row_of r v) (rows pop_clean))
               (value_vars main_clean).
Proof.
  unfold pop_long_of, melt. intros H.
  destruct (mem "population" (columns pop_clean)); [discriminate H|].
  destruct (has_columns pop_clean (pop_id_vars ++ value_vars main_clean)); simpl in H;
    [|discriminate H].
  split; [reflexivity|].
  apply (mapM_Ok_map _ (fun '(r, v, x) => mkPop (r "country_name"%string)
           (r "country_code"%string) (int_of_str v) x)) in H.
  - rewrite H, flat_map_map. apply flat_map_ext. intros v.
    rewrite map_map. reflexivity.
  - intros [[r v] x] b Hb. apply bind_Ok in Hb. destruct Hb as [y [Hy Hb]].
    apply astype_int_Ok in Hy. injection Hb as <-. rewrite Hy. reflexivity.
Qed.

Lemma In_gdp_long main_clean gdp_long g :
  gdp_long_of main_clean = Ok gdp_long ->
  (In g gdp_long <->
   exists r v, In r (rows main_clean) /\ In v (value_vars main_clean) /\
               g = gdp_row_of r v).
Proof.
  intros H. apply gdp_long_of_Ok in H. destruct H as [_ ->].
  rewrite in_flat_map. split.
  - intros [v [Hv Hg]]. apply in_map_iff in Hg. destruct Hg as [r [<- Hr]].
    exists r, v. auto.
  - intros [r [v [Hr [Hv ->]]]]. exists v. split; [exact Hv|].
    apply in_map_iff. exists r. auto.
Qed.

(** The rows a left row contributes to the join. *)
Definition joined_rows (pop_long : list pop_row) (g : gdp_row) : list merged_row :=
  match filter (key_match g) pop_long with
  | [] => [mkMerged g NaN]
  | ms => map (fun p => mkMerged g (pop_value p)) ms
  end.

Lemma merge_left_flat_map gdp_long pop_long :
  merge_left gdp_long pop_long = flat_map (joined_rows pop_long) gdp_long.
Proof. reflexivity. Qed.

Lemma joined_rows_left pop_long g m :
  In m (joined_rows pop_long g) -> left m = g.
Proof.
  unfold joined_rows. destruct (filter (key_match g) pop_long) as [|p ms].
  - intros [<-|[]]. reflexivity.
  - intros H. apply in_map_iff in H. destruct H as [p' [<- _]]. reflexivity.
Qed.

Lemma joined_rows_nonempty pop_long g :
  exists m, In m (joined_rows pop_long g).
Proof.
  unfold joined_rows. destruct (filter (key_match g) pop_long) as [|p ms].
  - eexists. left. reflexivity.
  - eexists. left. reflexivity.
Qed.

Lemma In_merge_left gdp_long pop_long g :
  In g gdp_long <-> exists m, In m (merge_left gdp_long pop_long) /\ left m = g.
Proof.
  rewrite merge_left_flat_map. split.
  - intros Hg. destruct (joined_rows_nonempty pop_long g) as [m Hm].
    exists m. split; [|eapply joined_rows_left, Hm].
    apply in_flat_map. exists g. auto.
  - intros [m [Hm <-]]. apply in_flat_map in Hm. destruct Hm as [g' [Hg' Hm]].
    rewrite (joined_rows_left _ _ _ Hm). exact Hg'.
Qed.

Lemma derive_ratio_Ok merged rated :
  derive_ratio merged = Ok rated ->
  map fst rated = merged /\
  Forall (fun x => truediv (gdp (left (fst x))) (population (fst x)) = Ok (snd x)) rated.
Proof.
  unfold derive_ratio. intros H. apply mapM_Ok_Forall2 in H.
  induction H as [|m x l out Hmx _ [IH1 IH2]]; simpl.
  - split; constructor.
  - apply bind_Ok in Hmx. destruct Hmx as [q [Hq Hx]]. injection Hx as <-.
    simpl in *. rewrite IH1. split; [reflexivity|]. constructor; assumption.
Qed.

Lemma pct_change_from_length {pd : pandas_version} prev l :
  List.length (pct_change_from pd prev l) = List.length l.
Proof.
  revert prev. induction l as [|[k x] l IH]; simpl; intros prev.
  - reflexivity.
  - rewrite IH. reflexivity.
Qed.

Lemma map_fst_combine {A B : Type} (l : list A) (l' : list B) :
  List.length l = List.length l' -> map fst (combine l l') = l.
Proof.
  revert l'. induction l as [|a l IH]; intros [|b l'] H; simpl in *;
    try discriminate; try reflexivity.
  rewrite IH; [reflexivity | lia].
Qed.

(** Adding the change and the continent keeps the rows and their ratios. *)
Lemma derive_change_rows {pd : pandas_version} sorted :
  map (fun r => (joined r, gdp_per_capita r)) (derive_change pd sorted) = sorted.
Proof.
  unfold derive_change, pct_change.
  rewrite map_map.
  erewrite map_ext with (g := fun x => fst x).
  - apply map_fst_combine. rewrite pct_change_from_length, length_map. reflexivity.
  - intros [[m q] ch]. reflexivity.
Qed.

Lemma In_derive_change {pd : pandas_version} sorted m :
  (exists q, In (m, q) sorted) <-> (exists r, In r (derive_change pd sorted) /\ joined r = m).
Proof.
  pose proof (derive_change_rows (pd := pd) sorted) as E. split.
  - intros [q H]. rewrite <- E in H. apply in_map_iff in H.
    destruct H as [r [Er Hr]]. injection Er as E1 E2. exists r. auto.
  - intros [r [Hr <-]]. exists (gdp_per_capita r).
    rewrite <- E. apply in_map_iff. exists r. auto.
Qed.

Lemma merge_Ok main_clean pop_clean gdp_long pop_long merged :
  merge main_clean pop_clean gdp_long pop_long = Ok merged ->
  merged = merge_left gdp_long pop_long.
Proof.
  unfold merge.
  destruct (negb (xorb (is_empty gdp_long) (is_empty pop_long))
            && existsb (key_dtypes_differ main_clean pop_clean)
                       ["country_code"; "country_name"]%string);
    intros H; [discriminate H | injection H as <-; reflexivity].
Qed.

Lemma merged_sorted_Ok main_clean pop_clean sorted :
  merged_sorted main_clean pop_clean = Ok sorted ->
  exists gdp_long pop_long rated,
    gdp_long_of main_clean = Ok gdp_long /\
    pop_long_of main_clean pop_clean = Ok pop_long /\
    derive_ratio (merge_left gdp_long pop_long) = Ok rated /\
    sorted = sort_values code_year rated.
Proof.
  unfold merged_sorted. intros H.
  apply bind_Ok in H. destruct H as [gl [Hg H]].
  apply bind_Ok in H. destruct H as [pl [Hp H]].
  apply bind_Ok in H. destruct H as [merged [Hm H]].
  apply merge_Ok in Hm. subst merged.
  apply bind_Ok in H. destruct H as [rated [Hr H]]. injection H as <-.
  exists gl, pl, rated. auto.
Qed.

(** The join passed its check of the key columns. *)
Lemma merged_sorted_merge main_clean pop_clean sorted gdp_long pop_long :
  merged_sorted main_clean pop_clean = Ok sorted ->
  gdp_long_of main_clean = Ok gdp_long ->
  pop_long_of main_clean pop_clean = Ok pop_long ->
  merge main_clean pop_clean gdp_long pop_long = Ok (merge_left gdp_long pop_long).
Proof.
  unfold merged_sorted. intros H Hg Hp. rewrite Hg, Hp in H. cbn [bind] in H.
  destruct (merge main_clean pop_clean gdp_long pop_long) as [m|e] eqn:E;
    [|discriminate H].
  rewrite (merge_Ok _ _ _ _ _ E). reflexivity.
Qed.

(** The rows of the table before the filter are, up to the join, the
    (row, year column) pairs of the main table. *)
Lemma merged_full_rows {pd : pandas_version} main_clean pop_clean merged g :
  merged_full pd main_clean pop_clean = Ok merged ->
  ((exists r, In r merged /\ left (joined r) = g) <->
   (exists row v, In row (rows main_clean) /\ In v (value_vars main_clean) /\
                  g = gdp_row_of row v)).
Proof.
  unfold merged_full. intros H.
  apply bind_Ok in H. destruct H as [sorted [Hs H]]. injection H as <-.
  destruct (merged_sorted_Ok _ _ _ Hs) as [gl [pl [rated [Hgl [Hpl [Hr ->]]]]]].
  apply derive_ratio_Ok in Hr. destruct Hr as [Hr _].
  rewrite <- (In_gdp_long _ _ g Hgl), (In_merge_left gl pl g), <- Hr.
  split.
  - intros [r [Hin Hg]]. apply sort_values_In in Hin.
    destruct (proj2 (In_derive_change _ (joined r)) (ex_intro _ r (conj Hin eq_refl)))
      as [q Hq].
    apply sort_values_In in Hq.
    exists (joined r). split; [|exact Hg].
    apply in_map_iff. exists (joined r, q). auto.
  - intros [m [Hm Hg]]. apply in_map_iff in Hm. destruct Hm as [[m' q] [E Hm]].
    simpl in E. subst m'.
    destruct (proj1 (In_derive_change (pd := pd) (sort_values code_year rated) m))
      as [r [Hr' Hj]].
    { exists q. apply sort_values_In. exact Hm. }
    exists r. split; [apply sort_values_In; exact Hr' | rewrite Hj; exact Hg].
Qed.

(* ================================================================== *)
(** ** End-to-end scenario *)

(** C3. Main table with entity "A" (code "AAA", region "South Asia"),
    2019 = 100 and 2020 = 110, population table with the matching entity,
    2019 = 10 and 2020 = 11, whatever the income group and the metadata
    table: transform_data returns exactly two rows, both for "AAA", both with
    ratio 10.0 and continent "Asia"; the change of the 2020 row is 0.0 (the
    change of the 2019 row, the first year of the entity, is missing). *)
Theorem end_to_end_AAA (pd : pandas_version) (income : cell)
    (meta_clean : DataFrame) :
  transform_data pd (main_AAA income) meta_clean pop_AAA
  = Ok [ export_AAA income 2019 100 10 F64.nan;
         export_AAA income 2020 110 11 (F64.lit 0) ] /\
  forall r, In r [ export_AAA income 2019 100 10 F64.nan;
                   export_AAA income 2020 110 11 (F64.lit 0) ] ->
    country_code (left (joined r)) = Str "AAA" /\
    gdp_per_capita r = F64.lit 10 /\
    continent r = Str "Asia" /\
    (year (left (joined r)) = 2020 -> gdp_pc_change r = F64.lit 0).
Proof.
  split.
  - destruct pd; vm_compute; reflexivity.
  - intros r [<-|[<-|[]]]; simpl; repeat split; try reflexivity.
    intros H. discriminate H.
Qed.

(* ================================================================== *)
(** ** Filter boundary *)

Definition row_year (r : final_row) : Z := year (left (joined r)).

Lemma round_row_year r : row_year (round_row r) = row_year r.
Proof. reflexivity. Qed.

Lemma between_spec lo hi y : between lo hi y = true <-> lo <= y <= hi.
Proof. unfold between. rewrite andb_true_iff, !Z.leb_le. tauto. Qed.

Lemma map_filter_comm {A B : Type} (f : A -> B) (p : B -> bool) (l : list A) :
  map f (filter (fun a => p (f a)) l) = filter p (map f l).
Proof.
  induction l as [|a l IH]; simpl.
  - reflexivity.
  - destruct (p (f a)); simpl; rewrite IH; reflexivity.
Qed.

(** C5. Whenever transform_data returns, the export holds exactly the rows
    of the sorted table whose year is in [2010, 2020], in their order: its
    years are the years of that table that lie in the window; every row of
    the export has its year in the window; a row of the table is exported
    (rounded) if and only if its year is in the window, so a row of year 2009
    is excluded and the rows of years 2010 and 2020 are included; and for
    every row of the main table and every year column of it, the export has
    a row for that entity and year if and only if the year is in the window. *)
Theorem export_year_window (pd : pandas_version) main_clean meta_clean pop_clean final :
  transform_data pd main_clean meta_clean pop_clean = Ok final ->
  exists merged,
    merged_full pd main_clean pop_clean = Ok merged /\
    map row_year final = filter (between 2010 2020) (map row_year merged) /\
    (forall r, In r final -> 2010 <= row_year r <= 2020) /\
    (forall r0, In r0 merged ->
       (In (round_row r0) final <-> 2010 <= row_year r0 <= 2020)) /\
    (forall r0, In r0 merged -> row_year r0 = 2009 -> ~ In (round_row r0) final) /\
    (forall r0, In r0 merged -> row_year r0 = 2010 \/ row_year r0 = 2020 ->
       In (round_row r0) final) /\
    (forall row v, In row (rows main_clean) -> In v (value_vars main_clean) ->
       ((exists r, In r final /\
                   country_code (left (joined r)) = row "country_code"%string /\
                   country_name (left (joined r)) = row "country_name"%string /\
                   row_year r = int_of_str v)
        <-> 2010 <= int_of_str v <= 2020)).
Proof.
  intros H. unfold transform_data in H.
  apply bind_Ok in H. destruct H as [merged [Hm H]]. injection H as <-.
  exists merged. split; [exact Hm|].
  assert (Hyears : forall r,
             In r (map round_row (filter (fun r => between 2010 2020 (row_year r)) merged)) ->
             2010 <= row_year r <= 2020).
  { intros r Hr. apply in_map_iff in Hr. destruct Hr as [r0 [<- Hr0]].
    apply filter_In in Hr0. rewrite round_row_year. apply between_spec, Hr0. }
  assert (Hiff : forall r0, In r0 merged ->
             (In (round_row r0)
                 (map round_row (filter (fun r => between 2010 2020 (row_year r)) merged))
              <-> 2010 <= row_year r0 <= 2020)).
  { intros r0 Hr0. split.
    - intros Hin. rewrite <- round_row_year. apply Hyears, Hin.
    - intros Hy. apply in_map. apply filter_In. split; [exact Hr0|].
      apply between_spec, Hy. }
  split; [|split; [exact Hyears | split; [exact Hiff | split; [|split]]]].
  - rewrite map_map.
    rewrite (map_ext (fun x => row_year (round_row x)) row_year round_row_year).
    apply (map_filter_comm row_year (between 2010 2020)).
  - intros r0 Hr0 Hy Hin. apply Hiff in Hin; [lia | exact Hr0].
  - intros r0 Hr0 Hy. apply Hiff; [exact Hr0 | lia].
  - intros row v Hrow Hv. split.
    + intros [r [Hr [_ [_ Hy]]]]. rewrite <- Hy. apply Hyears, Hr.
    + intros Hy.
      destruct (proj2 (merged_full_rows _ _ _ (gdp_row_of row v) Hm)) as [r0 [Hr0 Hg]].
      { exists row, v. auto. }
      exists (round_row r0). split.
      * apply Hiff; [exact Hr0|]. unfold row_year. rewrite Hg. exact Hy.
      * unfold row_year. simpl. rewrite Hg. simpl. repeat split; reflexivity.
Qed.

(** In the end-to-end scenario both years, 2019 and 2020, are in the window. *)
Lemma export_year_window_witness :
  exists merged,
    merged_full Pandas3 (main_AAA NaN) pop_AAA = Ok merged /\
    map row_year [ export_AAA NaN 2019 100 10 F64.nan;
                   export_AAA NaN 2020 110 11 (F64.lit 0) ]
    = filter (between 2010 2020) (map row_year merged).
Proof.
  destruct (export_year_window Pandas3 (main_AAA NaN) meta_none pop_AAA
              [ export_AAA NaN 2019 100 10 F64.nan;
                export_AAA NaN 2020 110 11 (F64.lit 0) ])
    as [merged [Hm [Hy _]]].
  - vm_compute. reflexivity.
  - exists merged. split; [exact Hm | exact Hy].
Defined.

(* ================================================================== *)
(** ** The order of sort keys is a total preorder *)

Ltac cmp_cases :=
  repeat match goal with
  | |- context [Z.compare ?a ?b] => destruct (Z.compare_spec a b)
  | H : context [Z.compare ?a ?b] |- _ => destruct (Z.compare_spec a b)
  | |- context [Pos.compare_cont Eq ?a ?b] =>
      change (Pos.compare_cont Eq a b) with (Pos.compare a b);
      destruct (Pos.compare_spec a b)
  | H : context [Pos.compare_cont Eq ?a ?b] |- _ =>
      change (Pos.compare_cont Eq a b) with (Pos.compare a b) in H;
      destruct (Pos.compare_spec a b)
  end.

Lemma SFcompare_refl x : F64.is_nan x = false -> SFcompare x x = Some Eq.
Proof.
  destruct x as [s|s| |s m e]; simpl; intros H; try discriminate H.
  - reflexivity.
  - destruct s; reflexivity.
  - rewrite Z.compare_refl, Pos.compare_cont_refl. destruct s; reflexivity.
Qed.

Lemma SFcompare_antisym x y :
  SFcompare y x = option_map CompOpp (SFcompare x y).
Proof.
  destruct x as [s1|s1| |s1 m1 e1], y as [s2|s2| |s2 m2 e2]; simpl;
    try destruct s1; try destruct s2; simpl; try reflexivity;
    cmp_cases; simpl; subst; try reflexivity; try lia.
Qed.

Lemma SFcompare_Eq_l x y z :
  SFcompare x y = Some Eq -> SFcompare x z = SFcompare y z.
Proof.
  destruct x as [s1|s1| |s1 m1 e1], y as [s2|s2| |s2 m2 e2]; simpl;
    try destruct s1; try destruct s2; simpl; intros H; try discriminate H;
    try reflexivity;
    destruct z as [s3|s3| |s3 m3 e3]; simpl; try reflexivity;
    cmp_cases; simpl in *; subst; try discriminate; try reflexivity; try lia.
Qed.

Lemma SFcompare_Lt_trans x y z :
  SFcompare x y = Some Lt -> SFcompare y z = Some Lt -> SFcompare x z = Some Lt.
Proof.
  destruct x as [s1|s1| |s1 m1 e1], y as [s2|s2| |s2 m2 e2]; simpl;
    try destruct s1; try destruct s2; simpl; intros H; try discriminate H;
    destruct z as [s3|s3| |s3 m3 e3]; simpl; try destruct s3; simpl; intros H';
    try discriminate H'; try reflexivity;
    cmp_cases; simpl in *; subst; try discriminate; try reflexivity; try lia.
Qed.

Lemma string_compare_refl s : String.compare s s = Eq.
Proof.
  induction s as [|c s IH]; simpl.
  - reflexivity.
  - unfold Ascii.compare. rewrite N.compare_refl. exact IH.
Qed.

Lemma string_compare_Eq s t : String.compare s t = Eq <-> s = t.
Proof.
  split.
  - apply String.compare_eq_iff.
  - intros ->. apply string_compare_refl.
Qed.

Lemma string_compare_Lt_trans s t u :
  String.compare s t = Lt -> String.compare t u = Lt -> String.compare s u = Lt.
Proof.
  revert t u. induction s as [|a s IH]; intros [|b t] [|c u]; simpl;
    try discriminate; try reflexivity.
  unfold Ascii.compare.
  destruct (N.compare_spec (N_of_ascii a) (N_of_ascii b)) as [E1|L1|G1];
    try discriminate;
    destruct (N.compare_spec (N_of_ascii b) (N_of_ascii c)) as [E2|L2|G2];
    try discriminate; intros H1 H2.
  - rewrite E1, E2, N.compare_refl. eapply IH; eassumption.
  - rewrite E1. apply N.compare_lt_iff in L2. rewrite L2. reflexivity.
  - rewrite <- E2. apply N.compare_lt_iff in L1. rewrite L1. reflexivity.
  - assert (L : (N_of_ascii a < N_of_ascii c)%N) by lia.
    apply N.compare_lt_iff in L. rewrite L. reflexivity.
Qed.

Lemma cell_compare_antisym a b : cell_compare b a = CompOpp (cell_compare a b).
Proof.
  destruct a as [x|s], b as [y|t]; simpl.
  - rewrite (SFcompare_antisym x y).
    destruct (SFcompare x y) as [c|] eqn:E; simpl; [reflexivity|].
    destruct x, y; simpl in *; try discriminate E; reflexivity.
  - destruct x; reflexivity.
  - destruct y; reflexivity.
  - apply String.compare_antisym.
Qed.

Lemma cell_compare_Eq a b : cell_compare a b = Eq <-> cell_eqb a b = true.
Proof.
  destruct a as [x|s], b as [y|t]; simpl.
  - unfold F64.eqb, SFeqb.
    destruct x, y; simpl; try destruct s; try destruct s0; simpl;
      try (split; (reflexivity || discriminate));
      destruct (e ?= e0); destruct (Pos.compare_cont Eq m m0); simpl;
      split; (reflexivity || discriminate).
  - destruct x; simpl; split; discriminate.
  - destruct y; simpl; split; discriminate.
  - rewrite string_compare_Eq. symmetry. apply String.eqb_eq.
Qed.

Lemma cell_compare_refl a : cell_compare a a = Eq.
Proof.
  destruct a as [x|s]; simpl.
  - destruct (F64.is_nan x) eqn:E.
    + destruct x; try discriminate E. reflexivity.
    + rewrite (SFcompare_refl x E). reflexivity.
  - apply string_compare_refl.
Qed.

Lemma cell_compare_Eq_l a b c :
  cell_compare a b = Eq -> cell_compare a c = cell_compare b c.
Proof.
  destruct a as [x|s], b as [y|t]; simpl.
  - destruct (SFcompare x y) as [k|] eqn:E.
    + intros ->. destruct c as [z|u]; simpl.
      * rewrite (SFcompare_Eq_l x y z E). destruct (SFcompare y z); [reflexivity|].
        destruct x, y; simpl in *; try discriminate E; reflexivity.
      * destruct x, y; simpl in *; try discriminate E; reflexivity.
    + destruct x, y; simpl in *; try discriminate E; try discriminate.
      intros _. destruct c as [z|u]; reflexivity.
  - destruct x; discriminate.
  - destruct y; discriminate.
  - intros H. apply string_compare_Eq in H. subst t. reflexivity.
Qed.

Lemma cell_compare_Lt_trans a b c :
  cell_compare a b = Lt -> cell_compare b c = Lt -> cell_compare a c = Lt.
Proof.
  destruct a as [x|s], b as [y|t], c as [z|u]; simpl.
  - destruct (SFcompare x y) as [k1|] eqn:E1; destruct (SFcompare y z) as [k2|] eqn:E2.
    + intros -> ->. rewrite (SFcompare_Lt_trans x y z E1 E2). reflexivity.
    + intros ->. destruct x, y, z; simpl in *; try discriminate; reflexivity.
    + destruct x, y, z; simpl in *; try discriminate; reflexivity.
    + destruct x, y, z; simpl in *; try discriminate; reflexivity.
  - destruct x as [| | |]; try destruct y as [| | |]; simpl; intros;
      try discriminate; reflexivity.
  - destruct x as [| | |]; try destruct z as [| | |]; simpl; intros;
      try discriminate; reflexivity.
  - destruct x as [| | |]; simpl; intros; try discriminate; reflexivity.
  - destruct y as [| | |]; try destruct z as [| | |]; simpl; intros;
      try discriminate; reflexivity.
  - destruct y as [| | |]; simpl; intros; try discriminate; reflexivity.
  - destruct z as [| | |]; simpl; intros; try discriminate; reflexivity.
  - apply string_compare_Lt_trans.
Qed.

Lemma cell_eqb_refl a : cell_eqb a a = true.
Proof. apply cell_compare_Eq, cell_compare_refl. Qed.

Lemma cell_eqb_sym a b : cell_eqb a b = cell_eqb b a.
Proof.
  destruct (cell_eqb a b) eqn:E1, (cell_eqb b a) eqn:E2; try reflexivity.
  - apply cell_compare_Eq in E1. rewrite <- E2. symmetry. apply cell_compare_Eq.
    rewrite cell_compare_antisym, E1. reflexivity.
  - apply cell_compare_Eq in E2. rewrite <- E1. apply cell_compare_Eq.
    rewrite cell_compare_antisym, E2. reflexivity.
Qed.

Lemma cell_eqb_trans a b c :
  cell_eqb a b = true -> cell_eqb b c = true -> cell_eqb a c = true.
Proof.
  intros H1 H2. apply cell_compare_Eq in H1, H2. apply cell_compare_Eq.
  rewrite (cell_compare_Eq_l a b c H1). exact H2.
Qed.

Lemma cell_compare_Eq_r a b c :
  cell_compare b c = Eq -> cell_compare a b = cell_compare a c.
Proof.
  intros H.
  rewrite (cell_compare_antisym b a), (cell_compare_antisym c a).
  f_equal. symmetry. apply cell_compare_Eq_l.
  rewrite cell_compare_antisym, H. reflexivity.
Qed.

Lemma key_leb_refl k : key_leb k k = true.
Proof. unfold key_leb. rewrite cell_compare_refl. apply Z.leb_refl. Qed.

Lemma key_leb_total k1 k2 : key_leb k1 k2 = false -> key_leb k2 k1 = true.
Proof.
  unfold key_leb. rewrite (cell_compare_antisym (fst k1) (fst k2)).
  destruct (cell_compare (fst k1) (fst k2)); simpl; intros H.
  - apply Z.leb_gt in H. apply Z.leb_le. lia.
  - discriminate H.
  - reflexivity.
Qed.

Lemma key_leb_trans k1 k2 k3 :
  key_leb k1 k2 = true -> key_leb k2 k3 = true -> key_leb k1 k3 = true.
Proof.
  unfold key_leb.
  destruct (cell_compare (fst k1) (fst k2)) eqn:E12; intros H12; try discriminate H12.
  - rewrite (cell_compare_Eq_l _ _ (fst k3) E12).
    destruct (cell_compare (fst k2) (fst k3)); intros H23; try discriminate H23.
    + apply Z.leb_le in H12, H23. apply Z.leb_le. lia.
    + reflexivity.
  - destruct (cell_compare (fst k2) (fst k3)) eqn:E23; intros H23; try discriminate H23.
    + rewrite <- (cell_compare_Eq_r _ _ _ E23), E12. reflexivity.
    + rewrite (cell_compare_Lt_trans _ _ _ E12 E23). reflexivity.
Qed.


Section SortCorrect.
Context {A : Type} (key : A -> cell * Z).

Definition key_le (x y : A) : Prop := key_leb (key x) (key y) = true.

Lemma insert_sorted_Forall (P : A -> Prop) x l :
  P x -> Forall P l -> Forall P (insert_sorted key x l).
Proof.
  intros Hx Hl. eapply Permutation_Forall.
  - apply Permutation_sym, insert_sorted_perm.
  - constructor; assumption.
Qed.

Lemma insert_sorted_sorted x l :
  StronglySorted key_le l -> StronglySorted key_le (insert_sorted key x l).
Proof.
  induction 1 as [|y l Hs IH Hy]; simpl.
  - constructor; constructor.
  - destruct (key_leb (key x) (key y)) eqn:E.
    + constructor.
      * constructor; assumption.
      * constructor; [exact E|].
        eapply Forall_impl; [|exact Hy].
        intros z Hz. unfold key_le in *. eapply key_leb_trans; eassumption.
    + constructor.
      * exact IH.
      * apply insert_sorted_Forall; [|exact Hy].
        apply key_leb_total, E.
Qed.

Lemma sort_values_sorted l : StronglySorted key_le (sort_values key l).
Proof.
  induction l as [|x l IH]; simpl.
  - constructor.
  - apply insert_sorted_sorted, IH.
Qed.

End SortCorrect.

(* ================================================================== *)
(** ** The join *)

(** The population table of the scenario with its row given twice. *)
Definition pop_AAA_twice : DataFrame :=
  mkDataFrame (columns pop_AAA) (rows pop_AAA ++ rows pop_AAA).

(** Two rows of pop_long with the same join key. *)
Definition pop_key_eqb (p1 p2 : pop_row) : bool :=
  cell_eqb (pop_country_code p1) (pop_country_code p2)
  && cell_eqb (pop_country_name p1) (pop_country_name p2)
  && (pop_year p1 =? pop_year p2).

(** How many population rows a row of gdp_long joins with. *)
Definition matches (pop_long : list pop_row) (g : gdp_row) : nat :=
  List.length (filter (key_match g) pop_long).

Lemma key_match_same_key g p1 p2 :
  key_match g p1 = true -> key_match g p2 = true -> pop_key_eqb p1 p2 = true.
Proof.
  unfold key_match, pop_key_eqb. rewrite !andb_true_iff, !Z.eqb_eq.
  intros [[C1 N1] Y1] [[C2 N2] Y2]. repeat split.
  - eapply cell_eqb_trans; [|exact C2]. rewrite cell_eqb_sym. exact C1.
  - eapply cell_eqb_trans; [|exact N2]. rewrite cell_eqb_sym. exact N1.
  - congruence.
Qed.

Lemma filter_none {A : Type} (f : A -> bool) (l : list A) :
  Forall (fun x => f x = false) l -> filter f l = [].
Proof.
  induction 1 as [|x l Hx _ IH]; simpl.
  - reflexivity.
  - rewrite Hx. exact IH.
Qed.

Lemma unique_keys_one_match pop_long g :
  ForallOrdPairs (fun p1 p2 => pop_key_eqb p1 p2 = false) pop_long ->
  (matches pop_long g <= 1)%nat.
Proof.
  unfold matches. induction 1 as [|p l Hp _ IH]; simpl.
  - lia.
  - destruct (key_match g p) eqn:E; [|exact IH]. simpl.
    rewrite filter_none; [simpl; lia|].
    eapply Forall_impl; [|exact Hp].
    intros x Hx. cbv beta in Hx. destruct (key_match g x) eqn:Ex; [|reflexivity].
    rewrite (key_match_same_key g p x E Ex) in Hx. discriminate Hx.
Qed.

Lemma joined_rows_length pop_long g :
  List.length (joined_rows pop_long g) = Nat.max 1 (matches pop_long g).
Proof.
  unfold joined_rows, matches.
  destruct (filter (key_match g) pop_long) as [|p ms]; simpl.
  - reflexivity.
  - rewrite length_map. reflexivity.
Qed.

Lemma joined_rows_lefts pop_long g :
  map left (joined_rows pop_long g) = repeat g (Nat.max 1 (matches pop_long g)).
Proof.
  rewrite <- joined_rows_length.
  assert (H : forall m, In m (joined_rows pop_long g) -> left m = g)
    by (intros m; apply joined_rows_left).
  induction (joined_rows pop_long g) as [|m l IH]; simpl.
  - reflexivity.
  - rewrite (H m (or_introl eq_refl)), IH; [reflexivity|].
    intros m' Hm'. apply H. right. exact Hm'.
Qed.

Lemma joined_rows_population pop_long g m :
  In m (joined_rows pop_long g) ->
  (exists p, In p pop_long /\ key_match g p = true /\ population m = pop_value p) \/
  ((forall p, In p pop_long -> key_match g p = false) /\ population m = NaN).
Proof.
  unfold joined_rows.
  destruct (filter (key_match g) pop_long) as [|p0 ms] eqn:E.
  - intros [<-|[]]. right. split; [|reflexivity].
    intros p Hp. destruct (key_match g p) eqn:Ep; [|reflexivity].
    assert (Hin : In p (filter (key_match g) pop_long))
      by (apply filter_In; auto).
    rewrite E in Hin. destruct Hin.
  - intros H. apply in_map_iff in H. destruct H as [p [<- Hp]].
    rewrite <- E in Hp. apply filter_In in Hp. left. exists p. tauto.
Qed.

Lemma flat_map_repeat_once {A : Type} (n : A -> nat) (l : list A) :
  (forall a, In a l -> (n a <= 1)%nat) ->
  flat_map (fun a => repeat a (Nat.max 1 (n a))) l = l.
Proof.
  induction l as [|a l IH]; intros H; cbn [flat_map].
  - reflexivity.
  - replace (Nat.max 1 (n a)) with 1%nat
      by (pose proof (H a (or_introl eq_refl)); lia).
    cbn [repeat app]. f_equal. apply IH. intros b Hb. apply H. right. exact Hb.
Qed.

Lemma flat_map_repeat_length {A : Type} (n : A -> nat) (l : list A) :
  (List.length l <= List.length (flat_map (fun a => repeat a (Nat.max 1 (n a))) l))%nat.
Proof.
  induction l as [|a l IH]; cbn [flat_map List.length].
  - lia.
  - rewrite length_app, repeat_length. lia.
Qed.

(** C2, as amended. The join is a left join.  pandas refuses to join, with
    ValueError, only when country_code or country_name holds text in one
    table and numbers in the other; it joins when both columns have the same
    dtype in both tables, and when exactly one of the two unpivoted tables
    is empty.  Whenever it joins, the joined table lists the rows of the
    unpivoted metric-A table in their order, each once per population row it
    matches and once when it matches none, so no row is dropped and the
    joined table has at least as many rows; a joined row carries the
    population of a matching row, and a missing population exactly when its
    metric-A row matches no population row; and when no metric-A row matches
    more than one population row (in particular when no two rows of the
    unpivoted population table share their key) every metric-A row appears
    exactly once and the two tables have the same number of rows. *)
Theorem left_join_keeps_every_row (main_clean pop_clean : DataFrame)
    (gdp_long : list gdp_row) (pop_long : list pop_row) :
  (forall e, merge main_clean pop_clean gdp_long pop_long = Raise e ->
     e = ValueError /\
     exists c, In c pop_id_vars /\ key_dtypes_differ main_clean pop_clean c = true) /\
  ((forall c, In c pop_id_vars ->
              is_numeric_column main_clean c = is_numeric_column pop_clean c) ->
   merge main_clean pop_clean gdp_long pop_long = Ok (merge_left gdp_long pop_long)) /\
  (xorb (is_empty gdp_long) (is_empty pop_long) = true ->
   merge main_clean pop_clean gdp_long pop_long = Ok (merge_left gdp_long pop_long)) /\
  (forall merged,
     merge main_clean pop_clean gdp_long pop_long = Ok merged ->
     map left merged
     = flat_map (fun g => repeat g (Nat.max 1 (matches pop_long g))) gdp_long /\
     (List.length gdp_long <= List.length merged)%nat /\
     (forall g, In g gdp_long <-> exists m, In m merged /\ left m = g) /\
     (forall m, In m merged ->
        (exists p, In p pop_long /\ key_match (left m) p = true /\
                   population m = pop_value p) \/
        ((forall p, In p pop_long -> key_match (left m) p = false) /\
         population m = NaN)) /\
     (forall m, In m merged ->
        (forall p, In p pop_long -> key_match (left m) p = false) ->
        population m = NaN) /\
     ((forall g, In g gdp_long -> (matches pop_long g <= 1)%nat) ->
      map left merged = gdp_long /\ List.length merged = List.length gdp_long) /\
     (ForallOrdPairs (fun p1 p2 => pop_key_eqb p1 p2 = false) pop_long ->
      map left merged = gdp_long /\ List.length merged = List.length gdp_long)).
Proof.
  split; [|split; [|split]].
  - unfold merge. intros e.
    destruct (negb (xorb (is_empty gdp_long) (is_empty pop_long))); cbn [andb];
      [|discriminate].
    destruct (existsb (key_dtypes_differ main_clean pop_clean)
                ["country_code"; "country_name"]%string) eqn:E; [|discriminate].
    intros H. injection H as <-. split; [reflexivity|].
    apply existsb_exists in E. destruct E as [c [Hc E]]. exists c. split; [|exact E].
    destruct Hc as [<-|[<-|[]]]; [right; left | left]; reflexivity.
  - intros Hd. unfold merge, key_dtypes_differ. cbn [existsb].
    rewrite (Hd "country_code"%string) by (right; left; reflexivity).
    rewrite (Hd "country_name"%string) by (left; reflexivity).
    rewrite !xorb_nilpotent, andb_false_r. reflexivity.
  - intros Hx. unfold merge. rewrite Hx. reflexivity.
  - intros merged Hm. apply merge_Ok in Hm. subst merged.
    set (merged := merge_left gdp_long pop_long).
    assert (Hlefts : map left merged
              = flat_map (fun g => repeat g (Nat.max 1 (matches pop_long g))) gdp_long).
    { unfold merged. rewrite merge_left_flat_map, flat_map_map.
      apply flat_map_ext. intros g. apply joined_rows_lefts. }
    assert (Hpop : forall m, In m merged ->
       (exists p, In p pop_long /\ key_match (left m) p = true /\
                  population m = pop_value p) \/
       ((forall p, In p pop_long -> key_match (left m) p = false) /\
        population m = NaN)).
    { intros m Hm. unfold merged in Hm. rewrite merge_left_flat_map in Hm.
      apply in_flat_map in Hm. destruct Hm as [g [_ Hm]].
      rewrite (joined_rows_left _ _ _ Hm). apply joined_rows_population, Hm. }
    assert (Hone : (forall g, In g gdp_long -> (matches pop_long g <= 1)%nat) ->
                   map left merged = gdp_long /\
                   List.length merged = List.length gdp_long).
    { intros H1.
      assert (E : map left merged = gdp_long).
      { rewrite Hlefts. apply flat_map_repeat_once, H1. }
      split; [exact E|]. rewrite <- (length_map left merged), E. reflexivity. }
    split; [exact Hlefts|]. split; [|split; [|split; [exact Hpop|split; [|split]]]].
    + rewrite <- (length_map left merged), Hlefts. apply flat_map_repeat_length.
    + intros g. apply In_merge_left.
    + intros m Hm Hno. destruct (Hpop m Hm) as [[p [Hp [Hk _]]]|[_ E]].
      * rewrite (Hno p Hp) in Hk. discriminate Hk.
      * exact E.
    + exact Hone.
    + intros Hu. apply Hone. intros g _. apply unique_keys_one_match, Hu.
Qed.

Lemma scenario_tables_long :
  gdp_long_of (main_AAA NaN)
  = Ok [ gdp_row_of (hd (fun _ => NaN) (rows (main_AAA NaN))) "2019";
         gdp_row_of (hd (fun _ => NaN) (rows (main_AAA NaN))) "2020" ] /\
  pop_long_of (main_AAA NaN) pop_AAA
  = Ok [ pop_row_of (hd (fun _ => NaN) (rows pop_AAA)) "2019";
         pop_row_of (hd (fun _ => NaN) (rows pop_AAA)) "2020" ] /\
  pop_long_of (main_AAA NaN) pop_AAA_twice
  = Ok [ pop_row_of (hd (fun _ => NaN) (rows pop_AAA)) "2019";
         pop_row_of (hd (fun _ => NaN) (rows pop_AAA)) "2019";
         pop_row_of (hd (fun _ => NaN) (rows pop_AAA)) "2020";
         pop_row_of (hd (fun _ => NaN) (rows pop_AAA)) "2020" ].
Proof. repeat split. Qed.

(** In the end-to-end scenario both key columns are text in both tables,
    the join returns, each of the two metric-A rows matches one population
    row, and the joined table has two rows. *)
Lemma left_join_keeps_every_row_witness :
  exists gdp_long pop_long merged,
    gdp_long_of (main_AAA NaN) = Ok gdp_long /\
    pop_long_of (main_AAA NaN) pop_AAA = Ok pop_long /\
    merge (main_AAA NaN) pop_AAA gdp_long pop_long = Ok merged /\
    map left merged = gdp_long /\
    List.length merged = List.length gdp_long.
Proof.
  destruct scenario_tables_long as [Hg [Hp _]].
  match type of Hg with _ = Ok ?gl =>
    match type of Hp with _ = Ok ?pl =>
      exists gl, pl, (merge_left gl pl);
      destruct (left_join_keeps_every_row (main_AAA NaN) pop_AAA gl pl)
        as (_ & Hret & _ & H);
      assert (Hm : merge (main_AAA NaN) pop_AAA gl pl = Ok (merge_left gl pl))
        by (apply Hret; intros c [<-|[<-|[]]]; reflexivity)
    end
  end.
  split; [exact Hg|]. split; [exact Hp|].
  split; [exact Hm|].
  destruct (H _ Hm) as (_ & _ & _ & _ & _ & Hone & _).
  apply Hone. intros g [<-|[<-|[]]]; vm_compute; lia.
Defined.

(** C2 as stated fails: with the population row of the scenario present
    twice, the join returns and the two rows of the unpivoted metric-A table
    become four joined rows. *)
Lemma left_join_row_count_counterexample :
  ~ (forall main_clean pop_clean gdp_long pop_long merged,
       gdp_long_of main_clean = Ok gdp_long ->
       pop_long_of main_clean pop_clean = Ok pop_long ->
       merge main_clean pop_clean gdp_long pop_long = Ok merged ->
       List.length merged = List.length gdp_long).
Proof.
  intros H.
  destruct scenario_tables_long as [Hg [_ Hp]].
  specialize (H _ _ _ _ _ Hg Hp eq_refl). vm_compute in H. discriminate H.
Qed.

(* ================================================================== *)
(** ** The cleaner *)

Lemma mem_In c l : mem c l = true <-> In c l.
Proof.
  unfold mem. rewrite existsb_exists. split.
  - intros [x [Hx E]]. apply String.eqb_eq in E. subst x. exact Hx.
  - intros H. exists c. split; [exact H | apply String.eqb_refl].
Qed.

Lemma mem_false c l : mem c l = false <-> ~ In c l.
Proof.
  rewrite <- mem_In. destruct (mem c l); split; intros H;
    try reflexivity; try discriminate; try (intros H'; discriminate H').
  exfalso. apply H. reflexivity.
Qed.

(** Year labels that survive the cleaner are the strings of 1960..2023, and
    on those int() is one-to-one and lands in [1960, 2023]. *)
Lemma valid_years_checked :
  forallb (fun a => String.eqb (str_of_year (int_of_str a)) a
                    && (1960 <=? int_of_str a) && (int_of_str a <=? 2023))
          valid_years = true.
Proof. vm_compute. reflexivity. Qed.

Lemma valid_years_range a :
  In a valid_years -> 1960 <= int_of_str a <= 2023.
Proof.
  intros H. pose proof valid_years_checked as C.
  rewrite forallb_forall in C. specialize (C a H).
  rewrite !andb_true_iff, !Z.leb_le in C. lia.
Qed.

Lemma valid_years_inj a b :
  In a valid_years -> In b valid_years -> int_of_str a = int_of_str b -> a = b.
Proof.
  intros Ha Hb E. pose proof valid_years_checked as C.
  rewrite forallb_forall in C.
  pose proof (C a Ha) as Ca. pose proof (C b Hb) as Cb.
  rewrite !andb_true_iff, String.eqb_eq in Ca, Cb.
  destruct Ca as [[Ca _] _]. destruct Cb as [[Cb _] _].
  rewrite <- Ca, <- Cb, E. reflexivity.
Qed.

Section CleanFacts.
Variable pd : pandas_version.
Variable python_float : string -> option float64.

(** The cell of the cleaned main table that comes from the cell [x] of the
    column [c] of the loaded table, [x] once through astype where it applies. *)
Definition finish_cell (c : string) (x : cell) : cell :=
  if String.eqb c "country_name"
  then replace_map country_map (strip_cell pd x)
  else strip_cell pd x.

Lemma astype_float_row_Ok cols r r' :
  astype_float_row python_float cols r = Ok r' ->
  forall c, (In c cols -> astype_float python_float (r c) = Ok (r' c)) /\
            (~ In c cols -> r' c = r c).
Proof.
  revert r'. induction cols as [|k cols IH]; simpl; intros r' H c.
  - injection H as <-. split; [intros [] | reflexivity].
  - apply bind_Ok in H. destruct H as [v [Hv H]].
    apply bind_Ok in H. destruct H as [r1 [Hr1 H]]. injection H as <-.
    destruct (String.eqb_spec c k) as [->|Hne].
    + split; [intros _; exact Hv | intros Hn; exfalso; apply Hn; left; reflexivity].
    + destruct (IH r1 Hr1 c) as [IH1 IH2]. split.
      * intros [E|Hc]; [congruence | apply IH1, Hc].
      * intros Hn. apply IH2. intros Hc. apply Hn. right. exact Hc.
Qed.


Lemma drop_duplicates_from_In {A : Type} (eqb : A -> A -> bool) seen l x :
  In x (drop_duplicates_from eqb seen l) -> In x l.
Proof.
  revert seen. induction l as [|y l IH]; simpl; intros seen H.
  - exact H.
  - destruct (existsb (eqb y) seen).
    + right. eapply IH, H.
    + destruct H as [->|H]; [left; reflexivity | right; eapply IH, H].
Qed.

Lemma drop_duplicates_from_keeps {A : Type} (eqb : A -> A -> bool) seen l x :
  In x l ->
  (exists y, In y seen /\ eqb x y = true) \/
  (exists y, In y (drop_duplicates_from eqb seen l) /\ (y = x \/ eqb x y = true)).
Proof.
  revert seen. induction l as [|z l IH]; simpl; intros seen H; [destruct H|].
  destruct (existsb (eqb z) seen) eqn:E.
  - destruct H as [->|H].
    + left. apply existsb_exists in E. exact E.
    + apply IH, H.
  - destruct H as [->|H].
    + right. exists x. split; [left; reflexivity | left; reflexivity].
    + destruct (IH (z :: seen) H) as [[y [[<-|Hy] Hxy]]|[y [Hy Hxy]]].
      * right. exists z. split; [left; reflexivity | right; exact Hxy].
      * left. exists y. auto.
      * right. exists y. split; [right; exact Hy | exact Hxy].
Qed.


(** What [clean_data] returns. *)
Lemma clean_data_Ok main_df meta_df pop_df main' meta' pop' :
  clean_data pd python_float main_df meta_df pop_df = Ok (main', meta', pop') ->
  meta' = meta_df /\ pop' = pop_df /\
  (exists rows2,
     mapM (astype_float_row python_float (filter isdigit (columns main_df)))
          (map (fun r c => replace_sentinel (r c)) (rows main_df)) = Ok rows2 /\
     rows main'
     = map (fun r c => finish_cell c (r c))
           (drop_duplicates (row_eqb (columns main_df)) rows2)) /\
  columns main'
  = filter (fun col => negb (all_null (rows main') col))
      (filter (fun col => negb (isdigit col) || mem col valid_years) (columns main_df)).
Proof.
  unfold clean_data. intros H.
  remember valid_years as years eqn:Ey in *.
  apply bind_Ok in H. destruct H as [rows2 [H2 H]].
  destruct (has_duplicates (filter isdigit (columns main_df))); [discriminate H|].
  destruct (negb (mem "country_name" (columns main_df))); [discriminate H|].
  injection H as <- <- <-. split; [reflexivity|]. split; [reflexivity|].
  cbn [rows columns]. rewrite map_map. split.
  - exists rows2. split; [exact H2|]. apply map_ext. intros r. reflexivity.
  - match goal with |- context [all_null ?r] => set (rows5 := r) end.
    assert (E : forall col, In col (columns main_df) ->
              negb (mem col (filter (fun c => negb (mem c years))
                               (filter isdigit (columns main_df))))
              = (negb (isdigit col) || mem col years)).
    { intros col Hc.
      destruct (mem col (filter _ (filter isdigit (columns main_df)))) eqn:M.
      - apply mem_In in M. apply filter_In in M. destruct M as [M1 M2].
        apply filter_In in M1. destruct M1 as [_ M1]. rewrite M1.
        apply negb_true_iff in M2. rewrite M2. reflexivity.
      - apply mem_false in M.
        destruct (isdigit col) eqn:D; destruct (mem col years) eqn:V;
          cbn [negb orb]; try reflexivity.
        exfalso. apply M. apply filter_In. split.
        + apply filter_In. auto.
        + rewrite V. reflexivity. }
    rewrite (filter_ext_in _ _ _ E).
    set (cols6 := filter _ (columns main_df)).
    apply filter_ext_in. intros col Hc.
    destruct (mem col (filter (all_null rows5) cols6)) eqn:M.
    + apply mem_In in M. apply filter_In in M. destruct M as [_ M].
      rewrite M. reflexivity.
    + apply mem_false in M. destruct (all_null rows5 col) eqn:N; [|reflexivity].
      exfalso. apply M. apply filter_In. auto.
Qed.

Lemma clean_data_columns main_df meta_df pop_df main' meta' pop' :
  clean_data pd python_float main_df meta_df pop_df = Ok (main', meta', pop') ->
  (forall c, In c (columns main') -> In c (columns main_df)) /\
  (forall c, In c (value_vars main') -> In c valid_years) /\
  (NoDup (columns main_df) -> NoDup (value_vars main')).
Proof.
  intros H. apply clean_data_Ok in H. destruct H as [_ [_ [_ Hc]]].
  split; [|split].
  - intros c Hin. rewrite Hc in Hin.
    apply filter_In in Hin. destruct Hin as [Hin _].
    apply filter_In in Hin. tauto.
  - intros c Hin. unfold value_vars in Hin. apply filter_In in Hin.
    destruct Hin as [Hin D]. rewrite Hc in Hin.
    apply filter_In in Hin. destruct Hin as [Hin _].
    apply filter_In in Hin. destruct Hin as [_ Hin].
    rewrite D in Hin. simpl in Hin. apply mem_In, Hin.
  - intros N. unfold value_vars. rewrite Hc.
    repeat apply NoDup_filter. exact N.
Qed.

(** The main table [clean_data] returns, when it returns. *)
Definition cleaned_main (main_df meta_df pop_df : DataFrame) : DataFrame :=
  match clean_data pd python_float main_df meta_df pop_df with
  | Ok (main_clean, _, _) => main_clean
  | Raise _ => main_df
  end.

Definition returns {A : Type} (c : result A) : bool :=
  match c with Ok _ => true | Raise _ => false end.

Lemma cleaned_main_Ok main_df meta_df pop_df :
  returns (clean_data pd python_float main_df meta_df pop_df) = true ->
  clean_data pd python_float main_df meta_df pop_df
  = Ok (cleaned_main main_df meta_df pop_df, meta_df, pop_df).
Proof.
  unfold cleaned_main.
  destruct (clean_data pd python_float main_df meta_df pop_df)
    as [[[m me] po]|e] eqn:E; intros H; [|discriminate H].
  destruct (clean_data_Ok _ _ _ _ _ _ E) as [-> [-> _]]. reflexivity.
Qed.

End CleanFacts.

Arguments clean_data_Ok {pd}.
Arguments clean_data_columns {pd}.
Arguments cleaned_main_Ok {pd}.

(* ================================================================== *)
(** ** Years and keys of the unpivoted metric-A table *)

Lemma FOP_app {A : Type} (R : A -> A -> Prop) (l1 l2 : list A) :
  ForallOrdPairs R l1 -> ForallOrdPairs R l2 ->
  (forall x y, In x l1 -> In y l2 -> R x y) ->
  ForallOrdPairs R (l1 ++ l2).
Proof.
  induction 1 as [|a l Ha _ IH]; simpl; intros H2 Hx.
  - exact H2.
  - constructor.
    + apply Forall_app. split; [exact Ha|].
      apply Forall_forall. intros y Hy. apply Hx; [left; reflexivity | exact Hy].
    + apply IH; [exact H2|]. intros x y Hin Hy. apply Hx; [right; exact Hin | exact Hy].
Qed.

Lemma FOP_map {A B : Type} (f : A -> B) (R : B -> B -> Prop) (l : list A) :
  ForallOrdPairs (fun a b => R (f a) (f b)) l -> ForallOrdPairs R (map f l).
Proof.
  induction 1 as [|a l Ha _ IH]; simpl; constructor.
  - apply Forall_map. exact Ha.
  - exact IH.
Qed.

Lemma FOP_of_map {A B : Type} (f : A -> B) (R : B -> B -> Prop) (l : list A) :
  ForallOrdPairs R (map f l) -> ForallOrdPairs (fun a b => R (f a) (f b)) l.
Proof.
  induction l as [|a l IH]; simpl; intros H.
  - constructor.
  - inversion H as [|? ? Ha Hl]; subst. constructor.
    + rewrite Forall_map in Ha. exact Ha.
    + apply IH, Hl.
Qed.

Lemma FOP_flat_map {A B : Type} (f : A -> list B) (R : B -> B -> Prop) (l : list A) :
  (forall a, In a l -> ForallOrdPairs R (f a)) ->
  ForallOrdPairs (fun a b => forall x y, In x (f a) -> In y (f b) -> R x y) l ->
  ForallOrdPairs R (flat_map f l).
Proof.
  intros Hin H. induction H as [|a l Ha _ IH]; simpl.
  - constructor.
  - apply FOP_app.
    + apply Hin. left. reflexivity.
    + apply IH. intros b Hb. apply Hin. right. exact Hb.
    + intros x y Hx Hy. apply in_flat_map in Hy. destruct Hy as [b [Hb Hy]].
      rewrite Forall_forall in Ha. exact (Ha b Hb x y Hx Hy).
Qed.

Lemma NoDup_FOP {A : Type} (l : list A) :
  NoDup l -> ForallOrdPairs (fun a b => a <> b) l.
Proof.
  induction 1 as [|a l Ha _ IH]; constructor.
  - apply Forall_forall. intros b Hb E. subst b. exact (Ha Hb).
  - exact IH.
Qed.

Lemma FOP_impl_In {A : Type} (R S : A -> A -> Prop) (l : list A) :
  (forall a b, In a l -> In b l -> R a b -> S a b) ->
  ForallOrdPairs R l -> ForallOrdPairs S l.
Proof.
  intros H HR. induction HR as [|a l Ha _ IH]; constructor.
  - apply Forall_forall. intros b Hb. rewrite Forall_forall in Ha.
    apply H; [left; reflexivity | right; exact Hb | apply Ha, Hb].
  - apply IH. intros x y Hx Hy. apply H; right; assumption.
Qed.

(** Two rows of gdp_long with the same (country_code, year). *)
Definition same_code_year (g1 g2 : gdp_row) : bool :=
  cell_eqb (country_code g1) (country_code g2) && (year g1 =? year g2).

(** Two entities of the main table under one code "AAA", one year column. *)
Definition main_twins : DataFrame :=
  mkDataFrame
    ["country_name"; "country_code"; "region"; "incomegroup"; "2019"]%string
    [ row_of [ ("country_name", Str "A"); ("country_code", Str "AAA");
               ("region", Str "South Asia"); ("incomegroup", Str "Low income");
               ("2019", Num (F64.lit 100)) ]%string;
      row_of [ ("country_name", Str "B"); ("country_code", Str "AAA");
               ("region", Str "South Asia"); ("incomegroup", Str "Low income");
               ("2019", Num (F64.lit 200)) ]%string ].

(** A float() that accepts no string: enough for tables whose year cells
    are numbers already. *)
Definition no_float : string -> option float64 := fun _ => None.

(** C4, as amended. For every main table that clean_data accepts and
    transform_data unpivots, every row of the unpivoted metric-A table has
    its year, an integer, in [1960, 2023]; and when the column labels of the
    main table are distinct and no two rows of the cleaned main table share
    an entity_code, no two rows of the unpivoted table share
    (entity_code, year). *)
Theorem gdp_long_years_and_keys (pd : pandas_version) python_float main_df meta_df pop_df
    main_clean meta_clean pop_clean gdp_long :
  clean_data pd python_float main_df meta_df pop_df
  = Ok (main_clean, meta_clean, pop_clean) ->
  gdp_long_of main_clean = Ok gdp_long ->
  (forall g, In g gdp_long -> 1960 <= year g <= 2023) /\
  (NoDup (columns main_df) ->
   ForallOrdPairs
     (fun r1 r2 : Row =>
        cell_eqb (r1 "country_code"%string) (r2 "country_code"%string) = false)
     (rows main_clean) ->
   ForallOrdPairs (fun g1 g2 => same_code_year g1 g2 = false) gdp_long).
Proof.
  intros Hc Hg.
  destruct (clean_data_columns _ _ _ _ _ _ _ Hc) as [_ [Hvalid Hnodup]].
  apply gdp_long_of_Ok in Hg. destruct Hg as [_ ->]. split.
  - intros g Hin. apply in_flat_map in Hin. destruct Hin as [v [Hv Hin]].
    apply in_map_iff in Hin. destruct Hin as [r [<- _]]. simpl.
    apply valid_years_range, Hvalid, Hv.
  - intros Hcols Hrows. apply FOP_flat_map.
    + intros v _. apply FOP_map.
      eapply FOP_impl_In; [|exact Hrows].
      intros r1 r2 _ _ H. unfold same_code_year. simpl. rewrite H. reflexivity.
    + eapply FOP_impl_In; [|apply NoDup_FOP, Hnodup, Hcols].
      intros v1 v2 H1 H2 Hne x y Hx Hy.
      apply in_map_iff in Hx. destruct Hx as [r1 [<- _]].
      apply in_map_iff in Hy. destruct Hy as [r2 [<- _]].
      unfold same_code_year. simpl.
      destruct (int_of_str v1 =? int_of_str v2) eqn:E.
      * exfalso. apply Hne. apply Z.eqb_eq in E.
        apply valid_years_inj; auto.
      * apply andb_false_r.
Qed.

(** The end-to-end scenario through the cleaner: the years are 2019 and
    2020, the single entity makes two distinct (entity_code, year) pairs. *)
Lemma gdp_long_years_and_keys_witness :
  exists gdp_long,
    gdp_long_of (cleaned_main Pandas3 no_float (main_AAA (Str "Low income")) meta_none pop_AAA)
    = Ok gdp_long /\
    (forall g, In g gdp_long -> 1960 <= year g <= 2023) /\
    ForallOrdPairs (fun g1 g2 => same_code_year g1 g2 = false) gdp_long.
Proof.
  assert (Hc : clean_data Pandas3 no_float (main_AAA (Str "Low income")) meta_none pop_AAA
               = Ok (cleaned_main Pandas3 no_float (main_AAA (Str "Low income")) meta_none pop_AAA,
                     meta_none, pop_AAA))
    by (apply cleaned_main_Ok; vm_compute; reflexivity).
  eexists.
  assert (Hg : gdp_long_of (cleaned_main Pandas3 no_float (main_AAA (Str "Low income"))
                              meta_none pop_AAA) = Ok _)
    by (vm_compute; reflexivity).
  split; [exact Hg|].
  destruct (gdp_long_years_and_keys _ _ _ _ _ _ _ _ _ Hc Hg) as [Hy Hk].
  split; [exact Hy|]. apply Hk.
  - vm_compute. repeat constructor; simpl; intuition discriminate.
  - apply (FOP_of_map (fun r : Row => r "country_code"%string)
                      (fun a b => cell_eqb a b = false)).
    vm_compute. repeat constructor.
Defined.

(** The second half of C4 as stated, under one pandas generation: whatever
    the input, no two rows of the unpivoted table share
    (entity_code, year). *)
Definition code_year_always_unique (pd : pandas_version) : Prop :=
  forall python_float main_df meta_df pop_df main_clean meta_clean pop_clean
         gdp_long,
    clean_data pd python_float main_df meta_df pop_df
    = Ok (main_clean, meta_clean, pop_clean) ->
    gdp_long_of main_clean = Ok gdp_long ->
    ForallOrdPairs (fun g1 g2 => same_code_year g1 g2 = false) gdp_long.

Lemma main_twins_share_code_year pd : ~ code_year_always_unique pd.
Proof.
  intros H.
  assert (Hc : clean_data pd no_float main_twins meta_none pop_AAA
               = Ok (cleaned_main pd no_float main_twins meta_none pop_AAA,
                     meta_none, pop_AAA))
    by (apply cleaned_main_Ok; destruct pd; vm_compute; reflexivity).
  assert (Hg : gdp_long_of (cleaned_main pd no_float main_twins meta_none pop_AAA)
               = Ok [ mkGdp (Str "A") (Str "AAA") (Str "South Asia")
                            (Str "Low income") 2019 (Num (F64.lit 100));
                      mkGdp (Str "B") (Str "AAA") (Str "South Asia")
                            (Str "Low income") 2019 (Num (F64.lit 200)) ])
    by (destruct pd; vm_compute; reflexivity).
  specialize (H _ _ _ _ _ _ _ _ Hc Hg).
  inversion H as [|? ? Hall _]; subst. inversion Hall as [|? ? H12 _]; subst.
  vm_compute in H12. discriminate H12.
Qed.

(** C4 as stated fails, under pandas 2 and under pandas 3: two entities of
    the main table under one code give two rows of the unpivoted table with
    the same (entity_code, year). *)
Lemma unique_code_year_counterexample :
  ~ code_year_always_unique Pandas2 /\ ~ code_year_always_unique Pandas3.
Proof. split; apply main_twins_share_code_year. Qed.

(* ================================================================== *)
(** ** Sentinel tokens *)

(** One of the tokens "..", "" and " " of the replace list. *)
Definition is_sentinel (c : cell) : bool :=
  match c with
  | Str s => mem s [".."; ""; " "]%string
  | Num _ => false
  end.

(** The population table of the scenario with the double-dot placeholder
    for 2019. *)
Definition pop_dots : DataFrame :=
  mkDataFrame
    ["country_name"; "country_code"; "2019"; "2020"]%string
    [ row_of [ ("country_name", Str "A"); ("country_code", Str "AAA");
               ("2019", Str ".."); ("2020", Num (F64.lit 11)) ]%string ].


(** The scenario's main table with blanks around the name and a cell of
    two blanks for the income group. *)
Definition main_blanks : DataFrame :=
  mkDataFrame
    ["country_name"; "country_code"; "region"; "incomegroup"; "2019"; "2020"]%string
    [ row_of [ ("country_name", Str "  Kenia "); ("country_code", Str "KEN");
               ("region", Str "Sub-Saharan Africa"); ("incomegroup", Str "  ");
               ("2019", Num (F64.lit 100)); ("2020", Num (F64.lit 110)) ]%string ].






Lemma Forall2_In_l {A B : Type} (R : A -> B -> Prop) l l' a :
  Forall2 R l l' -> In a l -> exists b, In b l' /\ R a b.
Proof.
  induction 1 as [|x y l l' Hxy _ IH]; simpl; intros H; [destruct H|].
  destruct H as [->|H].
  - exists y. auto.
  - destruct (IH H) as [b [Hb Hab]]. exists b. auto.
Qed.

Lemma Forall2_In_r {A B : Type} (R : A -> B -> Prop) l l' b :
  Forall2 R l l' -> In b l' -> exists a, In a l /\ R a b.
Proof.
  induction 1 as [|x y l l' Hxy _ IH]; simpl; intros H; [destruct H|].
  destruct H as [->|H].
  - exists x. auto.
  - destruct (IH H) as [a [Ha Hab]]. exists a. auto.
Qed.


Lemma replace_sentinel_keeps x :
  is_sentinel x = false -> replace_sentinel x = x.
Proof.
  destruct x as [f|t]; cbn [replace_sentinel is_sentinel]; [reflexivity|].
  intros ->. reflexivity.
Qed.










(* ================================================================== *)
(** ** The ratio *)

Lemma div_by_zero_or_nan (x y : float64) :
  F64.is_zero y || F64.is_nan y = true ->
  F64.is_nan (F64.div x y) || F64.is_inf (F64.div x y) = true.
Proof.
  intros H. destruct y as [s|s| |s m e]; try discriminate H;
    destruct x as [s'|s'| |s' m' e']; reflexivity.
Qed.

Lemma finish_cell_Num {pd : pandas_version} c x : finish_cell pd c (Num x) = Num x.
Proof.
  unfold finish_cell. destruct pd, (String.eqb c "country_name"); reflexivity.
Qed.

Lemma astype_float_is_num python_float x y :
  astype_float python_float x = Ok y -> is_num y = true.
Proof.
  destruct x as [f|s]; simpl.
  - intros H. injection H as <-. reflexivity.
  - destruct (python_float s); intros H; [injection H as <-; reflexivity | discriminate H].
Qed.

(** After the cleaner, the cells under the year columns of the main table
    are numbers. *)
Lemma clean_data_year_cells {pd : pandas_version} python_float main_df meta_df pop_df
    main_clean meta_clean pop_clean r c :
  clean_data pd python_float main_df meta_df pop_df
  = Ok (main_clean, meta_clean, pop_clean) ->
  In r (rows main_clean) -> In c (value_vars main_clean) ->
  is_num (r c) = true.
Proof.
  intros H Hr Hc.
  destruct (clean_data_columns _ _ _ _ _ _ _ H) as [Hsub _].
  apply clean_data_Ok in H. destruct H as [_ [_ [[rows2 [H2 Hrows]] _]]].
  apply mapM_Ok_Forall2 in H2.
  rewrite Hrows in Hr. apply in_map_iff in Hr. destruct Hr as [r2 [<- Hr2]].
  apply drop_duplicates_from_In in Hr2.
  destruct (Forall2_In_r _ _ _ _ H2 Hr2) as [r1 [_ Ha]].
  unfold value_vars in Hc. apply filter_In in Hc. destruct Hc as [Hc D].
  destruct (astype_float_row_Ok _ _ _ _ Ha c) as [H1 _].
  assert (Hin : In c (filter isdigit (columns main_df))).
  { apply filter_In. split; [apply Hsub, Hc | exact D]. }
  apply H1, astype_float_is_num in Hin.
  destruct (r2 c) as [x|s]; [|discriminate Hin].
  rewrite finish_cell_Num. reflexivity.
Qed.

Lemma truediv_numbers a b :
  is_num a = true -> is_num b = true ->
  exists x y, a = Num x /\ b = Num y /\ truediv a b = Ok (F64.div x y).
Proof.
  destruct a as [x|s], b as [y|t]; intros Ha Hb; try discriminate.
  exists x, y. auto.
Qed.

Lemma derive_ratio_numbers merged :
  (forall m, In m merged ->
     is_num (gdp (left m)) = true /\ is_num (population m) = true) ->
  exists rated,
    derive_ratio merged = Ok rated /\
    map fst rated = merged /\
    (forall m q, In (m, q) rated ->
       exists x y, gdp (left m) = Num x /\ population m = Num y /\
                   q = F64.div x y /\
                   (F64.is_zero y || F64.is_nan y = true ->
                    F64.is_nan q || F64.is_inf q = true)).
Proof.
  intros Hnum.
  destruct (mapM_total (fun m => q <- truediv (gdp (left m)) (population m) ;; Ok (m, q))
              merged) as [rated Hr].
  { intros m Hm. destruct (Hnum m Hm) as [Hg Hp].
    destruct (truediv_numbers _ _ Hg Hp) as [x [y [_ [_ E]]]].
    rewrite E. eexists. reflexivity. }
  exists rated. split; [exact Hr|].
  destruct (derive_ratio_Ok _ _ Hr) as [Hfst Hall]. split; [exact Hfst|].
  intros m q Hin. rewrite Forall_forall in Hall. specialize (Hall _ Hin).
  cbn [fst snd] in Hall.
  assert (Hm : In m merged).
  { rewrite <- Hfst. apply in_map_iff. exists (m, q). auto. }
  destruct (Hnum m Hm) as [Hg Hp].
  destruct (truediv_numbers _ _ Hg Hp) as [x [y [Ex [Ey E]]]].
  rewrite E in Hall. injection Hall as <-.
  exists x, y. repeat split; try assumption. apply div_by_zero_or_nan.
Qed.

(** C7, as amended. On the output of clean_data, when every population
    value of the unpivoted population table is a number (zero and missing
    included), the ratio derivation of transform_data never raises: every
    joined row gets ratio = metric_A / metric_B in float arithmetic, and when
    metric_B is zero or missing the result is NaN or an infinity. *)
Theorem ratio_total_on_numeric_population (pd : pandas_version) python_float
    main_df meta_df pop_df main_clean meta_clean pop_clean gdp_long pop_long :
  clean_data pd python_float main_df meta_df pop_df
  = Ok (main_clean, meta_clean, pop_clean) ->
  gdp_long_of main_clean = Ok gdp_long ->
  pop_long_of main_clean pop_clean = Ok pop_long ->
  (forall p, In p pop_long -> is_num (pop_value p) = true) ->
  exists rated,
    derive_ratio (merge_left gdp_long pop_long) = Ok rated /\
    map fst rated = merge_left gdp_long pop_long /\
    (forall m q, In (m, q) rated ->
       exists x y, gdp (left m) = Num x /\ population m = Num y /\
                   q = F64.div x y /\
                   (F64.is_zero y || F64.is_nan y = true ->
                    F64.is_nan q || F64.is_inf q = true)).
Proof.
  intros Hc Hg Hp Hnum. apply derive_ratio_numbers.
  intros m Hm. split.
  - assert (Hin : In (left m) gdp_long).
    { apply (In_merge_left gdp_long pop_long). exists m. auto. }
    apply (In_gdp_long _ _ _ Hg) in Hin. destruct Hin as [r [v [Hr [Hv E]]]].
    rewrite E. cbn [gdp gdp_row_of].
    eapply clean_data_year_cells; eassumption.
  - rewrite merge_left_flat_map in Hm. apply in_flat_map in Hm.
    destruct Hm as [g [_ Hm]].
    destruct (joined_rows_population _ _ _ Hm) as [[p [Hin [_ E]]]|[_ E]];
      rewrite E; [apply Hnum, Hin | reflexivity].
Qed.

(** In the end-to-end scenario the population values are numbers and the
    ratio is derived for both joined rows. *)
Lemma ratio_total_on_numeric_population_witness :
  exists gdp_long pop_long rated,
    gdp_long_of (cleaned_main Pandas3 no_float (main_AAA (Str "Low income")) meta_none pop_AAA)
    = Ok gdp_long /\
    pop_long_of (cleaned_main Pandas3 no_float (main_AAA (Str "Low income")) meta_none pop_AAA)
                pop_AAA = Ok pop_long /\
    derive_ratio (merge_left gdp_long pop_long) = Ok rated.
Proof.
  assert (Hc : clean_data Pandas3 no_float (main_AAA (Str "Low income")) meta_none pop_AAA
               = Ok (cleaned_main Pandas3 no_float (main_AAA (Str "Low income")) meta_none pop_AAA,
                     meta_none, pop_AAA))
    by (apply cleaned_main_Ok; vm_compute; reflexivity).
  eexists. eexists.
  assert (Hg : gdp_long_of (cleaned_main Pandas3 no_float (main_AAA (Str "Low income"))
                              meta_none pop_AAA) = Ok _)
    by (vm_compute; reflexivity).
  assert (Hp : pop_long_of (cleaned_main Pandas3 no_float (main_AAA (Str "Low income"))
                              meta_none pop_AAA) pop_AAA = Ok _)
    by (vm_compute; reflexivity).
  destruct (ratio_total_on_numeric_population _ _ _ _ _ _ _ _ _ _ Hc Hg Hp)
    as [rated [Hr _]].
  - intros p [<-|[<-|[]]]; reflexivity.
  - exists rated. split; [exact Hg|]. split; [exact Hp | exact Hr].
Defined.

(** C7 as stated, under one pandas generation: whatever the input, the
    ratio derivation returns. *)
Definition ratio_never_raises (pd : pandas_version) : Prop :=
  forall python_float main_df meta_df pop_df main_clean meta_clean pop_clean
         gdp_long pop_long,
    clean_data pd python_float main_df meta_df pop_df
    = Ok (main_clean, meta_clean, pop_clean) ->
    gdp_long_of main_clean = Ok gdp_long ->
    pop_long_of main_clean pop_clean = Ok pop_long ->
    exists rated, derive_ratio (merge_left gdp_long pop_long) = Ok rated.

Lemma ratio_raises_on_placeholder pd : ~ ratio_never_raises pd.
Proof.
  intros H.
  assert (Hc : clean_data pd no_float (main_AAA (Str "Low income")) meta_none pop_dots
               = Ok (cleaned_main pd no_float (main_AAA (Str "Low income"))
                       meta_none pop_dots, meta_none, pop_dots))
    by (apply cleaned_main_Ok; destruct pd; vm_compute; reflexivity).
  assert (Hg : exists gl,
             gdp_long_of (cleaned_main pd no_float (main_AAA (Str "Low income"))
                            meta_none pop_dots) = Ok gl)
    by (eexists; destruct pd; vm_compute; reflexivity).
  assert (Hp : exists pl,
             pop_long_of (cleaned_main pd no_float (main_AAA (Str "Low income"))
                            meta_none pop_dots) pop_dots = Ok pl)
    by (eexists; destruct pd; vm_compute; reflexivity).
  destruct Hg as [gl Hg]. destruct Hp as [pl Hp].
  destruct (H _ _ _ _ _ _ _ _ _ Hc Hg Hp) as [rated Hr].
  destruct pd.
  - vm_compute in Hg. injection Hg as <-.
    vm_compute in Hp. injection Hp as <-.
    vm_compute in Hr. discriminate Hr.
  - vm_compute in Hg. injection Hg as <-.
    vm_compute in Hp. injection Hp as <-.
    vm_compute in Hr. discriminate Hr.
Qed.

(** C7 as stated fails, under pandas 2 and under pandas 3: with the
    double-dot placeholder left in the population table, the division of
    the 2019 row raises TypeError. *)
Lemma ratio_never_raises_counterexample :
  ~ ratio_never_raises Pandas2 /\ ~ ratio_never_raises Pandas3.
Proof. split; apply ratio_raises_on_placeholder. Qed.

(** The same input through the whole transformer. *)
Lemma transform_raises_on_placeholder pd :
  transform_data pd (cleaned_main pd no_float (main_AAA (Str "Low income"))
                       meta_none pop_dots)
                 meta_none pop_dots
  = Raise TypeError.
Proof. destruct pd; vm_compute; reflexivity. Qed.

(* ================================================================== *)
(** ** The rows of the countries table *)

Definition country_of (r : final_row) : country_tuple :=
  let g := left (joined r) in
  mkCountry (country_code g) (country_name g) (region g) (incomegroup g).

Lemma countries_df_unfold final_df :
  countries_df final_df = drop_duplicates country_eqb (map country_of final_df).
Proof. reflexivity. Qed.

Lemma country_eqb_sym a b : country_eqb a b = country_eqb b a.
Proof.
  unfold country_eqb.
  rewrite (cell_eqb_sym (c_country_code a)), (cell_eqb_sym (c_country_name a)),
          (cell_eqb_sym (c_region a)), (cell_eqb_sym (c_income_level a)).
  reflexivity.
Qed.

Lemma existsb_false {A : Type} (f : A -> bool) (l : list A) :
  existsb f l = false -> forall x, In x l -> f x = false.
Proof.
  intros H x Hx. destruct (f x) eqn:E; [|reflexivity].
  rewrite <- H. symmetry. apply existsb_exists. exists x. auto.
Qed.

(** Rows kept by drop_duplicates differ from the rows seen before them and
    from one another. *)
Lemma drop_duplicates_from_distinct {A : Type} (eqb : A -> A -> bool) seen l :
  Forall (fun x => forall y, In y seen -> eqb x y = false)
         (drop_duplicates_from eqb seen l) /\
  ForallOrdPairs (fun a b => eqb b a = false) (drop_duplicates_from eqb seen l).
Proof.
  revert seen. induction l as [|x l IH]; simpl; intros seen.
  - split; constructor.
  - destruct (existsb (eqb x) seen) eqn:E.
    + apply IH.
    + destruct (IH (x :: seen)) as [IH1 IH2]. split.
      * constructor.
        -- intros y Hy. eapply existsb_false in E; eassumption.
        -- eapply Forall_impl; [|exact IH1].
           intros z Hz y Hy. apply Hz. right. exact Hy.
      * constructor; [|exact IH2].
        eapply Forall_impl; [|exact IH1].
        intros z Hz. apply Hz. left. reflexivity.
Qed.

(** One export row per name under the shared code "AAA".  The second row
    has no population and no ratio; under pandas 2 its change is taken
    after padding, from the ratio of the first row against itself. *)
Definition export_twins (pd : pandas_version) : list final_row :=
  [ mkFinal (mkMerged (mkGdp (Str "A") (Str "AAA") (Str "South Asia")
                             (Str "Low income") 2019 (Num (F64.lit 100)))
                      (Num (F64.lit 10)))
            (F64.lit 10) F64.nan (Str "Asia");
    mkFinal (mkMerged (mkGdp (Str "B") (Str "AAA") (Str "South Asia")
                             (Str "Low income") 2019 (Num (F64.lit 200)))
                      NaN)
            F64.nan
            match pd with Pandas2 => F64.lit 0 | Pandas3 => F64.nan end
            (Str "Asia") ].

Lemma transform_twins pd :
  transform_data pd (cleaned_main pd no_float main_twins meta_none pop_AAA)
                 meta_none pop_AAA
  = Ok (export_twins pd).
Proof. destruct pd; vm_compute; reflexivity. Qed.

(** C9, as amended. The rows load_to_postgres builds for the countries
    table are the (entity_code, entity_name, region, income_group) tuples of
    the export with repeated tuples dropped: every tuple of the export is
    represented, every built row is a tuple of the export, and no two built
    rows are equal as whole tuples.  Each entity_code occurs at most once
    among them when all export rows with the same entity_code agree on name,
    region and income group. *)
Theorem countries_rows_distinct (final_df : list final_row) :
  (forall t, In t (countries_df final_df) -> exists r, In r final_df /\ t = country_of r) /\
  (forall r, In r final_df ->
     exists t, In t (countries_df final_df) /\
               (t = country_of r \/ country_eqb (country_of r) t = true)) /\
  ForallOrdPairs (fun a b => country_eqb a b = false) (countries_df final_df) /\
  ((forall r1 r2, In r1 final_df -> In r2 final_df ->
      cell_eqb (country_code (left (joined r1))) (country_code (left (joined r2))) = true ->
      country_eqb (country_of r1) (country_of r2) = true) ->
   ForallOrdPairs (fun a b => cell_eqb (c_country_code a) (c_country_code b) = false)
                  (countries_df final_df)).
Proof.
  rewrite countries_df_unfold. unfold drop_duplicates.
  assert (Hsub : forall t,
             In t (drop_duplicates_from country_eqb [] (map country_of final_df)) ->
             exists r, In r final_df /\ t = country_of r).
  { intros t Ht. apply drop_duplicates_from_In in Ht.
    apply in_map_iff in Ht. destruct Ht as [r [<- Hr]]. exists r. auto. }
  assert (Hdist : ForallOrdPairs (fun a b => country_eqb a b = false)
            (drop_duplicates_from country_eqb [] (map country_of final_df))).
  { eapply FOP_impl_In;
      [|apply (drop_duplicates_from_distinct country_eqb [] (map country_of final_df))].
    intros a b _ _ H. rewrite country_eqb_sym. exact H. }
  split; [exact Hsub|]. split; [|split; [exact Hdist|]].
  - intros r Hr.
    destruct (drop_duplicates_from_keeps country_eqb [] (map country_of final_df)
                (country_of r) (in_map _ _ _ Hr)) as [[y [[] _]]|[t [Ht Ho]]].
    exists t. auto.
  - intros Hagree. eapply FOP_impl_In; [|exact Hdist].
    intros a b Ha Hb Hab.
    destruct (Hsub a Ha) as [r1 [Hr1 ->]]. destruct (Hsub b Hb) as [r2 [Hr2 ->]].
    destruct (cell_eqb (c_country_code (country_of r1))
                       (c_country_code (country_of r2))) eqn:E; [|reflexivity].
    rewrite (Hagree r1 r2 Hr1 Hr2 E) in Hab. discriminate Hab.
Qed.

(** The export of the end-to-end scenario: both rows agree on every
    attribute, and the countries table gets one row for "AAA". *)
Lemma countries_rows_distinct_witness :
  ForallOrdPairs (fun a b => cell_eqb (c_country_code a) (c_country_code b) = false)
    (countries_df [ export_AAA NaN 2019 100 10 F64.nan;
                    export_AAA NaN 2020 110 11 (F64.lit 0) ]).
Proof.
  apply (countries_rows_distinct [ export_AAA NaN 2019 100 10 F64.nan;
                                   export_AAA NaN 2020 110 11 (F64.lit 0) ]).
  intros r1 r2 [<-|[<-|[]]] [<-|[<-|[]]] _; reflexivity.
Defined.

(** C9 as stated, under one pandas generation: for every export, no two
    rows built for the countries table share their entity_code. *)
Definition countries_code_always_unique (pd : pandas_version) : Prop :=
  forall main_clean meta_clean pop_clean final_df,
    transform_data pd main_clean meta_clean pop_clean = Ok final_df ->
    ForallOrdPairs (fun a b => cell_eqb (c_country_code a) (c_country_code b) = false)
                   (countries_df final_df).

Lemma twins_share_code pd : ~ countries_code_always_unique pd.
Proof.
  intros H. specialize (H _ _ _ _ (transform_twins pd)).
  inversion H as [|? ? Hall _]; subst. inversion Hall as [|? ? H12 _]; subst.
  destruct pd; vm_compute in H12; discriminate H12.
Qed.

(** C9 as stated fails, under pandas 2 and under pandas 3: an export with
    two names under the code "AAA" gives two rows of the countries table
    with that code. *)
Lemma countries_code_unique_counterexample :
  ~ countries_code_always_unique Pandas2 /\ ~ countries_code_always_unique Pandas3.
Proof. split; apply twins_share_code. Qed.

(* ================================================================== *)
(** ** The year columns of the population table *)

Lemma has_columns_spec frame labels :
  has_columns frame labels = true <-> forall c, In c labels -> In c (columns frame).
Proof.
  unfold has_columns. rewrite forallb_forall. split; intros H c Hc.
  - apply mem_In, H, Hc.
  - apply mem_In, H, Hc.
Qed.

Lemma has_columns_missing frame labels c :
  In c labels -> ~ In c (columns frame) -> has_columns frame labels = false.
Proof.
  intros Hc Hn. destruct (has_columns frame labels) eqn:E; [|reflexivity].
  exfalso. apply Hn. exact (proj1 (has_columns_spec _ _) E c Hc).
Qed.

Lemma mapM_map_Ok {A B : Type} (f : A -> result B) (g : A -> B) (l : list A) :
  (forall a, In a l -> f a = Ok (g a)) -> mapM f l = Ok (map g l).
Proof.
  induction l as [|a l IH]; simpl; intros H.
  - reflexivity.
  - rewrite (H a (or_introl eq_refl)), IH; [reflexivity|].
    intros b Hb. apply H. right. exact Hb.
Qed.

(** A year label that survives the cleaner fits an int64. *)
Lemma astype_int_valid_year v : In v valid_years -> astype_int v = Ok (int_of_str v).
Proof.
  intros H. pose proof (valid_years_range v H) as R. unfold astype_int.
  change (2 ^ 63) with 9223372036854775808.
  destruct (Z.ltb_spec (int_of_str v) 9223372036854775808); [reflexivity | lia].
Qed.

(** The unpivoted population table, when the population table has no
    column "population", has the identifier columns and has every year column
    of the main table, the year labels being valid years. *)
Lemma pop_long_of_returns main_clean pop_clean :
  (forall v, In v (value_vars main_clean) -> In v valid_years) ->
  ~ In "population"%string (columns pop_clean) ->
  (forall c, In c (pop_id_vars ++ value_vars main_clean) -> In c (columns pop_clean)) ->
  pop_long_of main_clean pop_clean
  = Ok (flat_map (fun v => map (fun r => pop_row_of r v) (rows pop_clean))
          (value_vars main_clean)).
Proof.
  intros Hvalid Hnp Hcols. unfold pop_long_of, melt.
  rewrite (proj2 (mem_false _ _) Hnp).
  rewrite (proj2 (has_columns_spec _ _) Hcols). cbn [bind].
  rewrite (mapM_map_Ok _ (fun '(r, v, x) => mkPop (r "country_name"%string)
             (r "country_code"%string) (int_of_str v) x)).
  - rewrite flat_map_map. f_equal. apply flat_map_ext. intros v.
    rewrite map_map. reflexivity.
  - intros [[r v] x] Hin. apply in_flat_map in Hin. destruct Hin as [v' [Hv' Hin]].
    apply in_map_iff in Hin. destruct Hin as [r' [E _]]. injection E as _ <- _.
    rewrite (astype_int_valid_year _ (Hvalid _ Hv')). reflexivity.
Qed.

(** How pop_long_of raises when the population table lacks a label it is
    asked for. *)
Lemma pop_long_of_missing main_clean pop_clean c :
  In c (pop_id_vars ++ value_vars main_clean) -> ~ In c (columns pop_clean) ->
  pop_long_of main_clean pop_clean
  = Raise (if mem "population" (columns pop_clean) then ValueError else KeyError).
Proof.
  intros Hc Hn. unfold pop_long_of, melt.
  destruct (mem "population" (columns pop_clean)); [reflexivity|].
  rewrite (has_columns_missing _ _ c Hc Hn). reflexivity.
Qed.

Lemma mapM_ext_Forall2 {A A' B : Type} (f : A -> result B) (f' : A' -> result B) l l' :
  Forall2 (fun a a' => f a = f' a') l l' -> mapM f l = mapM f' l'.
Proof.
  induction 1 as [|a a' l l' E _ IH]; simpl.
  - reflexivity.
  - rewrite E, IH. reflexivity.
Qed.

Lemma Forall2_flat_map {A B B' : Type} (R : B -> B' -> Prop)
    (f : A -> list B) (f' : A -> list B') (l : list A) :
  (forall a, In a l -> Forall2 R (f a) (f' a)) ->
  Forall2 R (flat_map f l) (flat_map f' l).
Proof.
  induction l as [|a l IH]; simpl; intros H.
  - constructor.
  - apply Forall2_app.
    + apply H. left. reflexivity.
    + apply IH. intros b Hb. apply H. right. exact Hb.
Qed.

Lemma Forall2_map_both {A A' B B' : Type} (R : B -> B' -> Prop)
    (f : A -> B) (f' : A' -> B') l l' :
  Forall2 (fun a a' => R (f a) (f' a')) l l' -> Forall2 R (map f l) (map f' l').
Proof.
  induction 1; simpl; constructor; assumption.
Qed.

(** The labels the transformer asks the population table for. *)
Definition pop_labels (main_clean : DataFrame) : list string :=
  pop_id_vars ++ value_vars main_clean.

(** Two population tables agree on what the transformer reads of them:
    which of the labels it asks for they have, whether they have a column
    "population", and the cells of their rows under the labels asked for. *)
Definition same_for_transform (main_clean pop_clean pop_clean' : DataFrame) : Prop :=
  (forall c, In c ("population"%string :: pop_labels main_clean) ->
             (In c (columns pop_clean) <-> In c (columns pop_clean'))) /\
  Forall2 (fun r r' : Row => forall c, In c (pop_labels main_clean) -> r c = r' c)
          (rows pop_clean) (rows pop_clean').

Lemma mem_agree c l l' : (In c l <-> In c l') -> mem c l = mem c l'.
Proof.
  intros H. destruct (mem c l) eqn:E1, (mem c l') eqn:E2; try reflexivity.
  - apply mem_In, H, mem_In in E1. congruence.
  - apply mem_In, H, mem_In in E2. congruence.
Qed.

Lemma forallb_agree {A : Type} (f g : A -> bool) (l : list A) :
  (forall a, In a l -> f a = g a) -> forallb f l = forallb g l.
Proof.
  induction l as [|a l IH]; simpl; intros H; [reflexivity|].
  rewrite (H a (or_introl eq_refl)), IH; [reflexivity|].
  intros b Hb. apply H. right. exact Hb.
Qed.

Lemma pop_long_of_agree main_clean pop_clean pop_clean' :
  same_for_transform main_clean pop_clean pop_clean' ->
  pop_long_of main_clean pop_clean = pop_long_of main_clean pop_clean'.
Proof.
  intros [Hcols Hrows]. unfold pop_long_of, melt.
  rewrite (mem_agree "population" _ _ (Hcols _ (or_introl eq_refl))).
  destruct (mem "population" (columns pop_clean')); [reflexivity|].
  assert (E : has_columns pop_clean (pop_id_vars ++ value_vars main_clean)
              = has_columns pop_clean' (pop_id_vars ++ value_vars main_clean)).
  { unfold has_columns. apply forallb_agree. intros c Hc.
    apply mem_agree, Hcols. right. exact Hc. }
  rewrite <- E. destruct (has_columns pop_clean _); [|reflexivity].
  cbn [bind]. apply mapM_ext_Forall2. apply Forall2_flat_map.
  intros v Hv. apply Forall2_map_both.
  eapply Forall2_impl; [|exact Hrows].
  intros r r' H. cbv beta. unfold pop_labels in H.
  rewrite (H "country_name"%string), (H "country_code"%string), (H v).
  - reflexivity.
  - apply in_or_app. right. exact Hv.
  - right. left. reflexivity.
  - left. reflexivity.
Qed.

Lemma is_numeric_column_agree main_clean pop_clean pop_clean' c :
  same_for_transform main_clean pop_clean pop_clean' ->
  In c pop_id_vars ->
  is_numeric_column pop_clean c = is_numeric_column pop_clean' c.
Proof.
  intros [_ Hrows] Hc. unfold is_numeric_column.
  assert (E : forallb (fun r : Row => is_num (r c)) (rows pop_clean)
              = forallb (fun r : Row => is_num (r c)) (rows pop_clean')).
  { induction Hrows as [|r r' l l' Hr _ IH]; simpl; [reflexivity|].
    rewrite (Hr c), IH; [reflexivity|].
    apply in_or_app. left. exact Hc. }
  destruct Hrows; [reflexivity | exact E].
Qed.

Lemma transform_data_agree pd main_clean meta_clean pop_clean pop_clean' :
  same_for_transform main_clean pop_clean pop_clean' ->
  transform_data pd main_clean meta_clean pop_clean
  = transform_data pd main_clean meta_clean pop_clean'.
Proof.
  intros H. unfold transform_data, merged_full, merged_sorted.
  rewrite (pop_long_of_agree _ _ _ H).
  destruct (gdp_long_of main_clean) as [gl|e]; [|reflexivity].
  destruct (pop_long_of main_clean pop_clean') as [pl|e]; [|reflexivity].
  cbn [bind]. unfold merge, key_dtypes_differ. cbn [existsb].
  rewrite (is_numeric_column_agree _ _ _ "country_code"%string H),
          (is_numeric_column_agree _ _ _ "country_name"%string H);
    [reflexivity | left; reflexivity | right; left; reflexivity].
Qed.

(** The population table of the scenario with one more year column, 2021,
    that the main table does not have. *)
Definition pop_AAA_2021 : DataFrame :=
  mkDataFrame
    ["country_name"; "country_code"; "2019"; "2020"; "2021"]%string
    [ row_of [ ("country_name", Str "A"); ("country_code", Str "AAA");
               ("2019", Num (F64.lit 10)); ("2020", Num (F64.lit 11));
               ("2021", Num (F64.lit 12)) ]%string ].

(** The population table of the scenario without its 2020 column. *)
Definition pop_AAA_2019 : DataFrame :=
  mkDataFrame
    ["country_name"; "country_code"; "2019"]%string
    [ row_of [ ("country_name", Str "A"); ("country_code", Str "AAA");
               ("2019", Num (F64.lit 10)) ]%string ].

(** C10. transform_data unpivots the population table on the year columns
    of the main table.  For a main table with distinct ASCII labels that
    clean_data has returned, and a population table with distinct labels:
    when the population table has its two identifier columns and every year
    column of the main table (and no column named "population", the name of
    the value column), the unpivoted population table is returned and
    holds, for each year column of the main table in turn, one row per row
    of the population table, with the year of that label and the cell under
    it; the year columns of the population table itself are not consulted:
    two population tables that agree on the labels asked for give the same
    unpivoted table and the same result of transform_data, so year columns
    present only in the population table are ignored; and when the main
    table has a year column that the population table lacks, the unpivoting
    raises (KeyError, or ValueError because of a column "population") and
    transform_data raises instead of returning. *)
Theorem population_unpivot_uses_main_years (pd : pandas_version) python_float
    main_df meta_df pop_df main_clean meta_clean pop_clean :
  clean_data pd python_float main_df meta_df pop_df
  = Ok (main_clean, meta_clean, pop_clean) ->
  NoDup (columns main_df) -> ascii_labels main_df -> NoDup (columns pop_df) ->
  (~ In "population"%string (columns pop_clean) ->
   (forall c, In c (pop_id_vars ++ value_vars main_clean) -> In c (columns pop_clean)) ->
   pop_long_of main_clean pop_clean
   = Ok (flat_map (fun v => map (fun r => pop_row_of r v) (rows pop_clean))
           (value_vars main_clean))) /\
  (forall pop_clean',
     NoDup (columns pop_clean') ->
     same_for_transform main_clean pop_clean pop_clean' ->
     pop_long_of main_clean pop_clean = pop_long_of main_clean pop_clean' /\
     transform_data pd main_clean meta_clean pop_clean
     = transform_data pd main_clean meta_clean pop_clean') /\
  (forall c, In c (columns main_clean) -> isdigit c = true ->
             ~ In c (columns pop_clean) ->
     pop_long_of main_clean pop_clean
     = Raise (if mem "population" (columns pop_clean) then ValueError else KeyError) /\
     (exists e, transform_data pd main_clean meta_clean pop_clean = Raise e) /\
     (forall gdp_long, gdp_long_of main_clean = Ok gdp_long ->
        transform_data pd main_clean meta_clean pop_clean
        = Raise (if mem "population" (columns pop_clean)
                 then ValueError else KeyError))).
Proof.
  intros Hclean _ _ _.
  destruct (clean_data_columns _ _ _ _ _ _ _ Hclean) as [_ [Hvalid _]].
  split; [|split].
  - intros Hnp Hcols. apply pop_long_of_returns; assumption.
  - intros pop' _ Hsame. split.
    + apply pop_long_of_agree, Hsame.
    + apply transform_data_agree, Hsame.
  - intros c Hc Hd Hn.
    assert (Hv : In c (pop_id_vars ++ value_vars main_clean)).
    { apply in_or_app. right. apply filter_In. auto. }
    pose proof (pop_long_of_missing _ _ _ Hv Hn) as E.
    assert (Hk : forall gl, gdp_long_of main_clean = Ok gl ->
                 transform_data pd main_clean meta_clean pop_clean
                 = Raise (if mem "population" (columns pop_clean)
                          then ValueError else KeyError)).
    { intros gl Hg. unfold transform_data, merged_full, merged_sorted.
      rewrite Hg, E. reflexivity. }
    split; [exact E|]. split; [|exact Hk].
    destruct (gdp_long_of main_clean) as [gl|e] eqn:Hg.
    + eexists. apply (Hk gl eq_refl).
    + exists e. unfold transform_data, merged_full, merged_sorted.
      rewrite Hg. reflexivity.
Qed.

Lemma NoDup_checked (l : list string) : has_duplicates l = false -> NoDup l.
Proof.
  induction l as [|c l IH]; simpl; intros H; constructor.
  - apply orb_false_iff in H. apply mem_false, H.
  - apply IH. apply orb_false_iff in H. apply H.
Qed.

Lemma ascii_labels_checked (df : DataFrame) :
  forallb ascii_text (columns df) = true -> ascii_labels df.
Proof. intros H c Hc. rewrite forallb_forall in H. apply H, Hc. Qed.

(** The scenario through the cleaner.  With an extra 2021 column in the
    population table, the unpivoted population table has the rows of 2019
    and 2020 only; with a population table without 2020, transform_data
    raises KeyError. *)
Lemma population_unpivot_uses_main_years_witness :
  pop_long_of (cleaned_main Pandas3 no_float (main_AAA (Str "Low income"))
                 meta_none pop_AAA_2021) pop_AAA_2021
  = Ok [ mkPop (Str "A") (Str "AAA") 2019 (Num (F64.lit 10));
         mkPop (Str "A") (Str "AAA") 2020 (Num (F64.lit 11)) ] /\
  transform_data Pandas3
    (cleaned_main Pandas3 no_float (main_AAA (Str "Low income")) meta_none pop_AAA_2019)
    meta_none pop_AAA_2019
  = Raise KeyError.
Proof.
  assert (Nm : NoDup (columns (main_AAA (Str "Low income"))))
    by (apply NoDup_checked; reflexivity).
  assert (Am : ascii_labels (main_AAA (Str "Low income")))
    by (apply ascii_labels_checked; reflexivity).
  split.
  - assert (Hr : returns (clean_data Pandas3 no_float (main_AAA (Str "Low income"))
                            meta_none pop_AAA_2021) = true)
      by (vm_compute; reflexivity).
    assert (Np : NoDup (columns pop_AAA_2021)) by (apply NoDup_checked; reflexivity).
    rewrite (proj1 (population_unpivot_uses_main_years _ _ _ _ _ _ _ _
                      (cleaned_main_Ok _ _ _ _ Hr) Nm Am Np)).
    + vm_compute. reflexivity.
    + vm_compute. intuition discriminate.
    + intros c Hc. vm_compute in Hc. vm_compute. intuition.
  - assert (Hr : returns (clean_data Pandas3 no_float (main_AAA (Str "Low income"))
                            meta_none pop_AAA_2019) = true)
      by (vm_compute; reflexivity).
    assert (Np : NoDup (columns pop_AAA_2019)) by (apply NoDup_checked; reflexivity).
    refine (proj2 (proj2 (proj2 (proj2 (population_unpivot_uses_main_years _ _ _ _ _ _ _ _
              (cleaned_main_Ok _ _ _ _ Hr) Nm Am Np)) "2020"%string _ _ _)) _ _).
    + vm_compute. auto 10.
    + reflexivity.
    + vm_compute. intuition discriminate.
    + vm_compute. reflexivity.
Defined.

(* ================================================================== *)
(** ** The change of the ratio *)




(** Two rows of the table with the same (country_code, year). *)
Definition same_row_key (r1 r2 : final_row) : bool :=
  same_code_year (left (joined r1)) (left (joined r2)).

(** The fractional change of the ratio [x] relative to the ratio [x0]. *)
Definition pct (x0 x : float64) : float64 :=
  F64.sub (F64.div x x0) (F64.lit 1%float).




































(** The scenario of the change: ratios 10, 12, 9 in three consecutive
    years starting at [y0] (GDP 100, 120, 90 over a population of 10). *)
Definition main_ratios (y0 : Z) : DataFrame :=
  mkDataFrame
    ["country_name"; "country_code"; "region"; "incomegroup";
     str_of_year y0; str_of_year (y0 + 1); str_of_year (y0 + 2)]%string
    [ row_of [ ("country_name", Str "A"); ("country_code", Str "AAA");
               ("region", Str "South Asia"); ("incomegroup", Str "Low income");
               (str_of_year y0, Num (F64.lit 100));
               (str_of_year (y0 + 1), Num (F64.lit 120));
               (str_of_year (y0 + 2), Num (F64.lit 90)) ]%string ].

Definition pop_ratios (y0 : Z) : DataFrame :=
  mkDataFrame
    ["country_name"; "country_code";
     str_of_year y0; str_of_year (y0 + 1); str_of_year (y0 + 2)]%string
    [ row_of [ ("country_name", Str "A"); ("country_code", Str "AAA");
               (str_of_year y0, Num (F64.lit 10));
               (str_of_year (y0 + 1), Num (F64.lit 10));
               (str_of_year (y0 + 2), Num (F64.lit 10)) ]%string ].

(** The binary64 number 0.2 (the float nearest to one fifth). *)
Definition f_0_2 : float64 := F64.lit 0x1.999999999999ap-3%float.

(** The change 12/10 - 1 in binary64 is 0.19999999999999996, one unit in
    the last place below 0.2; rounded to 4 decimals, as in the export, it
    is 0.2. *)
Lemma change_10_12 :
  pct (F64.lit 10) (F64.lit 12) = F64.lit 0x1.9999999999998p-3%float /\
  F64.round 4 (pct (F64.lit 10) (F64.lit 12)) = f_0_2 /\
  pct (F64.lit 12) (F64.lit 9) = F64.lit (-0.25)%float /\
  F64.round 4 (pct (F64.lit 12) (F64.lit 9)) = F64.lit (-0.25)%float.
Proof. repeat split; vm_compute; reflexivity. Qed.









(* ================================================================== *)
(** ** Further properties of the transformer: errors and edge cases *)

Lemma gdp_long_of_missing main_clean c :
  In c id_vars -> ~ In c (columns main_clean) ->
  gdp_long_of main_clean
  = Raise (if mem "gdp" (columns main_clean) then ValueError else KeyError).
Proof.
  intros Hc Hn. unfold gdp_long_of, melt.
  destruct (mem "gdp" (columns main_clean)); [reflexivity|].
  rewrite (has_columns_missing _ _ c); [reflexivity | | exact Hn].
  apply in_or_app. left. exact Hc.
Qed.

Lemma gdp_long_of_value_name main_clean :
  In "gdp"%string (columns main_clean) -> gdp_long_of main_clean = Raise ValueError.
Proof.
  intros H. unfold gdp_long_of, melt.
  rewrite (proj2 (mem_In _ _) H). reflexivity.
Qed.

Lemma transform_data_main_raises pd main_clean meta_clean pop_clean e :
  gdp_long_of main_clean = Raise e ->
  transform_data pd main_clean meta_clean pop_clean = Raise e.
Proof.
  intros H. unfold transform_data, merged_full, merged_sorted.
  rewrite H. reflexivity.
Qed.

Lemma transform_data_pop_raises pd main_clean meta_clean pop_clean gdp_long e :
  gdp_long_of main_clean = Ok gdp_long ->
  pop_long_of main_clean pop_clean = Raise e ->
  transform_data pd main_clean meta_clean pop_clean = Raise e.
Proof.
  intros Hg H. unfold transform_data, merged_full, merged_sorted.
  rewrite Hg, H. reflexivity.
Qed.

(** X2. transform_data needs the four identifier columns of the main table
    and the two of the population table, and no column that is named like
    the value column of the unpivoted table.  A main table with a column
    "gdp" makes it raise ValueError; otherwise a main table without
    country_name, country_code, region or incomegroup makes it raise
    KeyError.  Once the main table (distinct ASCII labels) is unpivoted, a
    population table with a column "population" makes it raise ValueError;
    otherwise a population table without country_name or country_code makes
    it raise KeyError. *)
Theorem identifier_columns_required (pd : pandas_version)
    main_clean meta_clean pop_clean :
  (In "gdp"%string (columns main_clean) ->
   transform_data pd main_clean meta_clean pop_clean = Raise ValueError) /\
  (~ In "gdp"%string (columns main_clean) ->
   forall c, In c id_vars -> ~ In c (columns main_clean) ->
     transform_data pd main_clean meta_clean pop_clean = Raise KeyError) /\
  (NoDup (columns main_clean) -> ascii_labels main_clean ->
   forall gdp_long, gdp_long_of main_clean = Ok gdp_long ->
     (In "population"%string (columns pop_clean) ->
      transform_data pd main_clean meta_clean pop_clean = Raise ValueError) /\
     (~ In "population"%string (columns pop_clean) ->
      forall c, In c pop_id_vars -> ~ In c (columns pop_clean) ->
        transform_data pd main_clean meta_clean pop_clean = Raise KeyError)).
Proof.
  split; [|split].
  - intros H. apply transform_data_main_raises, gdp_long_of_value_name, H.
  - intros Hng c Hc Hn. apply transform_data_main_raises.
    rewrite (gdp_long_of_missing _ c Hc Hn), (proj2 (mem_false _ _) Hng).
    reflexivity.
  - intros _ _ gl Hg. split.
    + intros H. apply (transform_data_pop_raises _ _ _ _ gl); [exact Hg|].
      unfold pop_long_of, melt. rewrite (proj2 (mem_In _ _) H). reflexivity.
    + intros Hnp c Hc Hn. apply (transform_data_pop_raises _ _ _ _ gl); [exact Hg|].
      rewrite (pop_long_of_missing _ _ c); [| apply in_or_app; left; exact Hc | exact Hn].
      rewrite (proj2 (mem_false _ _) Hnp). reflexivity.
Qed.

(** The population table of the scenario without its country_name column. *)
Definition pop_no_name : DataFrame :=
  mkDataFrame ["country_code"; "2019"; "2020"]%string (rows pop_AAA).

(** An unpivoted table given as main table: it has a column "gdp" and no
    column "region". *)
Definition main_long : DataFrame :=
  mkDataFrame ["country_name"; "country_code"; "year"; "gdp"]%string
    [ row_of [ ("country_name", Str "A"); ("country_code", Str "AAA");
               ("year", Num (F64.lit 2019)); ("gdp", Num (F64.lit 100)) ]%string ].

Lemma identifier_columns_required_witness :
  transform_data Pandas3 main_long meta_none pop_AAA = Raise ValueError /\
  transform_data Pandas3 pop_AAA meta_none pop_AAA = Raise KeyError /\
  transform_data Pandas3 (main_AAA NaN) meta_none pop_no_name = Raise KeyError.
Proof.
  split; [|split].
  - apply (proj1 (identifier_columns_required Pandas3 main_long meta_none pop_AAA)).
    cbn. auto 10.
  - apply (proj1 (proj2 (identifier_columns_required Pandas3 pop_AAA meta_none pop_AAA))
             ltac:(cbn; intuition discriminate) "region"%string).
    + right. right. left. reflexivity.
    + cbn. intuition discriminate.
  - refine (proj2 (proj2 (proj2 (identifier_columns_required Pandas3 (main_AAA NaN)
                                   meta_none pop_no_name))
                     (NoDup_checked (columns (main_AAA NaN)) eq_refl)
                     (ascii_labels_checked (main_AAA NaN) eq_refl)
                     _ eq_refl) _ "country_name"%string _ _).
    + cbn. intuition discriminate.
    + left. reflexivity.
    + cbn. intuition discriminate.
Defined.

(** X3. An identifier column that is missing in every row does not survive
    the cleaner, and the transformer then stops.  For a main table with
    distinct ASCII labels: when clean_data returns a main table in which
    country_name, country_code, region or incomegroup is missing in all
    rows, that column is gone and transform_data on the output raises:
    KeyError, or ValueError when a column "gdp" has survived.  In particular
    a main table without rows comes out of clean_data without columns and
    makes transform_data raise KeyError. *)
Theorem all_missing_identifier_stops_pipeline (pd : pandas_version) python_float
    main_df meta_df pop_df main_clean meta_clean pop_clean :
  clean_data pd python_float main_df meta_df pop_df
  = Ok (main_clean, meta_clean, pop_clean) ->
  NoDup (columns main_df) -> ascii_labels main_df ->
  (forall c, In c id_vars ->
     (forall r, In r (rows main_clean) -> isnull (r c) = true) ->
     ~ In c (columns main_clean) /\
     transform_data pd main_clean meta_clean pop_clean
     = Raise (if mem "gdp" (columns main_clean) then ValueError else KeyError)) /\
  (rows main_df = [] ->
     rows main_clean = [] /\ columns main_clean = [] /\
     transform_data pd main_clean meta_clean pop_clean = Raise KeyError).
Proof.
  intros H _ _.
  pose proof (clean_data_Ok _ _ _ _ _ _ _ H) as [_ [_ [[rows2 [H2 Hrows]] Hcols]]].
  assert (Hdrop : forall c, (forall r, In r (rows main_clean) -> isnull (r c) = true) ->
                            ~ In c (columns main_clean)).
  { intros c Hall Hin. rewrite Hcols in Hin. apply filter_In in Hin.
    destruct Hin as [_ Hk]. apply negb_true_iff in Hk.
    assert (Ht : all_null (rows main_clean) c = true)
      by (apply forallb_forall; exact Hall).
    rewrite Ht in Hk. discriminate Hk. }
  split.
  - intros c Hc Hall. split; [apply Hdrop, Hall|].
    apply transform_data_main_raises.
    apply (gdp_long_of_missing _ c); [exact Hc | apply Hdrop, Hall].
  - intros Hempty. rewrite Hempty in H2. cbn [map mapM] in H2. injection H2 as <-.
    cbn [drop_duplicates drop_duplicates_from map] in Hrows.
    assert (Hc0 : columns main_clean = []).
    { destruct (columns main_clean) as [|c l] eqn:E; [reflexivity|].
      exfalso. apply (Hdrop c).
      - rewrite Hrows. intros r [].
      - left. reflexivity. }
    split; [exact Hrows|]. split; [exact Hc0|].
    apply transform_data_main_raises.
    rewrite (gdp_long_of_missing _ "country_name"%string).
    + rewrite Hc0. reflexivity.
    + left. reflexivity.
    + rewrite Hc0. intros [].
Qed.

(** The scenario's main table with its rows removed. *)
Definition main_no_rows : DataFrame :=
  mkDataFrame (columns (main_AAA NaN)) [].

Lemma all_missing_identifier_stops_pipeline_witness :
  returns (clean_data Pandas3 no_float main_no_rows meta_none pop_AAA) = true /\
  transform_data Pandas3 (cleaned_main Pandas3 no_float main_no_rows meta_none pop_AAA)
                 meta_none pop_AAA
  = Raise KeyError.
Proof.
  assert (Hr : returns (clean_data Pandas3 no_float main_no_rows meta_none pop_AAA) = true)
    by (vm_compute; reflexivity).
  split; [exact Hr|].
  apply (proj2 (all_missing_identifier_stops_pipeline _ _ _ _ _ _ _ _
                  (cleaned_main_Ok _ _ _ _ Hr)
                  (NoDup_checked (columns main_no_rows) eq_refl)
                  (ascii_labels_checked main_no_rows eq_refl))).
  reflexivity.
Defined.

(** X4. Without year columns there is nothing to unpivot.  For tables with
    distinct labels (ASCII in the main table): when the main table has no
    column with a digit label, both tables have their identifier columns,
    neither has a column named like the value column of its unpivoted table
    ("gdp", "population"), and country_code and country_name have the same
    dtype in both tables (text in both, or numbers in both), transform_data
    returns an empty export and does not raise. *)
Theorem no_year_columns_empty_export (pd : pandas_version)
    main_clean meta_clean pop_clean :
  NoDup (columns main_clean) -> ascii_labels main_clean ->
  NoDup (columns pop_clean) ->
  value_vars main_clean = [] ->
  (forall c, In c id_vars -> In c (columns main_clean)) ->
  (forall c, In c pop_id_vars -> In c (columns pop_clean)) ->
  ~ In "gdp"%string (columns main_clean) ->
  ~ In "population"%string (columns pop_clean) ->
  (forall c, In c pop_id_vars ->
             is_numeric_column main_clean c = is_numeric_column pop_clean c) ->
  transform_data pd main_clean meta_clean pop_clean = Ok [].
Proof.
  intros _ _ _ Hv Hm Hp Hng Hnp Hd.
  unfold transform_data, merged_full, merged_sorted, gdp_long_of, pop_long_of, melt.
  rewrite Hv, !app_nil_r.
  rewrite (proj2 (mem_false _ _) Hng), (proj2 (mem_false _ _) Hnp).
  rewrite (proj2 (has_columns_spec main_clean id_vars) Hm).
  rewrite (proj2 (has_columns_spec pop_clean pop_id_vars) Hp).
  cbn [flat_map mapM bind]. unfold merge, key_dtypes_differ. cbn [existsb is_empty].
  rewrite (Hd "country_code"%string) by (right; left; reflexivity).
  rewrite (Hd "country_name"%string) by (left; reflexivity).
  rewrite !xorb_nilpotent. reflexivity.
Qed.

(** The scenario's main table reduced to its identifier columns. *)
Definition main_ids_only : DataFrame :=
  mkDataFrame id_vars (rows (main_AAA NaN)).

Lemma no_year_columns_empty_export_witness :
  transform_data Pandas3 main_ids_only meta_none pop_AAA = Ok [].
Proof.
  apply no_year_columns_empty_export.
  - apply NoDup_checked. reflexivity.
  - apply ascii_labels_checked. reflexivity.
  - apply NoDup_checked. reflexivity.
  - reflexivity.
  - intros c Hc. exact Hc.
  - intros c Hc. cbn in Hc. cbn. intuition.
  - cbn. intuition discriminate.
  - cbn. intuition discriminate.
  - intros c [<-|[<-|[]]]; reflexivity.
Defined.

(* ================================================================== *)
(** ** Further properties of the export: order, provenance, missing values *)

Lemma StronglySorted_filter {A : Type} (R : A -> A -> Prop) (f : A -> bool) (l : list A) :
  StronglySorted R l -> StronglySorted R (filter f l).
Proof.
  induction 1 as [|a l Hs IH Ha]; simpl.
  - constructor.
  - destruct (f a); [|exact IH]. constructor; [exact IH|].
    apply Forall_forall. intros x Hx. apply filter_In in Hx.
    rewrite Forall_forall in Ha. apply Ha, Hx.
Qed.

Lemma StronglySorted_map {A B : Type} (f : A -> B) (R : B -> B -> Prop) (l : list A) :
  StronglySorted (fun a b => R (f a) (f b)) l -> StronglySorted R (map f l).
Proof.
  induction 1 as [|a l Hs IH Ha]; simpl; constructor.
  - exact IH.
  - apply Forall_map. exact Ha.
Qed.

(** X5. The export is in (country_name, year) order: in the table
    transform_data returns, every row comes before every later row in the
    order of sort_values on ['country_name', 'year'] (names ascending,
    missing names last, years ascending within a name); filtering and
    rounding keep the order the last sort made. *)
Theorem export_sorted_by_name_year (pd : pandas_version) main_clean meta_clean pop_clean final :
  transform_data pd main_clean meta_clean pop_clean = Ok final ->
  StronglySorted (fun r1 r2 => key_leb (name_year r1) (name_year r2) = true) final.
Proof.
  intros H. apply transform_data_Ok in H. destruct H as [sorted [_ ->]].
  apply (StronglySorted_map round_row
           (fun r1 r2 => key_leb (name_year r1) (name_year r2) = true)).
  apply StronglySorted_filter.
  exact (sort_values_sorted name_year (derive_change pd sorted)).
Qed.

Lemma export_sorted_by_name_year_witness :
  StronglySorted (fun r1 r2 => key_leb (name_year r1) (name_year r2) = true)
    [ export_AAA NaN 2019 100 10 F64.nan;
      export_AAA NaN 2020 110 11 (F64.lit 0) ].
Proof.
  apply (export_sorted_by_name_year Pandas3 (main_AAA NaN) meta_none pop_AAA).
  vm_compute. reflexivity.
Defined.

Lemma In_pop_long main_clean pop_clean pop_long p :
  pop_long_of main_clean pop_clean = Ok pop_long ->
  (In p pop_long <->
   exists r v, In r (rows pop_clean) /\ In v (value_vars main_clean) /\
               p = pop_row_of r v).
Proof.
  intros H. apply pop_long_of_Ok in H. destruct H as [_ ->].
  rewrite in_flat_map. split.
  - intros [v [Hv Hp]]. apply in_map_iff in Hp. destruct Hp as [r [<- Hr]].
    exists r, v. auto.
  - intros [r [v [Hr [Hv ->]]]]. exists v. split; [exact Hv|].
    apply in_map_iff. exists r. auto.
Qed.

(** A row of the export, traced back to the rated row it was made from. *)
Lemma export_row_origin {pd : pandas_version} main_clean meta_clean pop_clean final r :
  transform_data pd main_clean meta_clean pop_clean = Ok final ->
  In r final ->
  exists gdp_long pop_long rated r0,
    gdp_long_of main_clean = Ok gdp_long /\
    pop_long_of main_clean pop_clean = Ok pop_long /\
    derive_ratio (merge_left gdp_long pop_long) = Ok rated /\
    In r0 (derive_change pd (sort_values code_year rated)) /\
    In (joined r0, gdp_per_capita r0) rated /\
    between 2010 2020 (row_year r0) = true /\
    r = round_row r0.
Proof.
  intros H Hr.
  destruct (transform_data_In _ _ _ _ _ H Hr) as [sorted [r0 [Hs [Hr0 [Hy ->]]]]].
  destruct (merged_sorted_Ok _ _ _ Hs) as [gl [pl [rated [Hg [Hp [Hq ->]]]]]].
  exists gl, pl, rated, r0. repeat split; try assumption.
  apply (sort_values_In code_year).
  rewrite <- (derive_change_rows (pd := pd) (sort_values code_year rated)).
  apply in_map_iff. exists r0. auto.
Qed.

(** X6. The export invents nothing: every row transform_data returns is
    made from one row of the main table and one of its year columns: name,
    code, region and income group are the cells of that row, the year is the
    integer of the column label, the GDP is the cell under that column
    rounded to 2 decimals, the continent is the region of that row through
    the lookup table, and the population is either missing or the cell, under
    a year column of the same year, of a row of the population table with
    the same code and name. *)
Theorem export_rows_come_from_main (pd : pandas_version) main_clean meta_clean pop_clean final r :
  transform_data pd main_clean meta_clean pop_clean = Ok final ->
  In r final ->
  exists row v,
    In row (rows main_clean) /\ In v (value_vars main_clean) /\
    country_name (left (joined r)) = row "country_name"%string /\
    country_code (left (joined r)) = row "country_code"%string /\
    region (left (joined r)) = row "region"%string /\
    incomegroup (left (joined r)) = row "incomegroup"%string /\
    year (left (joined r)) = int_of_str v /\
    gdp (left (joined r)) = round_cell 2 (row v) /\
    continent r = map_dict continent_map (row "region"%string) /\
    (population (joined r) = NaN \/
     exists prow v',
       In prow (rows pop_clean) /\ In v' (value_vars main_clean) /\
       cell_eqb (row "country_code"%string) (prow "country_code"%string) = true /\
       cell_eqb (row "country_name"%string) (prow "country_name"%string) = true /\
       int_of_str v = int_of_str v' /\
       population (joined r) = prow v').
Proof.
  intros H Hr.
  destruct (export_row_origin _ _ _ _ _ H Hr)
    as [gl [pl [rated [r0 [Hg [Hp [Hq [Hr0 [Hin [_ ->]]]]]]]]]].
  destruct (derive_ratio_Ok _ _ Hq) as [Hfst _].
  assert (Hm : In (joined r0) (merge_left gl pl)).
  { rewrite <- Hfst. apply in_map_iff. exists (joined r0, gdp_per_capita r0). auto. }
  rewrite merge_left_flat_map in Hm. apply in_flat_map in Hm.
  destruct Hm as [g [Hgin Hm]].
  pose proof (joined_rows_left _ _ _ Hm) as El.
  apply (In_gdp_long _ _ _ Hg) in Hgin. destruct Hgin as [row [v [Hrow [Hv Eg]]]].
  exists row, v. split; [exact Hrow|]. split; [exact Hv|].
  pose proof (derive_change_continent _ _ Hr0) as Ec.
  cbn [round_row joined left country_name country_code region incomegroup year gdp
       continent population].
  rewrite Ec, El, Eg. cbn [gdp_row_of country_name country_code region incomegroup
                           year gdp].
  repeat (split; [reflexivity|]).
  destruct (joined_rows_population _ _ _ Hm) as [[p [Hpin [Hk E]]]|[_ E]].
  - right. apply (In_pop_long _ _ _ _ Hp) in Hpin.
    destruct Hpin as [prow [v' [Hprow [Hv' Ep]]]].
    exists prow, v'. rewrite E, Ep. rewrite Eg, Ep in Hk.
    unfold key_match in Hk. cbn in Hk.
    rewrite !andb_true_iff, Z.eqb_eq in Hk. destruct Hk as [[C N] Y].
    repeat split; assumption.
  - left. exact E.
Qed.

Lemma export_rows_come_from_main_witness :
  exists row v,
    In row (rows (main_AAA NaN)) /\ In v (value_vars (main_AAA NaN)) /\
    year (left (joined (export_AAA NaN 2020 110 11 (F64.lit 0)))) = int_of_str v /\
    gdp (left (joined (export_AAA NaN 2020 110 11 (F64.lit 0)))) = round_cell 2 (row v).
Proof.
  destruct (export_rows_come_from_main Pandas3 (main_AAA NaN) meta_none pop_AAA
              [ export_AAA NaN 2019 100 10 F64.nan;
                export_AAA NaN 2020 110 11 (F64.lit 0) ]
              (export_AAA NaN 2020 110 11 (F64.lit 0)))
    as [row [v [Hrow [Hv [_ [_ [_ [_ [Hy [Hg _]]]]]]]]]].
  - vm_compute. reflexivity.
  - right. left. reflexivity.
  - exists row, v. auto.
Defined.

Lemma truediv_null_population a b q :
  truediv a b = Ok q -> isnull b = true -> q = F64.nan.
Proof.
  destruct a as [x|s], b as [y|t]; simpl; intros H Hn; try discriminate Hn.
  - injection H as <-. destruct y; try discriminate Hn.
    destruct x; reflexivity.
  - rewrite Hn in H. injection H as <-. reflexivity.
Qed.

Lemma truediv_zero_population a y q :
  truediv a (Num y) = Ok q -> F64.is_zero y = true ->
  F64.is_nan q || F64.is_inf q = true.
Proof.
  destruct a as [x|s]; simpl; intros H Hz.
  - injection H as <-. apply div_by_zero_or_nan. rewrite Hz. reflexivity.
  - destruct y; try discriminate Hz. discriminate H.
Qed.

Lemma round_nan_or_inf decimals q :
  (decimals = 2 \/ decimals = 4)%nat ->
  F64.is_nan q || F64.is_inf q = true ->
  F64.round decimals q = q.
Proof.
  intros [-> | ->]; destruct q as [s|s| |s m e]; intros H; try discriminate H;
    try destruct s; reflexivity.
Qed.

(** X7. A missing population is never dropped and never turned into a
    number: in the table transform_data returns, a row whose population is
    missing (no population row matched it, or the matched cell was missing)
    has a missing ratio, and a row whose population is zero has a ratio that
    is an infinity or missing. *)
Theorem missing_population_missing_ratio (pd : pandas_version)
    main_clean meta_clean pop_clean final r :
  transform_data pd main_clean meta_clean pop_clean = Ok final ->
  In r final ->
  (isnull (population (joined r)) = true -> gdp_per_capita r = F64.nan) /\
  (forall y, population (joined r) = Num y -> F64.is_zero y = true ->
             F64.is_nan (gdp_per_capita r) || F64.is_inf (gdp_per_capita r) = true).
Proof.
  intros H Hr.
  destruct (export_row_origin _ _ _ _ _ H Hr)
    as [gl [pl [rated [r0 [_ [_ [Hq [_ [Hin [_ ->]]]]]]]]]].
  destruct (derive_ratio_Ok _ _ Hq) as [_ Hall].
  rewrite Forall_forall in Hall. specialize (Hall _ Hin). cbn [fst snd] in Hall.
  cbn [round_row joined population gdp_per_capita]. split.
  - intros Hn. rewrite (truediv_null_population _ _ _ Hall Hn). reflexivity.
  - intros y Ey Hz. rewrite Ey in Hall.
    pose proof (truediv_zero_population _ _ _ Hall Hz) as Hq'.
    rewrite (round_nan_or_inf 2 _ (or_introl eq_refl) Hq'). exact Hq'.
Qed.

(** The scenario with a population table that has no row for "AAA": both
    exported rows have a missing population, hence a missing ratio. *)
Definition pop_other : DataFrame :=
  mkDataFrame
    ["country_name"; "country_code"; "2019"; "2020"]%string
    [ row_of [ ("country_name", Str "B"); ("country_code", Str "BBB");
               ("2019", Num (F64.lit 10)); ("2020", Num (F64.lit 11)) ]%string ].

Definition export_unmatched (y : Z) (g : PrimFloat.float) : final_row :=
  mkFinal
    (mkMerged
       (mkGdp (Str "A") (Str "AAA") (Str "South Asia") NaN y (Num (F64.lit g)))
       NaN)
    F64.nan F64.nan (Str "Asia").

Lemma missing_population_missing_ratio_witness :
  transform_data Pandas3 (main_AAA NaN) meta_none pop_other
  = Ok [ export_unmatched 2019 100; export_unmatched 2020 110 ] /\
  gdp_per_capita (export_unmatched 2019 100) = F64.nan.
Proof.
  assert (H : transform_data Pandas3 (main_AAA NaN) meta_none pop_other
              = Ok [ export_unmatched 2019 100; export_unmatched 2020 110 ])
    by (vm_compute; reflexivity).
  split; [exact H|].
  exact (proj1 (missing_population_missing_ratio _ _ _ _ _ (export_unmatched 2019 100)
                  H (or_introl eq_refl)) eq_refl).
Defined.

(* ================================================================== *)
(** ** Further properties of the cleaner: when it raises, what it keeps *)

Lemma mapM_error {A B : Type} (f : A -> result B) (l : list A) e :
  mapM f l = Raise e -> exists a, In a l /\ f a = Raise e.
Proof.
  induction l as [|a l IH]; simpl; intros H; [discriminate H|].
  destruct (f a) as [b|e'] eqn:E; simpl in H.
  - destruct (mapM f l) as [bs|e'']; simpl in H; [discriminate H|].
    injection H as ->. destruct (IH eq_refl) as [x [Hx Ex]]. exists x. auto.
  - injection H as ->. exists a. auto.
Qed.

Lemma astype_float_error python_float x e :
  astype_float python_float x = Raise e ->
  e = ValueError /\ exists s, x = Str s /\ python_float s = None.
Proof.
  destruct x as [f|s]; simpl; [discriminate|].
  destruct (python_float s) eqn:E; [discriminate|].
  intros H. injection H as <-. split; [reflexivity|]. exists s. auto.
Qed.

Lemma astype_float_row_error python_float cols r e :
  astype_float_row python_float cols r = Raise e ->
  e = ValueError /\
  exists c s, In c cols /\ r c = Str s /\ python_float s = None.
Proof.
  induction cols as [|c cols IH]; simpl; intros H; [discriminate H|].
  destruct (astype_float python_float (r c)) as [v|e'] eqn:E; simpl in H.
  - destruct (astype_float_row python_float cols r) as [r'|e'']; simpl in H;
      [discriminate H|].
    injection H as ->. destruct (IH eq_refl) as [He [c' [s [Hc Hs]]]].
    split; [exact He|]. exists c', s. split; [right; exact Hc | exact Hs].
  - injection H as ->. apply astype_float_error in E.
    destruct E as [He [s [Es Hs]]]. split; [exact He|].
    exists c, s. split; [left; reflexivity | auto].
Qed.

Lemma replace_sentinel_Str x s :
  replace_sentinel x = Str s -> x = Str s /\ is_sentinel x = false.
Proof.
  destruct x as [f|t]; cbn [replace_sentinel is_sentinel]; [discriminate|].
  destruct (mem t [".."; ""; " "]%string) eqn:E; [discriminate|].
  intros H. injection H as ->. auto.
Qed.

Lemma has_duplicates_NoDup (l : list string) : NoDup l -> has_duplicates l = false.
Proof.
  induction 1 as [|c l Hc _ IH]; simpl; [reflexivity|].
  rewrite (proj2 (mem_false _ _) Hc), IH. reflexivity.
Qed.

(** A text cell under a year column that float() rejects. *)
Definition bad_year_cell (python_float : string -> option float64)
    (main_df : DataFrame) : Prop :=
  exists r c s,
    In r (rows main_df) /\ In c (columns main_df) /\ isdigit c = true /\
    r c = Str s /\ is_sentinel (Str s) = false /\ python_float s = None.

(** The conversion [main_df[year_cols].astype(float)] of clean_data, after
    the replacement of the sentinel tokens. *)
Definition astype_step (python_float : string -> option float64)
    (main_df : DataFrame) : result (list Row) :=
  mapM (astype_float_row python_float (filter isdigit (columns main_df)))
       (map (fun (r : Row) c => replace_sentinel (r c)) (rows main_df)).

Lemma clean_data_cases pd python_float main_df meta_df pop_df :
  match astype_step python_float main_df with
  | Raise e => clean_data pd python_float main_df meta_df pop_df = Raise e
  | Ok _ =>
      if has_duplicates (filter isdigit (columns main_df))
      then clean_data pd python_float main_df meta_df pop_df = Raise ValueError
      else if mem "country_name" (columns main_df)
      then returns (clean_data pd python_float main_df meta_df pop_df) = true
      else clean_data pd python_float main_df meta_df pop_df = Raise KeyError
  end.
Proof.
  unfold clean_data.
  change (mapM _ (map _ (rows main_df))) with (astype_step python_float main_df).
  destruct (astype_step python_float main_df) as [rows2|e]; cbn [bind]; [|reflexivity].
  destruct (has_duplicates (filter isdigit (columns main_df))); [reflexivity|].
  destruct (mem "country_name" (columns main_df)); reflexivity.
Qed.

Lemma astype_step_error python_float main_df e :
  astype_step python_float main_df = Raise e ->
  e = ValueError /\ bad_year_cell python_float main_df.
Proof.
  unfold astype_step. intros H. apply mapM_error in H. destruct H as [r1 [Hr1 H]].
  apply astype_float_row_error in H. destruct H as [He [c [s [Hc [Es Hs]]]]].
  split; [exact He|].
  apply in_map_iff in Hr1. destruct Hr1 as [r [<- Hr]].
  apply filter_In in Hc. destruct Hc as [Hc D].
  apply replace_sentinel_Str in Es. destruct Es as [Es Hns]. rewrite Es in Hns.
  exists r, c, s. auto 10.
Qed.

Lemma astype_step_Ok python_float main_df rows2 :
  astype_step python_float main_df = Ok rows2 ->
  ~ bad_year_cell python_float main_df.
Proof.
  unfold astype_step. intros H [r [c [s [Hr [Hc [D [Es [Hns Hs]]]]]]]].
  apply mapM_Ok_Forall2 in H.
  destruct (Forall2_In_l _ _ _ (fun c => replace_sentinel (r c)) H) as [r2 [_ Ha]].
  { apply in_map_iff. exists r. auto. }
  destruct (astype_float_row_Ok _ _ _ _ Ha c) as [H1 _].
  assert (Hin : In c (filter isdigit (columns main_df))) by (apply filter_In; auto).
  specialize (H1 Hin). cbv beta in H1.
  rewrite Es, (replace_sentinel_keeps _ Hns) in H1.
  cbn [astype_float] in H1. rewrite Hs in H1. discriminate H1.
Qed.

(** X8. clean_data does raise on some data.  A main table in which a year
    label occurs twice makes it raise ValueError.  For a main table with
    distinct ASCII labels it returns exactly when the table has a
    country_name column and float() accepts every text cell under a year
    column other than the tokens "..", "" and " "; a rejected cell makes it
    raise ValueError (from astype); otherwise a missing country_name column
    makes it raise KeyError.  The metadata and population tables play no
    part in this. *)
Theorem clean_data_returns_iff (pd : pandas_version) python_float
    main_df meta_df pop_df :
  (has_duplicates (filter isdigit (columns main_df)) = true ->
   clean_data pd python_float main_df meta_df pop_df = Raise ValueError) /\
  (NoDup (columns main_df) -> ascii_labels main_df ->
   (returns (clean_data pd python_float main_df meta_df pop_df) = true <->
    In "country_name"%string (columns main_df) /\
    ~ bad_year_cell python_float main_df) /\
   (bad_year_cell python_float main_df ->
    clean_data pd python_float main_df meta_df pop_df = Raise ValueError) /\
   (~ bad_year_cell python_float main_df ->
    ~ In "country_name"%string (columns main_df) ->
    clean_data pd python_float main_df meta_df pop_df = Raise KeyError)).
Proof.
  pose proof (clean_data_cases pd python_float main_df meta_df pop_df) as Hc.
  pose proof (astype_step_error python_float main_df) as Hbad.
  pose proof (astype_step_Ok python_float main_df) as Hgood.
  split.
  - intros Hdup. rewrite Hdup in Hc.
    destruct (astype_step python_float main_df) as [rows2|e]; [exact Hc|].
    destruct (Hbad e eq_refl) as [-> _]. exact Hc.
  - intros Hnodup _.
    rewrite (has_duplicates_NoDup _ (NoDup_filter isdigit Hnodup)) in Hc.
    destruct (astype_step python_float main_df) as [rows2|e].
    + specialize (Hgood rows2 eq_refl).
      destruct (mem "country_name" (columns main_df)) eqn:M.
      * apply mem_In in M. split; [|split].
        -- split; [intros _; auto | intros _; exact Hc].
        -- intros Hb. exfalso. exact (Hgood Hb).
        -- intros _ Hn. exfalso. exact (Hn M).
      * apply mem_false in M. split; [|split].
        -- split; [intros Hr; rewrite Hc in Hr; discriminate Hr
                  | intros [Hn _]; exfalso; exact (M Hn)].
        -- intros Hb. exfalso. exact (Hgood Hb).
        -- intros _ _. exact Hc.
    + destruct (Hbad e eq_refl) as [-> Hb]. split; [|split].
      * split; [intros Hr; rewrite Hc in Hr; discriminate Hr
               | intros [_ Hn]; exfalso; exact (Hn Hb)].
      * intros _. exact Hc.
      * intros Hn _. exfalso. exact (Hn Hb).
Qed.

(** The scenario's main table with the text "n/a" for 2019. *)
Definition main_na : DataFrame :=
  mkDataFrame
    ["country_name"; "country_code"; "region"; "incomegroup"; "2019"; "2020"]%string
    [ row_of [ ("country_name", Str "A"); ("country_code", Str "AAA");
               ("region", Str "South Asia"); ("incomegroup", Str "Low income");
               ("2019", Str "n/a"); ("2020", Num (F64.lit 110)) ]%string ].

(** The scenario's main table with its 2020 column labelled 2019 as well,
    as after a header " 2019" has been normalized. *)
Definition main_2019_twice : DataFrame :=
  mkDataFrame
    ["country_name"; "country_code"; "region"; "incomegroup"; "2019"; "2019"]%string
    (rows (main_AAA NaN)).

Lemma clean_data_returns_iff_witness :
  clean_data Pandas3 no_float main_2019_twice meta_none pop_AAA = Raise ValueError /\
  clean_data Pandas3 no_float main_na meta_none pop_AAA = Raise ValueError /\
  clean_data Pandas3 no_float pop_no_name meta_none pop_AAA = Raise KeyError.
Proof.
  split; [|split].
  - apply (proj1 (clean_data_returns_iff Pandas3 no_float main_2019_twice
                    meta_none pop_AAA)).
    reflexivity.
  - apply (proj1 (proj2 (proj2 (clean_data_returns_iff Pandas3 no_float main_na
                                  meta_none pop_AAA)
                           (NoDup_checked (columns main_na) eq_refl)
                           (ascii_labels_checked main_na eq_refl)))).
    exists (hd (fun _ => NaN) (rows main_na)), "2019"%string, "n/a"%string.
    repeat split; try reflexivity.
    + left. reflexivity.
    + cbn. auto 10.
  - apply (proj2 (proj2 (proj2 (clean_data_returns_iff Pandas3 no_float pop_no_name
                                  meta_none pop_AAA)
                           (NoDup_checked (columns pop_no_name) eq_refl)
                           (ascii_labels_checked pop_no_name eq_refl)))).
    + intros [r [c [s [Hr [Hc [D [Es _]]]]]]].
      destruct Hr as [<-|[]]. cbn in Hc.
      destruct Hc as [<-|[<-|[<-|[]]]];
        first [ vm_compute in D; discriminate D | vm_compute in Es; discriminate Es ].
    + cbn. intuition discriminate.
Defined.

(* ================================================================== *)
(** ** str.strip and the text cells of the cleaned table *)

(** No whitespace at the start of the string. *)
Definition starts_clean (s : string) : bool :=
  match s with
  | EmptyString => true
  | String c _ => negb (is_space_char c)
  end.

(** No whitespace at the end of the string. *)
Fixpoint ends_clean (s : string) : bool :=
  match s with
  | EmptyString => true
  | String c s' =>
      match s' with
      | EmptyString => negb (is_space_char c)
      | String _ _ => ends_clean s'
      end
  end.

(** The text cells under the columns of the table are ASCII text. *)
Definition ascii_cells (df : DataFrame) : Prop :=
  forall r c s, In r (rows df) -> In c (columns df) -> r c = Str s ->
                ascii_text s = true.

Definition ascii_cell (x : cell) : bool :=
  match x with
  | Str s => ascii_text s
  | Num _ => true
  end.

Lemma ascii_cells_checked (df : DataFrame) :
  forallb (fun r : Row => forallb (fun c => ascii_cell (r c)) (columns df)) (rows df)
  = true ->
  ascii_cells df.
Proof.
  intros H r c s Hr Hc E. rewrite forallb_forall in H. specialize (H r Hr).
  rewrite forallb_forall in H. specialize (H c Hc). rewrite E in H. exact H.
Qed.

Lemma lstrip_starts_clean s : starts_clean (lstrip s) = true.
Proof.
  induction s as [|c s IH]; simpl.
  - reflexivity.
  - destruct (is_space_char c) eqn:E; [exact IH|]. simpl. rewrite E. reflexivity.
Qed.

Lemma lstrip_fixed s : starts_clean s = true -> lstrip s = s.
Proof.
  destruct s as [|c s]; simpl; intros H; [reflexivity|].
  apply negb_true_iff in H. rewrite H. reflexivity.
Qed.

Lemma rstrip_cons c s :
  rstrip (String c s)
  = match rstrip s with
    | EmptyString => if is_space_char c then EmptyString else String c EmptyString
    | String a t => String c (String a t)
    end.
Proof. reflexivity. Qed.

Lemma rstrip_starts_clean s : starts_clean s = true -> starts_clean (rstrip s) = true.
Proof.
  destruct s as [|c s]; intros H; [reflexivity|].
  rewrite rstrip_cons. simpl in H. apply negb_true_iff in H.
  destruct (rstrip s); [rewrite H|]; simpl; rewrite H; reflexivity.
Qed.

Lemma rstrip_ends_clean s : ends_clean (rstrip s) = true.
Proof.
  induction s as [|c s IH]; [reflexivity|].
  rewrite rstrip_cons. destruct (rstrip s) as [|a t].
  - destruct (is_space_char c) eqn:E; simpl; [reflexivity | rewrite E; reflexivity].
  - exact IH.
Qed.

Lemma rstrip_fixed s : ends_clean s = true -> rstrip s = s.
Proof.
  induction s as [|c s IH]; intros H; [reflexivity|].
  rewrite rstrip_cons. destruct s as [|a t].
  - simpl in *. apply negb_true_iff in H. rewrite H. reflexivity.
  - rewrite (IH H). reflexivity.
Qed.

Lemma strip_clean s : starts_clean (strip s) = true /\ ends_clean (strip s) = true.
Proof.
  unfold strip. split.
  - apply rstrip_starts_clean, lstrip_starts_clean.
  - apply rstrip_ends_clean.
Qed.

Lemma strip_fixed s : starts_clean s = true -> ends_clean s = true -> strip s = s.
Proof.
  intros H1 H2. unfold strip. rewrite (lstrip_fixed s H1). apply rstrip_fixed, H2.
Qed.

Lemma strip_idempotent s : strip (strip s) = strip s.
Proof. destruct (strip_clean s) as [H1 H2]. apply strip_fixed; assumption. Qed.

Lemma lookup_country_map s v :
  lookup s country_map = Some v ->
  (s = "Kenia" /\ v = "Kenya")%string \/
  (s = "Cote d'Ivoire" /\ v = "Côte d'Ivoire")%string.
Proof.
  unfold country_map. cbn [lookup].
  destruct (String.eqb_spec s "Kenia") as [->|_].
  - intros H. injection H as <-. left. auto.
  - destruct (String.eqb_spec s "Cote d'Ivoire") as [->|_].
    + intros H. injection H as <-. right. auto.
    + discriminate.
Qed.

(** A cell of the cleaned main table, from the cell it was made from. *)
Lemma cleaned_cell {pd : pandas_version} python_float main_df meta_df pop_df
    main_clean meta_clean pop_clean r' :
  clean_data pd python_float main_df meta_df pop_df
  = Ok (main_clean, meta_clean, pop_clean) ->
  In r' (rows main_clean) ->
  exists r2 : Row, forall c, r' c = finish_cell pd c (r2 c).
Proof.
  intros H Hr. apply clean_data_Ok in H. destruct H as [_ [_ [[rows2 [_ Hrows]] _]]].
  rewrite Hrows in Hr. apply in_map_iff in Hr. destruct Hr as [r2 [<- _]].
  exists r2. reflexivity.
Qed.

(** X9. Under pandas 2, every text cell of the cleaned main table is
    trimmed: for a main table with distinct ASCII labels and ASCII text, a
    string cell of a row clean_data returns has no whitespace at its start
    or end, so stripping it again changes nothing.  (A cell made only of two
    or more blanks thus becomes the empty string, not the missing marker:
    the replacement of " " runs before the trimming.  Under pandas 3 the
    text columns have dtype str, line 91 leaves them alone and nothing is
    trimmed.) *)
Theorem cleaned_text_is_trimmed python_float main_df meta_df pop_df
    main_clean meta_clean pop_clean :
  clean_data Pandas2 python_float main_df meta_df pop_df
  = Ok (main_clean, meta_clean, pop_clean) ->
  NoDup (columns main_df) -> ascii_labels main_df -> ascii_cells main_df ->
  forall r' c s, In r' (rows main_clean) -> In c (columns main_clean) ->
    r' c = Str s ->
    strip s = s /\ starts_clean s = true /\ ends_clean s = true.
Proof.
  intros H _ _ _ r' c s Hr _ E.
  destruct (cleaned_cell _ _ _ _ _ _ _ _ H Hr) as [r2 Hcell].
  rewrite Hcell in E. unfold finish_cell in E.
  assert (Hs : exists t, s = strip t \/ s = "Kenya"%string \/ s = "Côte d'Ivoire"%string).
  { destruct (r2 c) as [x|t]; cbn [strip_cell replace_map] in E.
    - destruct (String.eqb c "country_name"); discriminate E.
    - exists t. destruct (String.eqb c "country_name").
      + destruct (lookup (strip t) country_map) as [v|] eqn:L.
        * injection E as <-.
          destruct (lookup_country_map _ _ L) as [[_ ->]|[_ ->]]; auto.
        * injection E as <-. auto.
      + injection E as <-. auto. }
  destruct Hs as [t [ -> | [ -> | -> ] ] ].
  - destruct (strip_clean t) as [H1 H2]. rewrite strip_idempotent. auto.
  - repeat split; reflexivity.
  - repeat split; reflexivity.
Qed.

Lemma cleaned_text_is_trimmed_witness :
  returns (clean_data Pandas2 no_float main_blanks meta_none pop_AAA) = true /\
  (forall r' c s,
     In r' (rows (cleaned_main Pandas2 no_float main_blanks meta_none pop_AAA)) ->
     In c (columns (cleaned_main Pandas2 no_float main_blanks meta_none pop_AAA)) ->
     r' c = Str s -> strip s = s /\ starts_clean s = true /\ ends_clean s = true).
Proof.
  assert (Hr : returns (clean_data Pandas2 no_float main_blanks meta_none pop_AAA) = true)
    by (vm_compute; reflexivity).
  split; [exact Hr|].
  exact (cleaned_text_is_trimmed _ _ _ _ _ _ _ (cleaned_main_Ok _ _ _ _ Hr)
           (NoDup_checked (columns main_blanks) eq_refl)
           (ascii_labels_checked main_blanks eq_refl)
           (ascii_cells_checked main_blanks eq_refl)).
Defined.

(** X10. The entity name of a cleaned row is the loaded name with the
    sentinel tokens made missing, then (under pandas 2) trimmed, then
    corrected through the fixed two-entry table: for a main table with
    distinct ASCII labels and, under pandas 2, ASCII names.  The two
    misspellings of that table, "Kenia" and "Cote d'Ivoire", never remain as
    a name in the cleaned main table; under pandas 2 this also covers names
    loaded with blanks around them, which under pandas 3 are neither
    trimmed nor corrected. *)
Theorem country_names_corrected (pd : pandas_version) python_float
    main_df meta_df pop_df main_clean meta_clean pop_clean :
  clean_data pd python_float main_df meta_df pop_df
  = Ok (main_clean, meta_clean, pop_clean) ->
  NoDup (columns main_df) -> ascii_labels main_df ->
  (pd = Pandas2 ->
   forall r s, In r (rows main_df) -> r "country_name"%string = Str s ->
               ascii_text s = true) ->
  forall r', In r' (rows main_clean) ->
    (exists r, In r (rows main_df) /\
               r' "country_name"%string
               = replace_map country_map
                   (strip_cell pd (replace_sentinel (r "country_name"%string)))) /\
    r' "country_name"%string <> Str "Kenia" /\
    r' "country_name"%string <> Str "Cote d'Ivoire".
Proof.
  intros H _ _ _ r' Hr'.
  apply clean_data_Ok in H. destruct H as [_ [_ [[rows2 [H2 Hrows]] _]]].
  apply mapM_Ok_Forall2 in H2.
  rewrite Hrows in Hr'. apply in_map_iff in Hr'. destruct Hr' as [r2 [<- Hr2]].
  apply drop_duplicates_from_In in Hr2.
  destruct (Forall2_In_r _ _ _ _ H2 Hr2) as [r1 [Hr1 Ha]].
  apply in_map_iff in Hr1. destruct Hr1 as [r [<- Hr]].
  destruct (astype_float_row_Ok _ _ _ _ Ha "country_name"%string) as [_ Hkeep].
  assert (E2 : r2 "country_name"%string = replace_sentinel (r "country_name"%string)).
  { apply Hkeep. intros Hin. apply filter_In in Hin. destruct Hin as [_ D].
    discriminate D. }
  assert (E : finish_cell pd "country_name" (r2 "country_name"%string)
              = replace_map country_map
                  (strip_cell pd (replace_sentinel (r "country_name"%string)))).
  { rewrite E2. reflexivity. }
  split; [exists r; split; [exact Hr | exact E]|].
  rewrite E.
  destruct (strip_cell pd (replace_sentinel (r "country_name"%string))) as [x|t];
    cbn [replace_map].
  - split; discriminate.
  - destruct (lookup t country_map) as [v|] eqn:L.
    + destruct (lookup_country_map _ _ L) as [[_ ->]|[_ ->]]; split; discriminate.
    + split; intros Ek; injection Ek as ->; vm_compute in L; discriminate L.
Qed.

(** The name "  Kenia " of the table with blanks comes back as "Kenya"
    under pandas 2. *)
Lemma country_names_corrected_witness :
  returns (clean_data Pandas2 no_float main_blanks meta_none pop_AAA) = true /\
  (forall r', In r' (rows (cleaned_main Pandas2 no_float main_blanks meta_none pop_AAA)) ->
     exists r, In r (rows main_blanks) /\
               r' "country_name"%string
               = replace_map country_map
                   (strip_cell Pandas2 (replace_sentinel (r "country_name"%string)))).
Proof.
  assert (Hr : returns (clean_data Pandas2 no_float main_blanks meta_none pop_AAA) = true)
    by (vm_compute; reflexivity).
  split; [exact Hr|]. intros r' Hr'.
  refine (proj1 (country_names_corrected _ _ _ _ _ _ _ _
                   (cleaned_main_Ok _ _ _ _ Hr)
                   (NoDup_checked (columns main_blanks) eq_refl)
                   (ascii_labels_checked main_blanks eq_refl) _ r' Hr')).
  intros _ r s [<-|[]] E. cbn in E. injection E as <-. reflexivity.
Defined.

Lemma In_range_from lo n y :
  In y (range_from lo n) <-> lo <= y < lo + Z.of_nat n.
Proof.
  revert lo. induction n as [|n IH]; intros lo; cbn [range_from In].
  - lia.
  - rewrite IH. lia.
Qed.

Lemma valid_years_spec c :
  In c valid_years <-> exists y, 1960 <= y <= 2023 /\ c = str_of_year y.
Proof.
  unfold valid_years. rewrite in_map_iff. split.
  - intros [y [<- Hy]]. apply In_range_from in Hy. exists y. split; [lia | reflexivity].
  - intros [y [Hy ->]]. exists y. split; [reflexivity|]. apply In_range_from. lia.
Qed.

Lemma forallb_false_exists {A : Type} (f : A -> bool) (l : list A) :
  forallb f l = false <-> exists x, In x l /\ f x = false.
Proof.
  induction l as [|a l IH]; simpl.
  - split; [discriminate | intros [x [[] _]]].
  - rewrite andb_false_iff, IH. split.
    + intros [H|[x [Hx H]]]; [exists a; auto | exists x; auto].
    + intros [x [[<-|Hx] H]]; [left; exact H | right; exists x; auto].
Qed.

(** X11. Which columns of the main table survive clean_data, and in which
    order.  For a main table with distinct ASCII labels, the columns
    clean_data returns are the loaded columns, in their order, that (1) are
    not year columns (digit labels) or are labelled with a year from 1960 to
    2023 written in four digits, and (2) hold at least one value that is not
    missing after cleaning; and under every year column that survives,
    every cell is a number. *)
Theorem kept_columns (pd : pandas_version) python_float main_df meta_df pop_df
    main_clean meta_clean pop_clean :
  clean_data pd python_float main_df meta_df pop_df
  = Ok (main_clean, meta_clean, pop_clean) ->
  NoDup (columns main_df) -> ascii_labels main_df ->
  columns main_clean
  = filter (fun c => negb (all_null (rows main_clean) c))
      (filter (fun c => negb (isdigit c) || mem c valid_years) (columns main_df)) /\
  NoDup (columns main_clean) /\
  (forall c,
     In c (columns main_clean) <->
     In c (columns main_df) /\
     (isdigit c = false \/ exists y, 1960 <= y <= 2023 /\ c = str_of_year y) /\
     (exists r', In r' (rows main_clean) /\ isnull (r' c) = false)) /\
  (forall r' c, In r' (rows main_clean) -> In c (columns main_clean) ->
     isdigit c = true -> is_num (r' c) = true).
Proof.
  intros H Hnodup _.
  pose proof (clean_data_Ok _ _ _ _ _ _ _ H) as [_ [_ [_ Hcols]]].
  split; [exact Hcols|]. split; [|split].
  - rewrite Hcols. repeat apply NoDup_filter. exact Hnodup.
  - intros c. rewrite Hcols at 1. rewrite !filter_In, negb_true_iff.
    unfold all_null. rewrite forallb_false_exists, orb_true_iff, negb_true_iff.
    rewrite mem_In, valid_years_spec. tauto.
  - intros r' c Hr Hc D. eapply clean_data_year_cells; [exact H | exact Hr |].
    apply filter_In. auto.
Qed.

(** The scenario's main table with a column 1959, a column 2024 and an
    empty column 2021 besides 2019 and 2020. *)
Definition main_wide : DataFrame :=
  mkDataFrame
    ["country_name"; "country_code"; "region"; "incomegroup";
     "1959"; "2019"; "2020"; "2021"; "2024"]%string
    [ row_of [ ("country_name", Str "A"); ("country_code", Str "AAA");
               ("region", Str "South Asia"); ("incomegroup", Str "Low income");
               ("1959", Num (F64.lit 1)); ("2019", Num (F64.lit 100));
               ("2020", Num (F64.lit 110)); ("2021", Str "..");
               ("2024", Num (F64.lit 2)) ]%string ].

Lemma kept_columns_witness :
  returns (clean_data Pandas3 no_float main_wide meta_none pop_AAA) = true /\
  columns (cleaned_main Pandas3 no_float main_wide meta_none pop_AAA)
  = ["country_name"; "country_code"; "region"; "incomegroup"; "2019"; "2020"]%string.
Proof.
  assert (Hr : returns (clean_data Pandas3 no_float main_wide meta_none pop_AAA) = true)
    by (vm_compute; reflexivity).
  split; [exact Hr|].
  rewrite (proj1 (kept_columns _ _ _ _ _ _ _ _ (cleaned_main_Ok _ _ _ _ Hr)
                    (NoDup_checked (columns main_wide) eq_refl)
                    (ascii_labels_checked main_wide eq_refl))).
  vm_compute. reflexivity.
Defined.

(* ================================================================== *)
(** ** PART 1: extract_data *)

Fixpoint map_chars (f : ascii -> ascii) (s : string) : string :=
  match s with
  | EmptyString => EmptyString
  | String c s' => String (f c) (map_chars f s')
  end.

(** str.lower on one character of an ASCII label: the letters A to Z are
    lowered, every other byte is left as it is. *)
Definition lower_char (c : ascii) : ascii :=
  let n := nat_of_ascii c in
  if (65 <=? n)%nat && (n <=? 90)%nat then ascii_of_nat (n + 32) else c.

(** str.replace(' ', '_') on one character *)
Definition underscore_char (c : ascii) : ascii :=
  if Ascii.eqb c " " then "_"%char else c.

(** df.columns.str.strip().str.lower().str.replace(' ', '_') on one label *)
Definition normalize_label (s : string) : string :=
  map_chars underscore_char (map_chars lower_char (strip s)).

(** The labels of a table normalized; the cell of a row under a new label
    is its cell under the first loaded label with that normal form (the
    only one, when the normalized labels are distinct). *)
Definition normalize_columns (df : DataFrame) : DataFrame :=
  mkDataFrame
    (map normalize_label (columns df))
    (map (fun (r : Row) c' =>
            match find (fun c => String.eqb (normalize_label c) c') (columns df) with
            | Some c => r c
            | None => NaN
            end) (rows df)).

Definition main_path : string := "data/main_data.csv".
Definition meta_path : string := "data/metadata_country.csv".
Definition pop_path : string := "data/population.csv".

Section Extract.
(** path.exists() and pd.read_csv(path): the file system as extract_data
    sees it; [read_csv] gives [None] when pd.read_csv raises. *)
Variable path_exists : string -> bool.
Variable read_csv : string -> option DataFrame.

Definition files : list (string * string) :=
  [ ("main"%string, main_path); ("meta"%string, meta_path); ("pop"%string, pop_path) ].

(** The body of the loop for one file. *)
Definition load_file (path : string) : result DataFrame :=
  if negb (path_exists path) then Raise (FileNotFoundError path)
  else match read_csv path with
       | Some df => Ok (normalize_columns df)
       | None => Raise (ReadCsvError path)
       end.

(** The loop over [files], stopping at the first file that raises. *)
Fixpoint load_files (fs : list (string * string))
  : result (list (string * DataFrame)) :=
  match fs with
  | [] => Ok []
  | (name, path) :: fs' =>
      df <- load_file path ;;
      dfs <- load_files fs' ;;
      Ok ((name, df) :: dfs)
  end.

(** dfs[name]; every name asked for has been stored by the loop. *)
Definition get_df (name : string) (dfs : list (string * DataFrame)) : DataFrame :=
  match find (fun e => String.eqb (fst e) name) dfs with
  | Some (_, df) => df
  | None => mkDataFrame [] []
  end.

Definition extract_data : result (DataFrame * DataFrame * DataFrame) :=
  dfs <- load_files files ;;
  (* main_df, meta_df, pop_df = dfs['main'], dfs['meta'], dfs['pop'] *)
  let main_df := get_df "main" dfs in
  let meta_df := get_df "meta" dfs in
  let pop_df := get_df "pop" dfs in
  (* Q5: main_df['country_code'].nunique() *)
  if negb (mem "country_code" (columns main_df)) then Raise KeyError else
  (* Q9: set(main_df['country_code']) - set(pop_df['country_code']) *)
  if negb (mem "country_code" (columns pop_df)) then Raise KeyError else
  Ok (main_df, meta_df, pop_df).

End Extract.

Lemma map_chars_map_chars f g s :
  map_chars f (map_chars g s) = map_chars (fun c => f (g c)) s.
Proof.
  induction s as [|c s IH]; simpl; [reflexivity | rewrite IH; reflexivity].
Qed.

Lemma map_chars_ext f g s :
  (forall c, f c = g c) -> map_chars f s = map_chars g s.
Proof.
  intros H. induction s as [|c s IH]; simpl; [reflexivity | rewrite H, IH; reflexivity].
Qed.

Ltac each_ascii c :=
  destruct c as [[] [] [] [] [] [] [] []].

Lemma normal_char_idempotent c :
  underscore_char (lower_char (underscore_char (lower_char c)))
  = underscore_char (lower_char c).
Proof. each_ascii c; reflexivity. Qed.

Lemma normal_char_not_space c :
  is_space_char c = false -> is_space_char (underscore_char (lower_char c)) = false.
Proof. each_ascii c; intros H; first [reflexivity | discriminate H]. Qed.

Lemma digit_char_normal c :
  is_digit_char c = true ->
  underscore_char (lower_char c) = c /\ is_space_char c = false.
Proof. each_ascii c; intros H; first [discriminate H | split; reflexivity]. Qed.

Lemma map_chars_starts_clean f s :
  (forall c, is_space_char c = false -> is_space_char (f c) = false) ->
  starts_clean s = true -> starts_clean (map_chars f s) = true.
Proof.
  intros Hf. destruct s as [|c s]; simpl; intros H; [reflexivity|].
  apply negb_true_iff in H. rewrite (Hf c H). reflexivity.
Qed.

Lemma map_chars_ends_clean f s :
  (forall c, is_space_char c = false -> is_space_char (f c) = false) ->
  ends_clean s = true -> ends_clean (map_chars f s) = true.
Proof.
  intros Hf. induction s as [|c s IH]; intros H; [reflexivity|].
  destruct s as [|a t].
  - simpl in *. apply negb_true_iff in H. rewrite (Hf c H). reflexivity.
  - exact (IH H).
Qed.

Lemma normalize_label_fused s :
  normalize_label s = map_chars (fun c => underscore_char (lower_char c)) (strip s).
Proof. unfold normalize_label. apply map_chars_map_chars. Qed.

Lemma all_digits_clean s :
  all_digits s = true ->
  starts_clean s = true /\ ends_clean s = true /\
  map_chars (fun c => underscore_char (lower_char c)) s = s.
Proof.
  induction s as [|c s IH]; simpl; intros H; [repeat split|].
  apply andb_true_iff in H. destruct H as [Hc Hs].
  destruct (digit_char_normal c Hc) as [Ec Sc].
  destruct (IH Hs) as [_ [He Em]].
  rewrite Sc, Ec, Em. repeat split.
  destruct s; [reflexivity | exact He].
Qed.

(** X12. The labels extract_data gives the columns are in a normal form:
    normalizing a label (trim, lower case, blanks to underscores) a second
    time changes nothing, a normalized label has no whitespace at its ends,
    and a label made of digits, a year column, is left as it is, so the
    cleaner and the transformer recognise the year columns of the loaded
    tables. *)
Theorem normalize_label_normal_form (s : string) :
  normalize_label (normalize_label s) = normalize_label s /\
  strip (normalize_label s) = normalize_label s /\
  (isdigit s = true ->
   normalize_label s = s /\ isdigit (normalize_label s) = true).
Proof.
  assert (Hclean : starts_clean (normalize_label s) = true /\
                   ends_clean (normalize_label s) = true).
  { rewrite normalize_label_fused. destruct (strip_clean s) as [H1 H2]. split.
    - apply map_chars_starts_clean; [apply normal_char_not_space | exact H1].
    - apply map_chars_ends_clean; [apply normal_char_not_space | exact H2]. }
  destruct Hclean as [H1 H2].
  assert (Hstrip : strip (normalize_label s) = normalize_label s)
    by (apply strip_fixed; assumption).
  split; [|split; [exact Hstrip|]].
  - rewrite (normalize_label_fused (normalize_label s)), Hstrip.
    rewrite normalize_label_fused, map_chars_map_chars.
    apply map_chars_ext. intros c. apply normal_char_idempotent.
  - intros D.
    assert (Hd : all_digits s = true) by (destruct s; [discriminate D | exact D]).
    destruct (all_digits_clean s Hd) as [S1 [S2 Em]].
    assert (E : normalize_label s = s).
    { rewrite normalize_label_fused, (strip_fixed s S1 S2). exact Em. }
    rewrite E. auto.
Qed.

Lemma normalize_label_normal_form_witness :
  normalize_label "2019" = "2019"%string /\
  isdigit (normalize_label "2019") = true.
Proof.
  apply (proj2 (proj2 (normalize_label_normal_form "2019"))). reflexivity.
Defined.

(** X13. When extract_data returns and how it raises.  It raises
    FileNotFoundError for the first of the main, metadata and population
    files, in that order, that does not exist, and the error of read_csv for
    the first that cannot be read, whatever the state of the later ones.
    With the three files read (ASCII headers that stay distinct once
    normalized), the validation report looks up the country_code column of
    the main and of the population table: it raises KeyError when one of the
    two tables has no such column; otherwise extract_data returns the three
    tables, each read from its path with its labels normalized. *)
Theorem extract_data_needs_all_files path_exists read_csv :
  (path_exists main_path = false ->
   extract_data path_exists read_csv = Raise (FileNotFoundError main_path)) /\
  (path_exists main_path = true -> read_csv main_path = None ->
   extract_data path_exists read_csv = Raise (ReadCsvError main_path)) /\
  (forall main0, path_exists main_path = true -> read_csv main_path = Some main0 ->
   (path_exists meta_path = false ->
    extract_data path_exists read_csv = Raise (FileNotFoundError meta_path)) /\
   (path_exists meta_path = true -> read_csv meta_path = None ->
    extract_data path_exists read_csv = Raise (ReadCsvError meta_path)) /\
   (forall meta0, path_exists meta_path = true -> read_csv meta_path = Some meta0 ->
    (path_exists pop_path = false ->
     extract_data path_exists read_csv = Raise (FileNotFoundError pop_path)) /\
    (path_exists pop_path = true -> read_csv pop_path = None ->
     extract_data path_exists read_csv = Raise (ReadCsvError pop_path)) /\
    (forall pop0, path_exists pop_path = true -> read_csv pop_path = Some pop0 ->
     ascii_labels main0 -> ascii_labels meta0 -> ascii_labels pop0 ->
     NoDup (columns (normalize_columns main0)) ->
     NoDup (columns (normalize_columns meta0)) ->
     NoDup (columns (normalize_columns pop0)) ->
     (~ (In "country_code"%string (columns (normalize_columns main0)) /\
         In "country_code"%string (columns (normalize_columns pop0))) ->
      extract_data path_exists read_csv = Raise KeyError) /\
     (In "country_code"%string (columns (normalize_columns main0)) ->
      In "country_code"%string (columns (normalize_columns pop0)) ->
      extract_data path_exists read_csv
      = Ok (normalize_columns main0, normalize_columns meta0,
            normalize_columns pop0))))).
Proof.
  unfold extract_data, files. cbn [load_files]. unfold load_file.
  split; [|split].
  - intros ->. reflexivity.
  - intros -> ->. reflexivity.
  - intros main0 -> ->. cbn [negb bind]. split; [|split].
    + intros ->. reflexivity.
    + intros -> ->. reflexivity.
    + intros meta0 -> ->. cbn [negb bind]. split; [|split].
      * intros ->. reflexivity.
      * intros -> ->. reflexivity.
      * intros pop0 -> -> _ _ _ _ _ _. cbn [negb bind].
        change (get_df "main" _) with (normalize_columns main0).
        change (get_df "meta" _) with (normalize_columns meta0).
        change (get_df "pop" _) with (normalize_columns pop0).
        destruct (mem "country_code" (columns (normalize_columns main0))) eqn:M;
          cbn [negb].
        -- destruct (mem "country_code" (columns (normalize_columns pop0))) eqn:P;
             cbn [negb].
           ++ split; [|reflexivity]. intros Hn. exfalso. apply Hn.
              split; apply mem_In; assumption.
           ++ apply mem_false in P. split; [reflexivity|].
              intros _ Hp. exfalso. exact (P Hp).
        -- apply mem_false in M. split; [reflexivity|].
           intros Hm. exfalso. exact (M Hm).
Qed.

(** A file system with the main file only; and one with the three files,
    the population table of the scenario given for each: it has a
    country_code column and extract_data returns. *)
Lemma extract_data_needs_all_files_witness :
  extract_data (fun p => String.eqb p main_path) (fun _ => Some pop_AAA)
  = Raise (FileNotFoundError meta_path) /\
  extract_data (fun _ => true) (fun _ => Some pop_AAA)
  = Ok (normalize_columns pop_AAA, normalize_columns pop_AAA,
        normalize_columns pop_AAA).
Proof.
  split.
  - apply (proj1 (proj2 (proj2 (extract_data_needs_all_files
             (fun p => String.eqb p main_path) (fun _ => Some pop_AAA)))
           pop_AAA eq_refl eq_refl)).
    reflexivity.
  - apply (proj2 (proj2 (proj2 (proj2 (proj2 (proj2 (proj2
             (extract_data_needs_all_files (fun _ => true) (fun _ => Some pop_AAA)))
           pop_AAA eq_refl eq_refl)) pop_AAA eq_refl eq_refl)) pop_AAA eq_refl eq_refl
           (ascii_labels_checked pop_AAA eq_refl)
           (ascii_labels_checked pop_AAA eq_refl)
           (ascii_labels_checked pop_AAA eq_refl)
           (NoDup_checked (columns (normalize_columns pop_AAA)) eq_refl)
           (NoDup_checked (columns (normalize_columns pop_AAA)) eq_refl)
           (NoDup_checked (columns (normalize_columns pop_AAA)) eq_refl))).
    + cbn. auto 10.
    + cbn. auto 10.
Defined.

(* ================================================================== *)
(** ** PART 4: the rows of the facts table, and the keys of both tables *)

Record fact_tuple : Type := mkFact {
  f_country_code : cell;
  f_indicator_code : string;
  f_year : Z;
  f_value : cell
}.

(** facts_df: final_df[['country_code', 'year', 'gdp']] with the constant
    indicator code, gdp renamed to value, columns in the order of the
    INSERT. *)
Definition facts_df (final_df : list final_row) : list fact_tuple :=
  map (fun r => let g := left (joined r) in
                mkFact (country_code g) "NY.GDP.MKTP.CD" (year g) (gdp g)) final_df.

(** Two rows of facts with the same (country_code, indicator_code, year),
    the key the sink declares after the insert. *)
Definition fact_key_eqb (a b : fact_tuple) : bool :=
  cell_eqb (f_country_code a) (f_country_code b)
  && String.eqb (f_indicator_code a) (f_indicator_code b)
  && (f_year a =? f_year b).

Lemma FOP_perm {A : Type} (R : A -> A -> Prop) (l l' : list A) :
  (forall a b, R a b -> R b a) ->
  Permutation l l' -> ForallOrdPairs R l -> ForallOrdPairs R l'.
Proof.
  intros Hsym Hp. induction Hp as [|x l l' Hp IH|x y l|l l' l'' _ IH1 _ IH2]; intros H.
  - exact H.
  - inversion H as [|? ? Hx Hl]; subst. constructor.
    + eapply Permutation_Forall; eassumption.
    + apply IH, Hl.
  - inversion H as [|? ? Hy Hl]; subst. inversion Hl as [|? ? Hx Hl']; subst.
    inversion Hy as [|? ? Hyx Hyl]; subst.
    constructor; [constructor; [apply Hsym, Hyx | exact Hx]|].
    constructor; assumption.
  - apply IH2, IH1, H.
Qed.

Lemma FOP_filter {A : Type} (R : A -> A -> Prop) (f : A -> bool) (l : list A) :
  ForallOrdPairs R l -> ForallOrdPairs R (filter f l).
Proof.
  induction 1 as [|a l Ha _ IH]; simpl.
  - constructor.
  - destruct (f a); [|exact IH]. constructor; [|exact IH].
    apply Forall_forall. intros x Hx. apply filter_In in Hx.
    rewrite Forall_forall in Ha. apply Ha, Hx.
Qed.

Lemma same_code_year_sym g1 g2 : same_code_year g1 g2 = same_code_year g2 g1.
Proof.
  unfold same_code_year. rewrite cell_eqb_sym, Z.eqb_sym. reflexivity.
Qed.

(** The keys of gdp_long, from the rows and the year columns of the table
    it is unpivoted from. *)
Lemma gdp_long_keys_distinct main_clean gdp_long :
  gdp_long_of main_clean = Ok gdp_long ->
  (forall c, In c (value_vars main_clean) -> In c valid_years) ->
  NoDup (value_vars main_clean) ->
  ForallOrdPairs
    (fun r1 r2 : Row =>
       cell_eqb (r1 "country_code"%string) (r2 "country_code"%string) = false)
    (rows main_clean) ->
  ForallOrdPairs (fun g1 g2 => same_code_year g1 g2 = false) gdp_long.
Proof.
  intros Hg Hvalid Hnodup Hrows.
  apply gdp_long_of_Ok in Hg. destruct Hg as [_ ->].
  apply FOP_flat_map.
  - intros v _. apply FOP_map.
    eapply FOP_impl_In; [|exact Hrows].
    intros r1 r2 _ _ H. unfold same_code_year. simpl. rewrite H. reflexivity.
  - eapply FOP_impl_In; [|apply NoDup_FOP, Hnodup].
    intros v1 v2 H1 H2 Hne x y Hx Hy.
    apply in_map_iff in Hx. destruct Hx as [r1 [<- _]].
    apply in_map_iff in Hy. destruct Hy as [r2 [<- _]].
    unfold same_code_year. simpl.
    destruct (int_of_str v1 =? int_of_str v2) eqn:E.
    + exfalso. apply Hne. apply Z.eqb_eq in E. apply valid_years_inj; auto.
    + apply andb_false_r.
Qed.

Lemma merge_left_lefts gdp_long pop_long :
  ForallOrdPairs (fun p1 p2 => pop_key_eqb p1 p2 = false) pop_long ->
  map left (merge_left gdp_long pop_long) = gdp_long.
Proof.
  intros Hu. rewrite merge_left_flat_map, flat_map_map.
  rewrite (flat_map_ext _ (fun g => repeat g (Nat.max 1 (matches pop_long g))))
    by (intros g; apply joined_rows_lefts).
  apply flat_map_repeat_once. intros g _. apply unique_keys_one_match, Hu.
Qed.

(** With one population row per key, the rows of the export have the keys
    of gdp_long, each at most once. *)
Lemma export_keys_distinct {pd : pandas_version}
    main_clean meta_clean pop_clean final gdp_long pop_long :
  transform_data pd main_clean meta_clean pop_clean = Ok final ->
  gdp_long_of main_clean = Ok gdp_long ->
  pop_long_of main_clean pop_clean = Ok pop_long ->
  ForallOrdPairs (fun g1 g2 => same_code_year g1 g2 = false) gdp_long ->
  ForallOrdPairs (fun p1 p2 => pop_key_eqb p1 p2 = false) pop_long ->
  ForallOrdPairs (fun r1 r2 => same_row_key r1 r2 = false) final.
Proof.
  intros H Hg Hp Hkeys Hu.
  apply transform_data_Ok in H. destruct H as [sorted [Hs ->]].
  destruct (merged_sorted_Ok _ _ _ Hs) as [gl [pl [rated [Hg' [Hp' [Hq ->]]]]]].
  rewrite Hg in Hg'. injection Hg' as <-. rewrite Hp in Hp'. injection Hp' as <-.
  destruct (derive_ratio_Ok _ _ Hq) as [Hfst _].
  assert (Hsym : forall r1 r2 : final_row,
             same_row_key r1 r2 = false -> same_row_key r2 r1 = false).
  { intros r1 r2 E. unfold same_row_key. rewrite same_code_year_sym. exact E. }
  apply (FOP_map round_row (fun r1 r2 => same_row_key r1 r2 = false)).
  change (ForallOrdPairs (fun r1 r2 => same_row_key r1 r2 = false)
            (filter (fun r => between 2010 2020 (year (left (joined r))))
               (sort_values name_year
                  (derive_change pd (sort_values code_year rated))))).
  apply FOP_filter.
  eapply FOP_perm; [exact Hsym | apply Permutation_sym, sort_values_perm |].
  apply (FOP_of_map (fun r => (joined r, gdp_per_capita r))
           (fun x1 x2 => same_code_year (left (fst x1)) (left (fst x2)) = false)).
  rewrite derive_change_rows.
  eapply FOP_perm; [| apply Permutation_sym, sort_values_perm |].
  { intros a b E. rewrite same_code_year_sym. exact E. }
  apply (FOP_of_map fst (fun m1 m2 => same_code_year (left m1) (left m2) = false)).
  rewrite Hfst.
  apply (FOP_of_map left (fun g1 g2 => same_code_year g1 g2 = false)).
  rewrite (merge_left_lefts _ _ Hu). exact Hkeys.
Qed.

(** The entity a row of the export belongs to, as a row of the main table. *)
Lemma export_row_entity {pd : pandas_version} main_clean meta_clean pop_clean final r :
  transform_data pd main_clean meta_clean pop_clean = Ok final ->
  In r final ->
  exists row : Row,
    In row (rows main_clean) /\
    country_of r = mkCountry (row "country_code"%string) (row "country_name"%string)
                             (row "region"%string) (row "incomegroup"%string).
Proof.
  intros H Hr.
  destruct (export_row_origin _ _ _ _ _ H Hr)
    as [gl [pl [rated [r0 [Hg [_ [Hq [_ [Hin [_ ->]]]]]]]]]].
  destruct (derive_ratio_Ok _ _ Hq) as [Hfst _].
  assert (Hm : In (joined r0) (merge_left gl pl)).
  { rewrite <- Hfst. apply in_map_iff. exists (joined r0, gdp_per_capita r0). auto. }
  assert (Hgin : In (left (joined r0)) gl).
  { apply (In_merge_left gl pl). exists (joined r0). auto. }
  apply (In_gdp_long _ _ _ Hg) in Hgin. destruct Hgin as [row [v [Hrow [_ Eg]]]].
  exists row. split; [exact Hrow|].
  unfold country_of. cbn [round_row joined left country_code country_name region
                          incomegroup].
  rewrite Eg. reflexivity.
Qed.

Lemma country_eqb_refl t : country_eqb t t = true.
Proof. unfold country_eqb. rewrite !cell_eqb_refl. reflexivity. Qed.

(** X14. When the sink's keys hold.  If the column labels of the loaded
    main table are distinct and no two rows of the cleaned main table share
    an entity_code, then for every export of the pipeline the rows built for
    the countries table have pairwise different entity_code (the PRIMARY KEY
    of that table); if moreover no two rows of the unpivoted population table
    share their key, the rows built for the facts table, one per export row
    and all with the indicator code "NY.GDP.MKTP.CD", have pairwise different
    (entity_code, indicator_code, year), the key the sink adds after the
    insert. *)
Theorem sink_keys_hold (pd : pandas_version) python_float main_df meta_df pop_df
    main_clean meta_clean pop_clean final :
  clean_data pd python_float main_df meta_df pop_df
  = Ok (main_clean, meta_clean, pop_clean) ->
  transform_data pd main_clean meta_clean pop_clean = Ok final ->
  NoDup (columns main_df) ->
  ForallOrdPairs
    (fun r1 r2 : Row =>
       cell_eqb (r1 "country_code"%string) (r2 "country_code"%string) = false)
    (rows main_clean) ->
  ForallOrdPairs (fun a b => cell_eqb (c_country_code a) (c_country_code b) = false)
                 (countries_df final) /\
  List.length (facts_df final) = List.length final /\
  (forall f, In f (facts_df final) -> f_indicator_code f = "NY.GDP.MKTP.CD"%string) /\
  (forall pop_long,
     pop_long_of main_clean pop_clean = Ok pop_long ->
     ForallOrdPairs (fun p1 p2 => pop_key_eqb p1 p2 = false) pop_long ->
     ForallOrdPairs (fun f1 f2 => fact_key_eqb f1 f2 = false) (facts_df final)).
Proof.
  intros Hc Ht Hcols Hrows.
  destruct (clean_data_columns _ _ _ _ _ _ _ Hc) as [_ [Hvalid Hnodup]].
  split; [|split; [|split]].
  - rewrite countries_df_unfold. unfold drop_duplicates.
    eapply FOP_impl_In;
      [|apply (drop_duplicates_from_distinct country_eqb [] (map country_of final))].
    intros a b Ha Hb Hab.
    apply drop_duplicates_from_In, in_map_iff in Ha. destruct Ha as [r1 [<- Hr1]].
    apply drop_duplicates_from_In, in_map_iff in Hb. destruct Hb as [r2 [<- Hr2]].
    destruct (export_row_entity _ _ _ _ _ Ht Hr1) as [row1 [Hin1 E1]].
    destruct (export_row_entity _ _ _ _ _ Ht Hr2) as [row2 [Hin2 E2]].
    rewrite E1, E2 in *. cbn [c_country_code].
    destruct (cell_eqb (row1 "country_code"%string) (row2 "country_code"%string)) eqn:E;
      [|reflexivity].
    exfalso.
    destruct (ForallOrdPairs_In Hrows _ _ Hin1 Hin2) as [Eq|[Hd|Hd]].
    + subst row2. rewrite country_eqb_refl in Hab. discriminate Hab.
    + rewrite E in Hd. discriminate Hd.
    + rewrite cell_eqb_sym, E in Hd. discriminate Hd.
  - apply length_map.
  - intros f Hf. apply in_map_iff in Hf. destruct Hf as [r [<- _]]. reflexivity.
  - intros pl Hp Hu.
    assert (Hg : exists gl, gdp_long_of main_clean = Ok gl).
    { pose proof Ht as Ht'. apply transform_data_Ok in Ht'.
      destruct Ht' as [sorted [Hs _]].
      destruct (merged_sorted_Ok _ _ _ Hs) as [gl [_ [_ [Hg _]]]]. exists gl. exact Hg. }
    destruct Hg as [gl Hg].
    pose proof (gdp_long_keys_distinct _ _ Hg Hvalid (Hnodup Hcols) Hrows) as Hkeys.
    pose proof (export_keys_distinct _ _ _ _ _ _ Ht Hg Hp Hkeys Hu) as Hfinal.
    apply FOP_map. eapply FOP_impl_In; [|exact Hfinal].
    intros r1 r2 _ _ E. unfold fact_key_eqb. cbn [f_country_code f_indicator_code f_year].
    rewrite String.eqb_refl, andb_true_r. exact E.
Qed.

(** The end-to-end scenario through the cleaner: one entity, two years. *)
Lemma sink_keys_hold_witness :
  exists final,
    transform_data Pandas3
      (cleaned_main Pandas3 no_float (main_AAA (Str "Low income")) meta_none pop_AAA)
      meta_none pop_AAA = Ok final /\
    ForallOrdPairs (fun a b => cell_eqb (c_country_code a) (c_country_code b) = false)
                   (countries_df final) /\
    List.length (facts_df final) = List.length final.
Proof.
  assert (Hc : clean_data Pandas3 no_float (main_AAA (Str "Low income")) meta_none pop_AAA
               = Ok (cleaned_main Pandas3 no_float (main_AAA (Str "Low income")) meta_none pop_AAA,
                     meta_none, pop_AAA))
    by (apply cleaned_main_Ok; vm_compute; reflexivity).
  eexists.
  assert (Ht : transform_data Pandas3 (cleaned_main Pandas3 no_float (main_AAA (Str "Low income"))
                                 meta_none pop_AAA) meta_none pop_AAA = Ok _)
    by (vm_compute; reflexivity).
  split; [exact Ht|].
  destruct (sink_keys_hold _ _ _ _ _ _ _ _ _ Hc Ht) as [H1 [H2 _]].
  - vm_compute. repeat constructor; simpl; intuition discriminate.
  - apply (FOP_of_map (fun r : Row => r "country_code"%string)
                      (fun a b => cell_eqb a b = false)).
    vm_compute. repeat constructor.
  - split; [exact H1 | exact H2].
Defined.

(* ================================================================== *)
(** ** The size of the export *)

Lemma filter_length_perm {A : Type} (f : A -> bool) (l l' : list A) :
  Permutation l l' -> List.length (filter f l) = List.length (filter f l').
Proof.
  induction 1 as [|x l l' _ IH|x y l|l l' l'' _ IH1 _ IH2]; simpl.
  - reflexivity.
  - destruct (f x); simpl; rewrite IH; reflexivity.
  - destruct (f x), (f y); reflexivity.
  - rewrite IH1. exact IH2.
Qed.

Lemma filter_length_map {A B : Type} (f : A -> B) (p : B -> bool) (l : list A) :
  List.length (filter (fun a => p (f a)) l) = List.length (filter p (map f l)).
Proof. rewrite <- (map_filter_comm f p l), length_map. reflexivity. Qed.

Lemma filter_all {A : Type} (f : A -> bool) (l : list A) :
  (forall x, In x l -> f x = true) -> filter f l = l.
Proof.
  induction l as [|a l IH]; simpl; intros H; [reflexivity|].
  rewrite (H a (or_introl eq_refl)), IH; [reflexivity|].
  intros x Hx. apply H. right. exact Hx.
Qed.

Lemma filter_length_flat_map_const {A B : Type} (p : B -> bool) (q : A -> bool)
    (f : A -> list B) (l : list A) (n : nat) :
  (forall a b, In b (f a) -> p b = q a) ->
  (forall a, List.length (f a) = n) ->
  List.length (filter p (flat_map f l)) = (List.length (filter q l) * n)%nat.
Proof.
  intros Hp Hn. induction l as [|a l IH]; simpl; [reflexivity|].
  rewrite filter_app, length_app, IH.
  destruct (q a) eqn:Q.
  - rewrite filter_all; [cbn [List.length]; rewrite (Hn a); lia|].
    intros b Hb. rewrite (Hp a b Hb). exact Q.
  - rewrite filter_none; [reflexivity|].
    apply Forall_forall. intros b Hb. rewrite (Hp a b Hb). exact Q.
Qed.

(** X15. The size of the export.  When no two rows of the unpivoted
    population table share their key, the export of transform_data has
    exactly one row per row of the main table and year column of the main
    table whose year lies in [2010, 2020]: its length is the number of rows
    of the main table times the number of such columns. *)
Theorem export_row_count (pd : pandas_version) main_clean meta_clean pop_clean final pop_long :
  transform_data pd main_clean meta_clean pop_clean = Ok final ->
  pop_long_of main_clean pop_clean = Ok pop_long ->
  ForallOrdPairs (fun p1 p2 => pop_key_eqb p1 p2 = false) pop_long ->
  List.length final
  = (List.length (filter (fun v => between 2010 2020 (int_of_str v))
                         (value_vars main_clean))
     * List.length (rows main_clean))%nat.
Proof.
  intros H Hp Hu.
  apply transform_data_Ok in H. destruct H as [sorted [Hs ->]].
  destruct (merged_sorted_Ok _ _ _ Hs) as [gl [pl [rated [Hg [Hp' [Hq ->]]]]]].
  rewrite Hp in Hp'. injection Hp' as <-.
  destruct (derive_ratio_Ok _ _ Hq) as [Hfst _].
  rewrite length_map.
  rewrite (filter_length_perm _ _ _ (sort_values_perm name_year _)).
  rewrite (filter_length_map (fun r => (joined r, gdp_per_capita r))
             (fun x => between 2010 2020 (year (left (fst x))))).
  rewrite derive_change_rows.
  rewrite (filter_length_perm _ _ _ (sort_values_perm code_year rated)).
  rewrite (filter_length_map fst (fun m => between 2010 2020 (year (left m)))).
  rewrite Hfst.
  rewrite (filter_length_map left (fun g => between 2010 2020 (year g))).
  rewrite (merge_left_lefts _ _ Hu).
  apply gdp_long_of_Ok in Hg. destruct Hg as [_ ->].
  apply filter_length_flat_map_const.
  - intros v g Hin. apply in_map_iff in Hin. destruct Hin as [r [<- _]]. reflexivity.
  - intros v. apply length_map.
Qed.

(** The scenario of the change with its first year, 2009, outside the
    window: three year columns, two of them kept, one row. *)
Lemma export_row_count_witness :
  exists final,
    transform_data Pandas3 (main_ratios 2009) meta_none (pop_ratios 2009) = Ok final /\
    List.length final = 2%nat.
Proof.
  eexists.
  assert (Ht : transform_data Pandas3 (main_ratios 2009) meta_none (pop_ratios 2009) = Ok _)
    by (vm_compute; reflexivity).
  split; [exact Ht|].
  rewrite (export_row_count _ _ _ _ _ _ Ht
             (eq_refl : pop_long_of (main_ratios 2009) (pop_ratios 2009) = Ok _)).
  - reflexivity.
  - vm_compute. repeat constructor.
Defined.
